(** * gfspy: a shallow embedding of [gfspy.py] and its specification

    The development embeds the Python module [gfspy/gfspy.py] (class
    [Forcast], [get_attributes], [extract_line], [hour_round]) and states
    the properties of the specification over that embedding.

    Conventions.
    - Python exceptions are values of [exn]; a computation that may raise
      returns a [result].
    - A Python [str] is a [string] (the ASCII fragment: one character per
      byte).  A [dict] is a [gmap]; a local variable that may be unbound
      is an [option].
    - A naive [datetime] is the number of microseconds since
      0001-01-01T00:00:00, a [timedelta] a number of microseconds; the
      year range 1..9999 of [datetime] (an OverflowError at its edges) is
      not modelled.
    - Python's [float] is Rocq's primitive [float]: IEEE-754 binary64
      with round-to-nearest-even, what CPython computes with. *)

From Stdlib Require Import ZArith QArith List String Ascii Bool Lia.
From Stdlib Require Import Floats.
From stdpp Require Import gmap strings.

Local Open Scope string_scope.
Local Open Scope Z_scope.

#[local] Arguments String.append !s1 s2 : simpl nomatch.

(** ** Exceptions and results *)

Inductive exn : Type :=
| ValueError (msg : string)
| TypeError (msg : string)
| KeyError (key : string)
| IndexError (msg : string)
| ZeroDivisionError
| OverflowError
| UnboundLocalError (name : string)
| FileNotFoundError (path : string)
| RuntimeError (msg : string)
| Exception (msg : string).

Inductive result (A : Type) : Type :=
| Ok (a : A)
| Raise (e : exn).
Arguments Ok {A} a.
Arguments Raise {A} e.

Definition rbind {A B} (r : result A) (k : A -> result B) : result B :=
  match r with
  | Ok a => k a
  | Raise e => Raise e
  end.

#[global] Instance result_bind : MBind result := fun _ _ k r => rbind r k.
#[global] Instance result_ret : MRet result := fun _ a => Ok a.

Definition is_ok {A} (r : result A) : bool :=
  match r with Ok _ => true | Raise _ => false end.

Definition is_ValueError {A} (r : result A) : bool :=
  match r with Raise (ValueError _) => true | _ => false end.

(** [for x in xs: acc = body(acc, x)], stopping at the first exception. *)
Fixpoint for_each {A S} (body : S -> A -> result S) (xs : list A) (acc : S)
  : result S :=
  match xs with
  | [] => Ok acc
  | x :: xs' => acc' ← body acc x; for_each body xs' acc'
  end.

(** ** Strings *)

Module Str.

Definition newline : ascii := ascii_of_nat 10.

(** [str.isspace] on one ASCII character: TAB..CR, FS..US and space. *)
Definition is_space (c : ascii) : bool :=
  let n := nat_of_ascii c in
  ((9 <=? n)%nat && (n <=? 13)%nat) || ((28 <=? n)%nat && (n <=? 32)%nat).

Definition is_digit (c : ascii) : bool :=
  let n := nat_of_ascii c in (48 <=? n)%nat && (n <=? 57)%nat.

Fixpoint all (p : ascii -> bool) (s : string) : bool :=
  match s with
  | EmptyString => true
  | String c s' => p c && all p s'
  end.

Fixpoint mem (c : ascii) (s : string) : bool :=
  match s with
  | EmptyString => false
  | String d s' => Ascii.eqb c d || mem c s'
  end.

(** [s.isnumeric()]: non-empty and every character numeric. *)
Definition isnumeric (s : string) : bool :=
  match s with
  | EmptyString => false
  | _ => all is_digit s
  end.

Fixpoint drop (n : nat) (s : string) : string :=
  match n, s with
  | O, _ => s
  | S n', String _ s' => drop n' s'
  | S _, EmptyString => EmptyString
  end.

Fixpoint take (n : nat) (s : string) : string :=
  match n, s with
  | S n', String c s' => String c (take n' s')
  | _, _ => EmptyString
  end.

(** A slice bound as Python clamps it: negative counts from the end. *)
Definition clamp (len : nat) (i : Z) : nat :=
  if i <? 0 then Z.to_nat (Z.max 0 (Z.of_nat len + i))
  else Nat.min len (Z.to_nat i).

(** [s[i:j]] and [s[i:]]. *)
Definition slice (s : string) (i j : Z) : string :=
  let len := String.length s in
  let a := clamp len i in
  let b := clamp len j in
  take (b - a) (drop a s).

Definition slice_from (s : string) (i : Z) : string :=
  drop (clamp (String.length s) i) s.

(** [s[0]] and [s[-1]]; IndexError on the empty string. *)
Definition first (s : string) : result ascii :=
  match s with
  | EmptyString => Raise (IndexError "string index out of range")
  | String c _ => Ok c
  end.

Fixpoint last_opt (s : string) : option ascii :=
  match s with
  | EmptyString => None
  | String c EmptyString => Some c
  | String _ s' => last_opt s'
  end.

Definition last (s : string) : result ascii :=
  match last_opt s with
  | None => Raise (IndexError "string index out of range")
  | Some c => Ok c
  end.

(** [s.find(sub)]: lowest index of [sub] in [s], or -1. *)
Fixpoint find_from (sub s : string) (i : Z) : Z :=
  if String.prefix sub s then i
  else match s with
       | EmptyString => -1
       | String _ s' => find_from sub s' (i + 1)
       end.

Definition find (sub s : string) : Z := find_from sub s 0.

(** [s.split(sep)] for a one-character separator: empty pieces kept. *)
Fixpoint split_on (sep : ascii) (s : string) : list string :=
  match s with
  | EmptyString => [EmptyString]
  | String c s' =>
      if Ascii.eqb c sep then EmptyString :: split_on sep s'
      else match split_on sep s' with
           | w :: ws => String c w :: ws
           | [] => [String c EmptyString]
           end
  end.

(** [s.split()]: the maximal runs of non-whitespace characters. *)
Fixpoint words_aux (cur : option string) (s : string) : list string :=
  match s with
  | EmptyString =>
      match cur with Some w => [w] | None => [] end
  | String c s' =>
      if is_space c then
        match cur with
        | Some w => w :: words_aux None s'
        | None => words_aux None s'
        end
      else
        match cur with
        | Some w => words_aux (Some (w +:+ String c EmptyString)) s'
        | None => words_aux (Some (String c EmptyString)) s'
        end
  end.

Definition words (s : string) : list string := words_aux None s.

(** Decimal rendering of an integer, as [str(int)] and ["%s" % int]. *)
Definition digit_char (d : Z) : ascii := ascii_of_nat (48 + Z.to_nat d).

Fixpoint render_pos (fuel : nat) (n : Z) (acc : string) : string :=
  match fuel with
  | O => acc
  | S fuel' =>
      let acc' := String (digit_char (n mod 10)) acc in
      if n <? 10 then acc' else render_pos fuel' (n / 10) acc'
  end.

Definition of_Z (n : Z) : string :=
  if n <? 0 then "-" +:+ render_pos (S (Z.to_nat (Z.log2 (- n)))) (- n) ""
  else render_pos (S (Z.to_nat (Z.log2 n))) n "".

(** The value of a string of decimal digits. *)
Fixpoint digits_value (s : string) (acc : Z) : Z :=
  match s with
  | EmptyString => acc
  | String c s' => digits_value s' (10 * acc + (Z.of_nat (nat_of_ascii c) - 48))
  end.

Fixpoint concat (l : list string) : string :=
  match l with
  | [] => EmptyString
  | s :: l' => s +:+ concat l'
  end.

End Str.

(** ** Floats *)

Module Flt.

(** The float nearest to the rational [m / d] ([m >= 0], [d > 0]), with
    sign [neg]; ties go to the even mantissa. *)
Definition of_ratio (neg : bool) (m d : Z) : float :=
  if m =? 0 then (if neg then neg_zero else zero)
  else
    let '(q, e, l) := SFdiv_core_binary prec emax m 0 d 0 in
    SF2Prim (binary_round_aux prec emax neg q e l).

(** [float(n)] for an integer [n]. *)
Definition of_Z (n : Z) : float :=
  of_ratio (n <? 0) (Z.abs n) 1.

(** [int(x)]: truncation toward zero. *)
Definition trunc (x : float) : result Z :=
  match Prim2SF x with
  | S754_zero _ => Ok 0
  | S754_infinity _ =>
      Raise OverflowError
  | S754_nan =>
      Raise (ValueError "cannot convert float NaN to integer")
  | S754_finite s m e =>
      let a := if 0 <=? e then Z.pos m * 2 ^ e else Z.pos m / 2 ^ (- e) in
      Ok (if s then - a else a)
  end.

(** The exact value of a finite float, as a rational. *)
Definition value (x : float) : option Q :=
  match Prim2SF x with
  | S754_zero _ => Some 0%Q
  | S754_finite s m e =>
      let a := if 0 <=? e then inject_Z (Z.pos m * 2 ^ e)
               else Qmake (Z.pos m) (Z.to_pos (2 ^ (- e))) in
      Some (if s then Qopp a else a)
  | _ => None
  end.

(** [x / y], which raises on a zero divisor before dividing. *)
Definition truediv (x y : float) : result float :=
  if PrimFloat.eqb y zero then Raise ZeroDivisionError
  else Ok (PrimFloat.div x y).

(** [min(a, b)] and [max(a, b)] of the builtins: the first argument
    unless the second is strictly smaller (larger). *)
Definition min (a b : float) : float := if PrimFloat.ltb b a then b else a.
Definition max (a b : float) : float := if PrimFloat.ltb a b then b else a.

(** *** [float(str)]

    A decimal literal: optional surrounding whitespace, an optional sign,
    digits with an optional fraction and an optional exponent, or one of
    inf, infinity, nan in any case.  (Underscores between digits, which
    Python also accepts, are not.) *)

Definition lower (c : ascii) : ascii :=
  let n := nat_of_ascii c in
  if ((65 <=? n)%nat && (n <=? 90)%nat)%bool then ascii_of_nat (n + 32) else c.

Fixpoint lower_str (s : string) : string :=
  match s with
  | EmptyString => EmptyString
  | String c s' => String (lower c) (lower_str s')
  end.

Fixpoint lstrip (s : string) : string :=
  match s with
  | String c s' => if Str.is_space c then lstrip s' else s
  | EmptyString => EmptyString
  end.

Fixpoint rstrip (s : string) : string :=
  match s with
  | EmptyString => EmptyString
  | String c s' =>
      match rstrip s' with
      | EmptyString => if Str.is_space c then EmptyString else String c EmptyString
      | r => String c r
      end
  end.

Definition strip (s : string) : string := rstrip (lstrip s).

(** The longest prefix of decimal digits and what follows it. *)
Fixpoint span_digits (s : string) : string * string :=
  match s with
  | String c s' =>
      if Str.is_digit c then
        let '(ds, r) := span_digits s' in (String c ds, r)
      else (EmptyString, s)
  | EmptyString => (EmptyString, EmptyString)
  end.

Definition take_sign (s : string) : bool * string :=
  match s with
  | String "-" s' => (true, s')
  | String "+" s' => (false, s')
  | _ => (false, s)
  end.

(** [Some (mantissa, exponent)] for the unsigned literal [m * 10^e]. *)
Definition parse_unsigned (s : string) : option (Z * Z) :=
  let '(ip, r1) := span_digits s in
  let '(fp, r2) :=
    match r1 with
    | String "." r => span_digits r
    | _ => (EmptyString, r1)
    end in
  if ((String.length ip =? 0)%nat && (String.length fp =? 0)%nat)%bool then None
  else
    let m := Str.digits_value (ip +:+ fp) 0 in
    let e0 := - Z.of_nat (String.length fp) in
    match r2 with
    | EmptyString => Some (m, e0)
    | String c r =>
        if (Ascii.eqb c "e" || Ascii.eqb c "E")%bool then
          let '(neg, r') := take_sign r in
          let '(ds, r3) := span_digits r' in
          match ds, r3 with
          | String _ _, EmptyString =>
              let x := Str.digits_value ds 0 in
              Some (m, e0 + (if neg then - x else x))
          | _, _ => None
          end
        else None
    end.

Definition of_decimal (neg : bool) (m e : Z) : float :=
  if 0 <=? e then of_ratio neg (m * 10 ^ e) 1
  else of_ratio neg m (10 ^ (- e)).

Definition of_string (s : string) : option float :=
  let '(neg, body) := take_sign (strip s) in
  let low := lower_str body in
  if (String.eqb low "inf" || String.eqb low "infinity")%bool then
    Some (if neg then neg_infinity else infinity)
  else if String.eqb low "nan" then Some nan
  else
    match parse_unsigned body with
    | Some (m, e) => Some (of_decimal neg m e)
    | None => None
    end.

(** *** [repr(x)] and [str(x)]: the shortest decimal that reads back as [x] *)

(** [10^k <= num/den] *)
Definition ge_pow10 (num den k : Z) : bool :=
  if 0 <=? k then den * 10 ^ k <=? num else den <=? num * 10 ^ (- k).

Fixpoint adjust_exp10 (fuel : nat) (num den k : Z) : Z :=
  match fuel with
  | O => k
  | S fuel' =>
      if ge_pow10 num den (k + 1) then adjust_exp10 fuel' num den (k + 1)
      else k
  end.

(** The decimal exponent [k] of [num/den]: [10^k <= num/den < 10^(k+1)]. *)
Definition exp10 (num den : Z) : Z :=
  let l := Z.log2 num - Z.log2 den in
  adjust_exp10 8 num den ((l - 1) * 30103 / 100000 - 2).

(** The two [p]-digit neighbours of [num/den] in units of [10^s]:
    the lower one and twice the remainder compared with the unit. *)
Definition scaled (num den s : Z) : Z * comparison :=
  let '(n, d) := if 0 <=? s then (num, den * 10 ^ s) else (num * 10 ^ (- s), den) in
  (n / d, (2 * (n mod d)) ?= d).

Definition reads_back (x : float) (c s : Z) : bool :=
  match Prim2SF x, Prim2SF (of_decimal false c s) with
  | S754_finite _ m e, S754_finite _ m' e' => ((m =? m')%positive && (e =? e'))%bool
  | _, _ => false
  end.

Fixpoint shortest (fuel : nat) (x : float) (num den k p : Z) : Z * Z :=
  let s := k - p + 1 in
  let '(lo, half) := scaled num den s in
  let near := match half with
              | Lt => lo
              | Gt => lo + 1
              | Eq => if Z.even lo then lo else lo + 1
              end in
  let far := if near =? lo then lo + 1 else lo in
  match fuel with
  | O => (near, s)
  | S fuel' =>
      if reads_back x near s then (near, s)
      else if reads_back x far s then (far, s)
      else shortest fuel' x num den k (p + 1)
  end.

Fixpoint strip_zeros (fuel : nat) (c s : Z) : Z * Z :=
  match fuel with
  | O => (c, s)
  | S fuel' =>
      if ((c mod 10 =? 0) && negb (c =? 0))%bool then strip_zeros fuel' (c / 10) (s + 1)
      else (c, s)
  end.

Fixpoint zeros (n : nat) : string :=
  match n with
  | O => EmptyString
  | S n' => String "0" (zeros n')
  end.

Definition render_digits (c s : Z) : string :=
  let ds := Str.of_Z c in
  let n := Z.of_nat (String.length ds) in
  let k := n - 1 + s in
  if ((-4 <=? k) && (k <? 16))%bool then
    if 0 <=? s then ds +:+ zeros (Z.to_nat s) +:+ ".0"
    else if 0 <=? k then
      Str.take (Z.to_nat (k + 1)) ds +:+ "." +:+ Str.drop (Z.to_nat (k + 1)) ds
    else "0." +:+ zeros (Z.to_nat (- k - 1)) +:+ ds
  else
    let mant := match ds with
                | String d EmptyString => String d EmptyString
                | String d r => String d ("." +:+ r)
                | EmptyString => EmptyString
                end in
    let ex := Str.of_Z (Z.abs k) in
    mant +:+ "e" +:+ (if k <? 0 then "-" else "+")
         +:+ (if Z.abs k <? 10 then "0" else "") +:+ ex.

Definition repr (x : float) : string :=
  match Prim2SF x with
  | S754_nan => "nan"
  | S754_infinity s => if s then "-inf" else "inf"
  | S754_zero s => if s then "-0.0" else "0.0"
  | S754_finite sg m e =>
      let '(num, den) := if 0 <=? e then (Z.pos m * 2 ^ e, 1) else (Z.pos m, 2 ^ (- e)) in
      let k := exp10 num den in
      let '(c, s) := shortest 17 (PrimFloat.abs x) num den k 1 in
      let '(c', s') := strip_zeros 20 c s in
      (if sg then "-" else "") +:+ render_digits c' s'
  end.

End Flt.

(** ** Python values and builtins *)

(** The values the module handles: attribute values read from the
    service (strings, floats, booleans) and the arguments of
    [Forcast.get]; [VList] is a list of [str]. *)
Inductive pyval : Type :=
| VNone
| VBool (b : bool)
| VInt (n : Z)
| VFloat (x : float)
| VStr (s : string)
| VList (l : list string).

Definition quote (s : string) : string := "'" +:+ s +:+ "'".

Fixpoint join (sep : string) (l : list string) : string :=
  match l with
  | [] => EmptyString
  | [x] => x
  | x :: l' => x +:+ sep +:+ join sep l'
  end.

(** [str(v)], as the [%s] and [{}] conversions apply it. *)
Definition py_str (v : pyval) : string :=
  match v with
  | VNone => "None"
  | VBool b => if b then "True" else "False"
  | VInt n => Str.of_Z n
  | VFloat x => Flt.repr x
  | VStr s => s
  | VList l => "[" +:+ join ", " (map quote l) +:+ "]"
  end.

(** [float(v)] *)
Definition py_float (v : pyval) : result float :=
  match v with
  | VFloat x => Ok x
  | VInt n => Ok (Flt.of_Z n)
  | VBool b => Ok (Flt.of_Z (if b then 1 else 0))
  | VStr s =>
      match Flt.of_string s with
      | Some x => Ok x
      | None => Raise (ValueError ("could not convert string to float: " +:+ quote s))
      end
  | VNone =>
      Raise (TypeError "float() argument must be a string or a real number, not 'NoneType'")
  | VList _ =>
      Raise (TypeError "float() argument must be a string or a real number, not 'list'")
  end.

(** [int(s)] for a string: an optional sign and decimal digits. *)
Definition int_of_string (s : string) : option Z :=
  let '(neg, body) := Flt.take_sign (Flt.strip s) in
  match Flt.span_digits body with
  | (String c ds, EmptyString) =>
      let n := Str.digits_value (String c ds) 0 in
      Some (if neg then - n else n)
  | _ => None
  end.

(** [int(v)] *)
Definition py_int (v : pyval) : result Z :=
  match v with
  | VInt n => Ok n
  | VBool b => Ok (if b then 1 else 0)
  | VFloat x => Flt.trunc x
  | VStr s =>
      match int_of_string s with
      | Some n => Ok n
      | None =>
          Raise (ValueError ("invalid literal for int() with base 10: " +:+ quote s))
      end
  | VNone =>
      Raise (TypeError "int() argument must be a string, a bytes-like object or a real number, not 'NoneType'")
  | VList _ =>
      Raise (TypeError "int() argument must be a string, a bytes-like object or a real number, not 'list'")
  end.

(** [v[0]] *)
Definition py_index0 (v : pyval) : result pyval :=
  match v with
  | VStr (String c _) => Ok (VStr (String c EmptyString))
  | VStr EmptyString => Raise (IndexError "string index out of range")
  | VList (x :: _) => Ok (VStr x)
  | VList [] => Raise (IndexError "list index out of range")
  | _ => Raise (TypeError "object is not subscriptable")
  end.

(** The numeric tower under [-] and [/]: [bool] and [int] are integers. *)
Definition as_int (v : pyval) : option Z :=
  match v with
  | VInt n => Some n
  | VBool b => Some (if b then 1 else 0)
  | _ => None
  end.

Definition as_float (v : pyval) : option float :=
  match v with
  | VFloat x => Some x
  | _ => option_map Flt.of_Z (as_int v)
  end.

(** [a - b] *)
Definition py_sub (a b : pyval) : result pyval :=
  match as_int a, as_int b with
  | Some m, Some n => Ok (VInt (m - n))
  | _, _ =>
      match as_float a, as_float b with
      | Some x, Some y => Ok (VFloat (PrimFloat.sub x y))
      | _, _ => Raise (TypeError "unsupported operand type(s) for -")
      end
  end.

(** [a / b] (operands below 2^53 in magnitude when both are integers) *)
Definition py_truediv (a b : pyval) : result pyval :=
  match as_float a, as_float b with
  | Some x, Some y => q ← Flt.truediv x y; Ok (VFloat q)
  | _, _ => Raise (TypeError "unsupported operand type(s) for /")
  end.

(** [v == True] *)
Definition py_eq_True (v : pyval) : bool :=
  match v with
  | VBool b => b
  | VInt n => n =? 1
  | VFloat x => PrimFloat.eqb x one
  | _ => false
  end.

(** [v == []] *)
Definition py_eq_empty_list (v : pyval) : bool :=
  match v with
  | VList [] => true
  | _ => false
  end.

(** [a + b] where [a] is a [str]: concatenation, a TypeError otherwise. *)
Definition py_str_add (a : string) (b : pyval) : result string :=
  match b with
  | VStr s => Ok (a +:+ s)
  | _ => Raise (TypeError "can only concatenate str to str")
  end.

(** [d[k]] on a dict *)
Definition getitem {V} (d : gmap string V) (k : string) : result V :=
  match d !! k with
  | Some v => Ok v
  | None => Raise (KeyError k)
  end.

(** [range(0, n)] *)
Definition range (n : Z) : list Z := map Z.of_nat (seq 0 (Z.to_nat n)).

(** [[f(x) for x in xs]], stopping at the first exception. *)
Fixpoint comprehension {A B} (f : A -> result B) (xs : list A) : result (list B) :=
  match xs with
  | [] => Ok []
  | x :: xs' => y ← f x; ys ← comprehension f xs'; Ok (y :: ys)
  end.

(** [round(a / b)] for integers [a] and [b]: [a / b] is the float nearest
    to the quotient, and [round] takes a float to the nearest integer,
    ties to even.  For [0 <= a < 2^52] the float lies on the same side of
    every half-integer as the quotient (a quotient that is not a
    half-integer is at least [1/(2|b|)] away from one, the float less
    than that away from the quotient), so the result is the quotient
    rounded half-to-even. *)
Definition round_half_even (a b : Z) : Z :=
  let '(a, b) := if b <? 0 then (- a, - b) else (a, b) in
  let q := a / b in
  match (2 * (a mod b)) ?= b with
  | Lt => q
  | Gt => q + 1
  | Eq => if Z.even q then q else q + 1
  end.

Definition round_div (a b : Z) : result Z :=
  if b =? 0 then Raise ZeroDivisionError else Ok (round_half_even a b).

(** ** Regular expressions

    The patterns of the module are sequences of literals and lazy groups
    [(.*?)]; [.] matches any character but a newline. *)

Module Re.

Inductive item : Type :=
| Lit (s : string)
| Group.

(** A match of the pattern at the start of [s]: the captured groups and
    the number of characters consumed.  A lazy group first tries to take
    nothing and grows by one character each time the rest fails. *)
Fixpoint match_here (p : list item) (s : string) {struct p}
  : option (list string * nat) :=
  match p with
  | [] => Some ([], O)
  | Lit l :: p' =>
      if String.prefix l s then
        match match_here p' (Str.drop (String.length l) s) with
        | Some (caps, n) => Some (caps, (String.length l + n)%nat)
        | None => None
        end
      else None
  | Group :: p' =>
      (fix lazy (s : string) : option (list string * nat) :=
         match match_here p' s with
         | Some (caps, n) => Some (EmptyString :: caps, n)
         | None =>
             match s with
             | String c s' =>
                 if Ascii.eqb c Str.newline then None
                 else match lazy s' with
                      | Some (cap :: caps, n) => Some (String c cap :: caps, S n)
                      | _ => None
                      end
             | EmptyString => None
             end
         end) s
  end.

(** [re.findall]: the groups of the successive non-overlapping matches,
    scanning from the left; [skip] characters belong to the last match. *)
Fixpoint findall_from (p : list item) (skip : nat) (s : string)
  : list (list string) :=
  match skip with
  | S k =>
      match s with
      | String _ s' => findall_from p k s'
      | EmptyString => []
      end
  | O =>
      match match_here p s with
      | Some (caps, n) =>
          caps :: match s with
                  | String _ s' => findall_from p (n - 1) s'
                  | EmptyString => []
                  end
      | None =>
          match s with
          | String _ s' => findall_from p O s'
          | EmptyString => []
          end
      end
  end.

Definition findall (p : list item) (s : string) : list (list string) :=
  findall_from p O s.

(** [findall] for a pattern with one group: a list of strings. *)
Definition findall1 (p : list item) (s : string) : list string :=
  map (fun caps => match caps with c :: _ => c | [] => EmptyString end)
      (findall p s).

Definition head_is_space (s : string) : bool :=
  match s with
  | String c _ => Str.is_space c
  | EmptyString => false
  end.

(** [re.sub("\s{2,}", "", s)]: every maximal run of two or more
    whitespace characters is deleted. *)
Fixpoint sub_space_runs (in_run : bool) (s : string) : string :=
  match s with
  | EmptyString => EmptyString
  | String c s' =>
      if in_run then
        if Str.is_space c then sub_space_runs true s'
        else String c (sub_space_runs false s')
      else if (Str.is_space c && head_is_space s')%bool then sub_space_runs true s'
      else String c (sub_space_runs false s')
  end.

End Re.

(** ** [datetime] and [timedelta]

    A naive [datetime] is its offset from 0001-01-01T00:00:00 in
    microseconds, a [timedelta] a number of microseconds. *)

Module DT.

Definition second_us : Z := 1000000.
Definition minute_us : Z := 60 * second_us.
Definition hour_us : Z := 60 * minute_us.
Definition day_us : Z := 24 * hour_us.

(** [timedelta(days=, hours=, minutes=, seconds=, microseconds=)] *)
Definition timedelta (days hours minutes seconds microseconds : Z) : Z :=
  days * day_us + hours * hour_us + minutes * minute_us
  + seconds * second_us + microseconds.

Definition days (n : Z) : Z := timedelta n 0 0 0 0.
Definition hours (n : Z) : Z := timedelta 0 n 0 0 0.

(** The fields [t.hour], [t.minute], [t.second], [t.microsecond]. *)
Definition hour (t : Z) : Z := (t / hour_us) mod 24.
Definition minute (t : Z) : Z := (t / minute_us) mod 60.
Definition second (t : Z) : Z := (t / second_us) mod 60.
Definition microsecond (t : Z) : Z := t mod second_us.

(** [t.replace(hour=h, minute=m, second=s, microsecond=us)] *)
Definition replace_time (t h m s us : Z) : Z :=
  (t / day_us) * day_us + timedelta 0 h m s us.

(** [d.seconds] of a timedelta: the seconds within the day, without the
    days and the microseconds ([d.total_seconds()] is the whole). *)
Definition seconds (d : Z) : Z := (d / second_us) mod 86400.

(** The proleptic Gregorian calendar: days since 0001-01-01 to
    (year, month, day) and back. *)
Definition ymd_of_days (d : Z) : Z * Z * Z :=
  let z := d + 306 in
  let era := z / 146097 in
  let doe := z mod 146097 in
  let yoe := (doe - doe / 1460 + doe / 36524 - doe / 146096) / 365 in
  let doy := doe - (365 * yoe + yoe / 4 - yoe / 100) in
  let mp := (5 * doy + 2) / 153 in
  let day := doy - (153 * mp + 2) / 5 + 1 in
  let month := if mp <? 10 then mp + 3 else mp - 9 in
  let year := yoe + era * 400 + (if month <=? 2 then 1 else 0) in
  (year, month, day).

Definition days_of_ymd (y m d : Z) : Z :=
  let y' := if m <=? 2 then y - 1 else y in
  let era := y' / 400 in
  let yoe := y' mod 400 in
  let doy := (153 * (if 2 <? m then m - 3 else m + 9) + 2) / 5 + d - 1 in
  let doe := yoe * 365 + yoe / 4 - yoe / 100 + doy in
  era * 146097 + doe - 306.

(** [datetime(y, mo, d, h, mi, s, us)] *)
Definition datetime (y mo d h mi s us : Z) : Z :=
  days_of_ymd y mo d * day_us + timedelta 0 h mi s us.

(** Zero-padded decimal of width [w], as [%02d] and [%04d]. *)
Definition pad (w : nat) (n : Z) : string :=
  let ds := Str.of_Z n in
  Flt.zeros (w - String.length ds) +:+ ds.

(** [t.strftime("%Y%m%d")] and [t.strftime("%H")] *)
Definition strftime_Ymd (t : Z) : string :=
  let '(y, m, d) := ymd_of_days (t / day_us) in
  pad 4 y +:+ pad 2 m +:+ pad 2 d.

Definition strftime_H (t : Z) : string := pad 2 (hour t).

(** [str(t)] *)
Definition str (t : Z) : string :=
  let '(y, m, d) := ymd_of_days (t / day_us) in
  pad 4 y +:+ "-" +:+ pad 2 m +:+ "-" +:+ pad 2 d +:+ " "
  +:+ pad 2 (hour t) +:+ ":" +:+ pad 2 (minute t) +:+ ":" +:+ pad 2 (second t)
  +:+ (if microsecond t =? 0 then "" else "." +:+ pad 6 (microsecond t)).

End DT.

(** ** The outside world *)

(** A decoded variable: its value array and the sample values of its
    named coordinate axes ([.data], [.coords[name].values]). *)
Record ndarray : Type := { shape : list nat; flat : list float }.

Record variable : Type := { data : ndarray; axes : gmap string (list float) }.

Record response : Type := { status_code : Z; text : string }.

(** What [get_attributes] caches for one configuration. *)
Record catalog : Type := {
  cat_time : gmap string pyval;
  cat_coords : gmap string (gmap string pyval);
  cat_variables : gmap string (gmap string pyval)
}.

(** The clock ([datetime.utcnow()], and [datetime.today()] in local
    time), the data service, the requests sent to it so far (latest
    first), and the two kinds of files of the cache: the list
    ["saved_atts"] of [config.json] and one catalog per configuration. *)
Record world : Type := {
  utcnow : Z;
  today : Z;
  service : string -> response;
  requests : list string;
  saved_atts : list string;
  atts : gmap string catalog
}.

(** [requests.get(url)] *)
Definition requests_get (u : string) (w : world) : response * world :=
  (service w u,
   {| utcnow := utcnow w; today := today w; service := service w;
      requests := u :: requests w;
      saved_atts := saved_atts w; atts := atts w |}).

(** The module's start-up: [config.json] is created with ["Na"] as its
    only saved configuration. *)
Definition initial_world (now local : Z) (srv : string -> response) : world :=
  {| utcnow := now; today := local; service := srv; requests := [];
     saved_atts := ["Na"]; atts := ∅ |}.

(** [RegularGridInterpolator(points, values)], as the arguments of the
    call: the grid axes and the values over them. *)
Record interpolator : Type := { grid : list (list float); values : ndarray }.

(** The number of coordinates a call of the interpolator takes. *)
Definition ndim (i : interpolator) : nat := length (grid i).

(** [a.squeeze()]: the axes of length one are removed. *)
Definition squeeze (a : ndarray) : ndarray :=
  {| shape := List.filter (fun n => negb (n =? 1)%nat) (shape a); flat := flat a |}.

(** ** The module [gfspy] *)

Definition nl : string := String Str.newline EmptyString.

(** A double quote, as a string. *)
Definition dq : string := String (ascii_of_nat 34) EmptyString.

(** [hour_round(t)] *)
Definition hour_round (t : Z) : Z :=
  DT.replace_time t (DT.hour t) 0 0 0 + DT.hours (DT.minute t / 30).

(** [format(hour, "02d")] *)
Definition format_02d (hour : pyval) : result string :=
  match as_int hour with
  | Some n => Ok (if n <? 0 then Str.of_Z n else DT.pad 2 n)
  | None =>
      match hour with
      | VStr _ => Raise (ValueError "Unknown format code 'd' for object of type 'str'")
      | VFloat _ => Raise (ValueError "Unknown format code 'd' for object of type 'float'")
      | _ => Raise (TypeError "unsupported format string passed to __format__")
      end
  end.

(** [url.format(res=, step=, date=, hour=, info=)] *)
Definition url (res step date : string) (hour : pyval) (info : string)
  : result string :=
  h ← format_02d hour;
  Ok ("https://nomads.ncep.noaa.gov/dods/gfs_" +:+ res +:+ step +:+ "/gfs" +:+ date
      +:+ "/gfs_" +:+ res +:+ step +:+ "_" +:+ h +:+ "z." +:+ info).

(** [extract_line(possibles, line)]: [None, None] is [None]. *)
Fixpoint first_found (possibles : list string) (line : string)
  : option (string * Z) :=
  match possibles with
  | [] => None
  | p :: ps =>
      let found := Str.find p line in
      if found =? -1 then first_found ps line else Some (p, found)
  end.

Definition extract_line (possibles : list string) (line : string)
  : result (option (string * pyval)) :=
  match first_found possibles line with
  | Some (p, found) =>
      let n := Z.of_nat (String.length p) in
      if String.eqb (Str.slice line 0 3) "Str" then
        Ok (Some (p, VStr (Str.slice line (found + n + 2) (-1))))
      else if String.eqb (Str.slice line 0 3) "Flo" then
        x ← py_float (VStr (Str.slice_from line (found + n + 1)));
        Ok (Some (p, VFloat x))
      else Ok None
  | None => Ok None
  end.

(** *** class [Forcast] *)

Record Forcast : Type := {
  resolution : string;
  timestep : string;
  times : gmap string pyval;
  coords : gmap string (gmap string pyval);
  variables : gmap string (gmap string pyval)
}.

(** The local variables of [Forcast.get] when its body ends; [lev] is
    assigned on one path only.  ([get] itself returns nothing.) *)
Record locals : Type := {
  forcast_date : string;
  forcast_time : string;
  query_time : string;
  lat : pyval;
  lon : pyval;
  lev : option pyval;
  query : string
}.

(** What the first part of [get] leaves: the run and the time index. *)
Record run_choice : Type := {
  query_forcast : Z;
  run_date : string;
  run_hour : string;
  time_index : Z
}.

(** *** [get_attributes] *)

(** [timedelta(kw=n)] for a keyword [kw]: the constructor knows seven. *)
Definition timedelta_kw (kw : string) (n : Z) : result Z :=
  if String.eqb kw "days" then Ok (n * DT.day_us)
  else if String.eqb kw "seconds" then Ok (n * DT.second_us)
  else if String.eqb kw "microseconds" then Ok n
  else if String.eqb kw "milliseconds" then Ok (n * 1000)
  else if String.eqb kw "minutes" then Ok (n * DT.minute_us)
  else if String.eqb kw "hours" then Ok (n * DT.hour_us)
  else if String.eqb kw "weeks" then Ok (n * 7 * DT.day_us)
  else Raise (TypeError ("'" +:+ kw +:+ "' is an invalid keyword argument for __new__()")).

(** The reference date of the metadata request. *)
Definition reference_date (now : Z) : result Z :=
  if DT.hour now <? 6 then
    d ← timedelta_kw "day" 1;
    Ok (now - d)
  else Ok now.

(** One pass of [for att in atts], and the loop from an empty dict. *)
Definition add_attribute (possibles : list string) (attributes : gmap string pyval)
    (att : string) : result (gmap string pyval) :=
  r ← extract_line possibles att;
  match r with
  | Some (iden, val) => Ok (<[iden := val]> attributes)
  | None => Ok attributes
  end.

Definition read_attributes (possibles : list string) (atts : list string)
  : result (gmap string pyval) :=
  for_each (add_attribute possibles) atts ∅.

Definition variable_keys : list string := ["_FillValue"; "missing_value"; "long_name"].
Definition time_keys : list string := ["grads_size"; "grads_step"].
Definition coord_keys : list string :=
  ["grads_dim"; "grads_size"; "minimum"; "maximum"; "resolution"].

(** What the loop over [raws] builds: [variables], [coords] and [time],
    the last unbound until a block named time is met. *)
Record das : Type := {
  das_variables : gmap string (gmap string pyval);
  das_coords : gmap string (gmap string pyval);
  das_time : option (gmap string pyval)
}.

Definition read_entity (st : das) (var : list string) : result das :=
  let name := nth 0 var EmptyString in
  let atts := Str.split_on ";" (nth 1 var EmptyString) in
  if negb (existsb (String.eqb name) ["time"; "lat"; "lon"; "lev"]) then
    attributes ← read_attributes variable_keys atts;
    Ok {| das_variables := <[name := attributes]> (das_variables st);
          das_coords := das_coords st; das_time := das_time st |}
  else if String.eqb name "time" then
    attributes ← read_attributes time_keys atts;
    Ok {| das_variables := das_variables st; das_coords := das_coords st;
          das_time := Some attributes |}
  else
    attributes ← read_attributes coord_keys atts;
    Ok {| das_variables := das_variables st;
          das_coords := <[name := attributes]> (das_coords st);
          das_time := das_time st |}.

Definition entity_pattern : list Re.item :=
  [Re.Group; Re.Lit " {"; Re.Group; Re.Lit "}"].

Definition parse_das (body : string) : result das :=
  let search_text := Re.sub_space_runs false (Str.slice body 12 (-2)) in
  let raws := Re.findall entity_pattern search_text in
  for_each read_entity raws
           {| das_variables := ∅; das_coords := ∅; das_time := None |}.

(** The loop over the array declarations. *)
Definition array_pattern : list Re.item :=
  [Re.Lit ("ARRAY:" +:+ nl); Re.Group; Re.Lit nl].

Definition bracket_pattern : list Re.item := [Re.Group; Re.Lit "["].

Definition index_error : exn := IndexError "list index out of range".

(** [for dim in ...: if dim.split()[0] == "lev": lev_dep = True] *)
Definition check_dim (lev_dep : bool) (dim : string) : result bool :=
  match Str.words dim with
  | w :: _ => Ok (if String.eqb w "lev" then true else lev_dep)
  | [] => Raise index_error
  end.

Definition declared_name (array : string) : result string :=
  match Re.findall1 bracket_pattern array with
  | [] => Raise index_error
  | head :: _ =>
      match Str.words head with
      | _ :: var :: _ => Ok var
      | _ => Raise index_error
      end
  end.

Definition mark_array (variables : gmap string (gmap string pyval)) (array : string)
  : result (gmap string (gmap string pyval)) :=
  var ← declared_name array;
  match variables !! var with
  | Some attributes =>
      lev_dep ← for_each check_dim (Re.findall1 bracket_pattern array) false;
      Ok (<[var := <["level_dependent" := VBool lev_dep]> attributes]> variables)
  | None => Ok variables
  end.

Definition mark_level_dependence (body : string)
    (variables : gmap string (gmap string pyval))
  : result (gmap string (gmap string pyval)) :=
  for_each mark_array (Re.findall1 array_pattern body) variables.

Definition not_found : string := "The forcast resolution and timestep was not found".

(** The part of [get_attributes] after the first download. *)
Definition fetch_dds (res step key : string) (d : das) (w : world)
  : result catalog * world :=
  match url res step (DT.strftime_Ymd (today w)) (VInt 0) "dds" with
  | Raise e => (Raise e, w)
  | Ok u =>
      let '(r, w1) := requests_get u w in
      if negb (status_code r =? 200) then (Raise (RuntimeError not_found), w1)
      else
        match
          (variables ← mark_level_dependence (text r) (das_variables d);
           match das_time d with
           | None => Raise (UnboundLocalError "time")
           | Some time =>
               Ok {| cat_time := time; cat_coords := das_coords d;
                     cat_variables := variables |}
           end)
        with
        | Raise e => (Raise e, w1)
        | Ok save =>
            (Ok save,
             {| utcnow := utcnow w1; today := today w1; service := service w1;
                requests := requests w1;
                saved_atts := (saved_atts w1 ++ [key])%list;
                atts := <[key := save]> (atts w1) |})
        end
  end.

(** [get_attributes(res, step)] *)
Definition get_attributes (res step : string) (w : world) : result catalog * world :=
  let key := res +:+ step in
  if negb (existsb (String.eqb key) (saved_atts w)) then
    match (date ← reference_date (utcnow w);
           url res step (DT.strftime_Ymd date) (VInt 0) "das") with
    | Raise e => (Raise e, w)
    | Ok u =>
        let '(r, w1) := requests_get u w in
        if negb (status_code r =? 200) then (Raise (Exception not_found), w1)
        else
          match parse_das (text r) with
          | Raise e => (Raise e, w1)
          | Ok d => fetch_dds res step key d w1
          end
    end
  else
    match atts w !! key with
    | Some data => (Ok data, w)
    | None => (Raise (FileNotFoundError key), w)
    end.

(** [Forcast.__init__(resolution, timestep)] *)
Definition timestep_suffix (timestep : string) : string :=
  if negb (String.eqb timestep EmptyString) then "_" +:+ timestep else timestep.

Definition __init__ (resolution timestep : string) (w : world)
  : result Forcast * world :=
  let timestep := timestep_suffix timestep in
  let '(r, w') := get_attributes resolution timestep w in
  (c ← r;
   Ok {| resolution := resolution; timestep := timestep;
         times := cat_time c; coords := cat_coords c;
         variables := cat_variables c |}, w').

Section Gfspy.

(** [dateutil.parser.parse] and the decoder [File] of the module
    [decode] are collaborators from outside the module. *)
Variable dateutil_parse : string -> result Z.
Variable File : string -> result (gmap string variable).

(** [int(self.times["grads_size"]) * int(self.times["grads_step"][0])]:
    the hours a run extends forward. *)
Definition grads_step (self : Forcast) : result Z :=
  g ← getitem (times self) "grads_step";
  c ← py_index0 g;
  py_int c.

Definition run_extent (self : Forcast) : result Z :=
  g ← getitem (times self) "grads_size";
  size ← py_int g;
  step ← grads_step self;
  Ok (size * step).

Definition earliest_available (now : Z) : Z :=
  hour_round (now - DT.days 7).

Definition latest_available (now extent : Z) : Z :=
  hour_round
    (now - DT.timedelta 0 (DT.hour now - 6 * (DT.hour now / 6) - extent)
                        (DT.minute now) (DT.second now) (DT.microsecond now)).

(** [while desired_date < query_forcast: query_forcast -= timedelta(hours=6)] *)
Fixpoint step_back (fuel : nat) (desired_date query_forcast : Z) : Z :=
  match fuel with
  | O => query_forcast
  | S fuel' =>
      if desired_date <? query_forcast
      then step_back fuel' desired_date (query_forcast - DT.hours 6)
      else query_forcast
  end.

Definition select_run (desired_date latest_forcast : Z) : Z :=
  step_back (Z.to_nat ((latest_forcast - desired_date) / DT.hours 6 + 1))
            desired_date latest_forcast.

Definition not_available (desired_date extent : Z) : exn :=
  ValueError
    ("Datetime requested (" +:+ DT.str desired_date
     +:+ ") is not available the moment, usually only the last weeks worth of forcasts are available and this model only extends "
     +:+ Str.of_Z extent +:+ " hours forward." +:+ nl
     +:+ "This error may be caused by an uninterpretable datetime format.").

(** The branch of [get] taken inside the window: the run is selected,
    its date and hour are formatted and the index of the requested time
    in the run is computed. *)
Definition run_selection (self : Forcast) (desired_date latest_forcast : Z)
  : result run_choice :=
  let q := select_run desired_date latest_forcast in
  step ← grads_step self;
  t_ind ← round_div (DT.seconds (desired_date - q)) (step * 60 * 60);
  Ok {| query_forcast := q;
        run_date := DT.strftime_Ymd q;
        run_hour := DT.strftime_H q;
        time_index := t_ind |}.

(** [get], from its first line to the end of the window test. *)
Definition resolve_time (self : Forcast) (now : Z) (date_time : string)
  : result run_choice :=
  let earliest := earliest_available now in
  extent ← run_extent self;
  let latest := latest_available now extent in
  desired_date ← dateutil_parse date_time;
  let latest_forcast := latest - DT.hours extent in
  if ((earliest <? desired_date) && (desired_date <? latest))%bool then
    run_selection self desired_date latest_forcast
  else Raise (not_available desired_date extent).

(** [value_to_index(coord, value)]: the lattice
    [float(resolution) * n + float(minimum)], one point of [possibles],
    and the search. *)
Definition lattice (res minimum : float) (n : Z) : float :=
  PrimFloat.add (PrimFloat.mul res (Flt.of_Z n)) minimum.

Definition lattice_point (c : gmap string pyval) (n : Z) : result float :=
  r ← getitem c "resolution";
  res ← py_float r;
  m ← getitem c "minimum";
  minimum ← py_float m;
  Ok (lattice res minimum n).

(** [possibles.index(value)] *)
Fixpoint list_index (possibles : list float) (value : float) (i : Z) : result Z :=
  match possibles with
  | [] => Raise (ValueError (Flt.repr value +:+ " is not in list"))
  | x :: rest =>
      if PrimFloat.eqb x value then Ok i else list_index rest value (i + 1)
  end.

Definition value_to_index (self : Forcast) (coord : string) (value : float)
  : result Z :=
  c ← getitem (coords self) coord;
  g ← getitem c "grads_size";
  size ← py_int g;
  possibles ← comprehension (lattice_point c) (range size);
  list_index possibles value 0.

(** The latitude and the longitude paragraphs of [get], which differ in
    the axis ([coord]) and in one word of the message ([name]). *)
Definition bad_format (name : string) (v : pyval) : exn :=
  ValueError
    ("The format of the " +:+ name
     +:+ " variable was incorrect, it must either be a single number or a range in the format [min:max]. You entered '"
     +:+ py_str v +:+ "'").

Definition axis_expression (self : Forcast) (coord name : string) (v : pyval)
  : result pyval :=
  match v with
  | VStr s =>
      c0 ← Str.first s;
      c1 ← (if Ascii.eqb c0 "[" then Str.last s else Ok c0);
      if (Ascii.eqb c0 "[" && Ascii.eqb c1 "]" && Str.mem ":" s)%bool then
        val_1 ← py_float (VList (Re.findall1 [Re.Lit "["; Re.Group; Re.Lit ":"] s));
        val_2 ← py_float (VList (Re.findall1 [Re.Lit ":"; Re.Group; Re.Lit "]"] s));
        val_min ← value_to_index self coord (Flt.min val_1 val_2);
        val_max ← value_to_index self coord (Flt.max val_1 val_2);
        Ok (VStr ("[" +:+ Str.of_Z val_min +:+ ":" +:+ Str.of_Z val_max +:+ "]"))
      else if Str.isnumeric s then
        x ← py_float (VStr s);
        i ← value_to_index self coord x;
        Ok (VStr ("[" +:+ Str.of_Z i +:+ "]"))
      else Raise (bad_format name v)
  | VFloat _ | VInt _ | VBool _ => Ok v
  | _ => Raise (bad_format name v)
  end.

(** [int((minimum - maximum) / resolution)] of the [lev] axis: the upper
    level index of [get] and of [get_alt_press]. *)
Definition max_lev (self : Forcast) : result Z :=
  l ← getitem (coords self) "lev";
  minimum ← getitem l "minimum";
  maximum ← getitem l "maximum";
  d ← py_sub minimum maximum;
  res ← getitem l "resolution";
  q ← py_truediv d res;
  py_int q.

Definition download_failed (forcast_date : string) (forcast_time : pyval)
    (query_time : string) (lat lon : pyval) : exn :=
  Exception
    ("The altitude pressure forcast information could not be downloaded. " +:+ nl
     +:+ "        This error should never occure but it may be helpful to know the requested information was:" +:+ nl
     +:+ "        - Forcast date: " +:+ forcast_date +:+ nl
     +:+ "        - Forcast time: " +:+ py_str forcast_time +:+ nl
     +:+ "        - Query time: " +:+ query_time +:+ nl
     +:+ "        - Latitude: " +:+ py_str lat +:+ nl
     +:+ "        - Longitude: " +:+ py_str lon).

(** [get_alt_press], after the download: the axes with more than one
    sample become the grid, and the height array is squeezed at each of
    the others. *)
Definition collect (acc : list (list float) * ndarray) (var : list float)
  : list (list float) * ndarray :=
  let '(input_dims, height) := acc in
  if (1 <? length var)%nat then ((input_dims ++ [var])%list, height)
  else (input_dims, squeeze height).

Definition build_interpolator (decoded_data : gmap string variable)
  : result interpolator :=
  hgtprs ← getitem decoded_data "hgtprs";
  let height := data hgtprs in
  times ← getitem (axes hgtprs) "time";
  lv ← getitem (axes hgtprs) "lev";
  let levs := map (fun v => PrimFloat.sub 1000 v) lv in
  lats ← getitem (axes hgtprs) "lat";
  lons ← getitem (axes hgtprs) "lon";
  let '(input_dims, height') :=
    fold_left collect [times; levs; lats; lons] ([], height) in
  Ok {| grid := input_dims; values := height' |}.

(** [get_alt_press(forcast_date, forcast_time, query_time, lat, lon)] *)
Definition alt_press_url (self : Forcast) (forcast_date : string)
    (forcast_time : pyval) (query_time : string) (lat lon : pyval)
  : result string :=
  m ← max_lev self;
  let info := "ascii?hgtprs" +:+ query_time +:+ "[0:" +:+ Str.of_Z m +:+ "]"
              +:+ py_str lat +:+ py_str lon in
  url (resolution self) (timestep self) forcast_date forcast_time info.

Definition get_alt_press (self : Forcast) (forcast_date : string)
    (forcast_time : pyval) (query_time : string) (lat lon : pyval) (w : world)
  : result interpolator * world :=
  match alt_press_url self forcast_date forcast_time query_time lat lon with
  | Raise e => (Raise e, w)
  | Ok u =>
      let '(r, w') := requests_get u w in
      if negb (status_code r =? 200) then
        (Raise (download_failed forcast_date forcast_time query_time lat lon), w')
      else
        (decoded_data ← File (text r); build_interpolator decoded_data, w')
  end.

(** The paragraph "Make query" of [get]: one pass of its loop. *)
Definition unknown_variable (name : string) : exn :=
  ValueError ("The variable " +:+ name +:+ " is not a valid choice for this weather model").

Definition level_required (name : string) : exn :=
  ValueError ("The variable " +:+ name +:+ " requires the altitude/level to be defined").

Definition add_token (self : Forcast) (query_time : string) (lev : option pyval)
    (lat lon : pyval) (query : string) (variable : string) : result string :=
  match variables self !! variable with
  | None => Raise (unknown_variable variable)
  | Some attributes =>
      d ← getitem attributes "level_dependent";
      if py_eq_True d then
        match lev with
        | None => Raise (UnboundLocalError "lev")
        | Some l =>
            if py_eq_empty_list l then Raise (level_required variable)
            else
              t1 ← py_str_add ("," +:+ variable +:+ query_time) l;
              t2 ← py_str_add t1 lat;
              t3 ← py_str_add t2 lon;
              Ok (query +:+ t3)
        end
      else
        t1 ← py_str_add ("," +:+ variable +:+ query_time) lat;
        t2 ← py_str_add t1 lon;
        Ok (query +:+ t2)
  end.

Definition make_query (self : Forcast) (query_time : string) (lev : option pyval)
    (lat lon : pyval) (requested : list string) : result string :=
  for_each (add_token self query_time lev lat lon) requested EmptyString.

(** The paragraph "Get lev" of [get]. *)
Definition get_lev (self : Forcast) (rc : run_choice) (query_time : string)
    (lat lon alt : pyval) (w : world) : result (option pyval) * world :=
  if py_eq_empty_list alt then (Ok None, w)
  else
    match max_lev self with
    | Raise e => (Raise e, w)
    | Ok m =>
        let lev := VStr ("[0:" +:+ Str.of_Z m +:+ "]") in
        let '(alt_press, w') :=
          get_alt_press self (run_date rc) (VStr (run_hour rc)) query_time lat lon w in
        match alt_press with
        | Raise e => (Raise e, w')
        | Ok _ => (Ok (Some lev), w')
        end
    end.

(** [get(variables, date_time, lat, lon, alt)]: the body, giving the
    local variables at its end, and the method, which returns [None]. *)
Definition get_body (self : Forcast) (requested : list string) (date_time : string)
    (lat lon alt : pyval) (w : world) : result locals * world :=
  match
    (rc ← resolve_time self (utcnow w) date_time;
     lat' ← axis_expression self "lat" "latitude" lat;
     lon' ← axis_expression self "lon" "longitude" lon;
     Ok (rc, lat', lon'))
  with
  | Raise e => (Raise e, w)
  | Ok (rc, lat', lon') =>
      let query_time := "[" +:+ Str.of_Z (time_index rc) +:+ "]" in
      let '(l, w') := get_lev self rc query_time lat' lon' alt w in
      match l with
      | Raise e => (Raise e, w')
      | Ok lev =>
          (q ← make_query self query_time lev lat' lon' requested;
           Ok {| forcast_date := run_date rc; forcast_time := run_hour rc;
                 query_time := query_time; lat := lat'; lon := lon';
                 lev := lev; query := q |}, w')
      end
  end.

Definition get (self : Forcast) (requested : list string) (date_time : string)
    (lat lon alt : pyval) (w : world) : result pyval * world :=
  let '(r, w') := get_body self requested date_time lat lon alt w in
  (_ ← r; Ok VNone, w').

End Gfspy.

(** ** A sample of the data service

    A metadata description and an array declaration listing in the
    service's two text formats, a service that answers with them, and a
    parser of timestamps written YYYY-MM-DD HH:MM:SS, which stand in for
    the network and for [dateutil] in the checks further down. *)

Module Sample.

Fixpoint lines (l : list string) : string :=
  match l with
  | [] => EmptyString
  | x :: l' => x +:+ nl +:+ lines l'
  end.

Definition str_att (key val : string) : string :=
  "        String " +:+ key +:+ " " +:+ dq +:+ val +:+ dq +:+ ";".

Definition das_text : string := lines [
  "Attributes {";
  "    NC_GLOBAL {";
  str_att "title" "GFS 0.25 deg starting from 00Z20feb2021";
  "    }";
  "    time {";
  str_att "grads_dim" "t";
  str_att "grads_mapping" "linear";
  str_att "grads_size" "81";
  str_att "grads_min" "00z20feb2021";
  str_att "grads_step" "3hr";
  str_att "long_name" "time";
  "        Float32 resolution 0.125;";
  "    }";
  "    lev {";
  str_att "grads_dim" "z";
  str_att "grads_mapping" "levels";
  "        Float64 minimum 1000.00000000000;";
  "        Float64 maximum 1.00000000000;";
  "        Float32 resolution 27.750000;";
  "    }";
  "    lat {";
  str_att "grads_dim" "y";
  str_att "grads_size" "721";
  "        Float64 minimum -90.00000000000;";
  "        Float64 maximum 90.00000000000;";
  "        Float32 resolution 0.25;";
  "    }";
  "    lon {";
  str_att "grads_dim" "x";
  str_att "grads_size" "1440";
  "        Float64 minimum 0.00000000000;";
  "        Float64 maximum 359.75000000000;";
  "        Float32 resolution 0.25;";
  "    }";
  "    tmp2m {";
  "        Float32 _FillValue 9.999E20;";
  "        Float32 missing_value 9.999E20;";
  str_att "long_name" "** 2 m above ground temperature [k] ";
  "    }";
  "    tmpprs {";
  "        Float32 _FillValue 9.999E20;";
  "        Float32 missing_value 9.999E20;";
  str_att "long_name" "** (1000 975 950 925 900.. 7 5 3 2 1) temperature [k] ";
  "    }";
  "}"].

Definition dds_text : string := lines [
  "Dataset {";
  "  Grid {";
  "    ARRAY:";
  "      Float32 tmp2m[time = 81][lat = 721][lon = 1440];";
  "    MAPS:";
  "      Float64 time[time = 81];";
  "      Float64 lat[lat = 721];";
  "      Float64 lon[lon = 1440];";
  "  } tmp2m;";
  "  Grid {";
  "    ARRAY:";
  "      Float32 tmpprs[time = 81][lev = 37][lat = 721][lon = 1440];";
  "    MAPS:";
  "      Float64 time[time = 81];";
  "      Float64 lev[lev = 37];";
  "      Float64 lat[lat = 721];";
  "      Float64 lon[lon = 1440];";
  "  } tmpprs;";
  "  Float64 time[time = 81];";
  "} gfs_0p25_00z;"].

(** The service: the two listings by the suffix of the URL, no data. *)
Definition service (u : string) : response :=
  if String.eqb (Str.slice_from u (-3)) "das" then {| status_code := 200; text := das_text |}
  else if String.eqb (Str.slice_from u (-3)) "dds" then {| status_code := 200; text := dds_text |}
  else {| status_code := 404; text := EmptyString |}.

Definition field (s : string) (i n : nat) : Z :=
  Str.digits_value (Str.take n (Str.drop i s)) 0.

Definition parse (s : string) : result Z :=
  if (String.length s =? 19)%nat then
    Ok (DT.datetime (field s 0 4) (field s 5 2) (field s 8 2)
                    (field s 11 2) (field s 14 2) (field s 17 2) 0)
  else Raise (ValueError ("Unknown string format: " +:+ s)).

Definition decode (body : string) : result (gmap string variable) :=
  Raise (Exception "nothing to decode").

(** 2021-02-20 17:10 UTC, one hour ahead in local time, a fresh cache. *)
Definition now : Z := DT.datetime 2021 2 20 17 10 0 0.

Definition world0 : world := initial_world now (now + DT.hours 1) service.

(** The catalog of the sample, as [get_attributes] reads it. *)
Definition lat_axis : gmap string pyval :=
  <["grads_dim" := VStr "y"]> (<["grads_size" := VStr "721"]>
  (<["minimum" := VFloat (-90)]> (<["maximum" := VFloat 90]>
  (<["resolution" := VFloat 0.25]> ∅)))).

Definition lon_axis : gmap string pyval :=
  <["grads_dim" := VStr "x"]> (<["grads_size" := VStr "1440"]>
  (<["minimum" := VFloat 0]> (<["maximum" := VFloat 359.75]>
  (<["resolution" := VFloat 0.25]> ∅)))).

Definition lev_axis : gmap string pyval :=
  <["grads_dim" := VStr "z"]> (<["minimum" := VFloat 1000]>
  (<["maximum" := VFloat 1]> (<["resolution" := VFloat 27.75]> ∅))).

Definition var_atts (long_name : string) (level_dependent : bool)
  : gmap string pyval :=
  <["_FillValue" := VFloat 9.999e20]> (<["missing_value" := VFloat 9.999e20]>
  (<["long_name" := VStr long_name]>
  (<["level_dependent" := VBool level_dependent]> ∅))).

Definition forcast : Forcast :=
  {| resolution := "0p25"; timestep := EmptyString;
     times := <["grads_size" := VStr "81"]> (<["grads_step" := VStr "3hr"]> ∅);
     coords := <["lat" := lat_axis]> (<["lon" := lon_axis]> (<["lev" := lev_axis]> ∅));
     variables :=
       <["NC_GLOBAL" := ∅]>
       (<["tmp2m" := var_atts "** 2 m above ground temperature [k] " false]>
       (<["tmpprs" :=
            var_atts "** (1000 975 950 925 900.. 7 5 3 2 1) temperature [k] " true]> ∅)) |}.

End Sample.

(** * Checks of the model on concrete inputs *)

(** A conjunction of closed equations, each settled by evaluation. *)
Ltac by_computation :=
  repeat match goal with |- _ /\ _ => split end; vm_compute; reflexivity.

Example of_Z_examples :
  Str.of_Z 0 = "0" /\ Str.of_Z 540 = "540" /\ Str.of_Z (-36) = "-36"
  /\ Str.of_Z 1000 = "1000" /\ Str.of_Z 9 = "9" /\ Str.of_Z 10 = "10".
Proof. by_computation. Qed.

Example slice_examples :
  Str.slice "Attributes {abc}x" 12 (-2) = "abc"
  /\ Str.slice "String" 0 3 = "Str"
  /\ Str.slice "ab" 12 (-2) = ""
  /\ Str.slice_from "abcdef" 4 = "ef"
  /\ Str.find "cd" "abcdef" = 2
  /\ Str.find "x" "abcdef" = -1
  /\ Str.split_on ";" "a;b;;c;" = ["a"; "b"; ""; "c"; ""]
  /\ Str.words "  Float32   tmp2m " = ["Float32"; "tmp2m"]
  /\ Str.words "   " = [].
Proof. by_computation. Qed.

Example flt_examples :
  Flt.of_string "27.75" = Some 27.75%float
  /\ Flt.of_string "0.1" = Some 0x1.999999999999ap-4%float
  /\ Flt.of_string " -90.00000000000 " = Some (-90)%float
  /\ Flt.of_string "9.999E20" = Some 9.999e20%float
  /\ Flt.of_string "1e400" = Some infinity
  /\ Flt.of_string "0.30000000000000004" = Some 0x1.3333333333334p-2%float
  /\ Flt.of_string "4.9e-324" = Some 0x0.0000000000001p-1022%float
  /\ Flt.of_string "2e-324" = Some 0%float
  /\ Flt.of_string "abc" = None
  /\ Flt.of_string "1.5x" = None
  /\ Flt.of_string "." = None
  /\ Flt.of_string "1." = Some 1%float
  /\ Flt.of_string ".5" = Some 0.5%float
  /\ Flt.of_Z 9007199254740993 = 9007199254740992%float
  /\ Flt.of_Z (-3) = (-3)%float
  /\ Flt.trunc (-36.75)%float = Ok (-36)
  /\ Flt.trunc 36.75%float = Ok 36
  /\ Flt.trunc 1e20%float = Ok 100000000000000000000
  /\ Flt.trunc 0.5%float = Ok 0.
Proof. by_computation. Qed.

Example repr_examples :
  Flt.repr 27.75%float = "27.75"
  /\ Flt.repr 0x1.999999999999ap-4%float = "0.1"
  /\ Flt.repr 0x1.3333333333334p-2%float = "0.30000000000000004"
  /\ Flt.repr (-90)%float = "-90.0"
  /\ Flt.repr 1000%float = "1000.0"
  /\ Flt.repr 9.999e20%float = "9.999e+20"
  /\ Flt.repr 1e16%float = "1e+16"
  /\ Flt.repr 1e15%float = "1000000000000000.0"
  /\ Flt.repr 1e22%float = "1e+22"
  /\ Flt.repr 0x1.a36e2eb1c432dp-14%float = "0.0001"
  /\ Flt.repr 0x1.4f8b588e368f1p-17%float = "1e-05"
  /\ Flt.repr 0x0.0000000000001p-1022%float = "5e-324"
  /\ Flt.repr 0x1.fffffffffffffp+1023%float = "1.7976931348623157e+308"
  /\ Flt.repr 0x1p-1022%float = "2.2250738585072014e-308"
  /\ Flt.repr 9007199254740992%float = "9007199254740992.0"
  /\ Flt.repr 0.5%float = "0.5"
  /\ Flt.repr 0x1.e240c9fbe76c9p+16%float = "123456.789"
  /\ Flt.repr nan = "nan" /\ Flt.repr neg_infinity = "-inf" /\ Flt.repr neg_zero = "-0.0".
Proof. by_computation. Qed.

Example re_examples :
  Re.findall1 [Re.Lit "["; Re.Group; Re.Lit ":"] "[10:20]" = ["10"]
  /\ Re.findall1 [Re.Lit ":"; Re.Group; Re.Lit "]"] "[10:20]" = ["20"]
  /\ Re.findall1 [Re.Group; Re.Lit "["] "  Float32 absvprs[time = 81][lev = 41];"
     = ["  Float32 absvprs"; "time = 81]"]
  /\ Re.findall [Re.Group; Re.Lit " {"; Re.Group; Re.Lit "}"] "a {x;y}b {}c"
     = [["a"; "x;y"]; ["b"; ""]]
  /\ Re.sub_space_runs false "a  b c   d " = "ab cd "
  /\ round_half_even 9000 3600 = 2 /\ round_half_even 12600 3600 = 4
  /\ round_half_even 9000 10800 = 1 /\ round_half_even 5400 10800 = 0.
Proof. by_computation. Qed.

Example dt_examples :
  DT.days_of_ymd 2021 2 20 = 737840
  /\ DT.ymd_of_days 737840 = (2021, 2, 20)
  /\ DT.ymd_of_days 0 = (1, 1, 1)
  /\ DT.ymd_of_days (DT.days_of_ymd 2020 2 29) = (2020, 2, 29)
  /\ DT.ymd_of_days (DT.days_of_ymd 2000 12 31 + 1) = (2001, 1, 1)
  /\ DT.ymd_of_days (DT.days_of_ymd 1900 2 28 + 1) = (1900, 3, 1)
  /\ DT.str (DT.datetime 2021 2 20 17 0 0 0) = "2021-02-20 17:00:00"
  /\ DT.str (DT.datetime 2021 2 20 17 5 9 250) = "2021-02-20 17:05:09.000250"
  /\ DT.strftime_Ymd (DT.datetime 2021 2 20 17 0 0 0) = "20210220"
  /\ DT.strftime_H (DT.datetime 2021 2 20 6 59 0 0) = "06"
  /\ hour_round (DT.datetime 2021 2 20 17 29 59 999999) = DT.datetime 2021 2 20 17 0 0 0
  /\ hour_round (DT.datetime 2021 2 20 23 30 0 0) = DT.datetime 2021 2 21 0 0 0 0
  /\ DT.seconds (DT.hours 27) = 10800.
Proof. by_computation. Qed.

Example extract_line_examples :
  extract_line ["grads_size"; "grads_step"] ("String grads_step " +:+ dq +:+ "3hr" +:+ dq)
  = Ok (Some ("grads_step", VStr "3hr"))
  /\ extract_line ["grads_dim"; "grads_size"; "minimum"; "maximum"; "resolution"]
       "Float32 resolution 0.25"
     = Ok (Some ("resolution", VFloat 0.25))
  /\ extract_line ["grads_dim"; "grads_size"; "minimum"; "maximum"; "resolution"]
       "Float64 minimum -90.00000000000"
     = Ok (Some ("minimum", VFloat (-90)))
  /\ extract_line ["_FillValue"; "missing_value"; "long_name"] "Int32 missing_value 3"
     = Ok None
  /\ extract_line ["_FillValue"; "missing_value"; "long_name"] "String units x"
     = Ok None
  /\ extract_line ["grads_size"] "" = Ok None.
Proof. by_computation. Qed.

Example sample_init :
  fst (__init__ "0p25" "" Sample.world0) = Ok Sample.forcast
  /\ requests (snd (__init__ "0p25" "" Sample.world0))
     = ["https://nomads.ncep.noaa.gov/dods/gfs_0p25/gfs20210220/gfs_0p25_00z.dds";
        "https://nomads.ncep.noaa.gov/dods/gfs_0p25/gfs20210220/gfs_0p25_00z.das"]
  /\ saved_atts (snd (__init__ "0p25" "" Sample.world0)) = ["Na"; "0p25"].
Proof. by_computation. Qed.

(** * Properties *)

(** ** Generic facts about the runtime *)

Lemma getitem_Some {V} (d : gmap string V) (k : string) (v : V) :
  d !! k = Some v -> getitem d k = Ok v.
Proof. intros H. unfold getitem. now rewrite H. Qed.

Lemma getitem_None {V} (d : gmap string V) (k : string) :
  d !! k = None -> getitem d k = Raise (KeyError k).
Proof. intros H. unfold getitem. now rewrite H. Qed.

Lemma comprehension_map {A B} (f : A -> result B) (g : A -> B) (xs : list A) :
  (forall x, In x xs -> f x = Ok (g x)) ->
  comprehension f xs = Ok (map g xs).
Proof.
  induction xs as [|x xs IH]; intros H; simpl.
  - reflexivity.
  - rewrite (H x (or_introl eq_refl)). simpl.
    rewrite IH by (intros y Hy; apply H; now right). reflexivity.
Qed.

Lemma in_range (size n : Z) : In n (range size) <-> 0 <= n < size.
Proof.
  unfold range. rewrite in_map_iff. split.
  - intros [k [<- Hk]]. apply in_seq in Hk. lia.
  - intros H. exists (Z.to_nat n). split; [lia|]. apply in_seq. lia.
Qed.

Lemma range_nth (size : Z) (i : nat) :
  (i < Z.to_nat size)%nat -> nth_error (range size) i = Some (Z.of_nat i).
Proof.
  intros H. unfold range.
  rewrite nth_error_map, nth_error_seq.
  destruct (Nat.ltb_spec i (Z.to_nat size)); [reflexivity | lia].
Qed.

Lemma range_length (size : Z) : length (range size) = Z.to_nat size.
Proof. unfold range. now rewrite length_map, length_seq. Qed.

(** Strings. *)

Lemma append_assoc (a b c : string) : (a +:+ b) +:+ c = a +:+ (b +:+ c).
Proof. induction a as [|x a IH]; simpl; [reflexivity | now rewrite IH]. Qed.

Lemma append_nil_r (a : string) : a +:+ EmptyString = a.
Proof. induction a as [|x a IH]; simpl; [reflexivity | now rewrite IH]. Qed.

Lemma append_inj_l (a x y : string) : a +:+ x = a +:+ y -> x = y.
Proof.
  induction a as [|c a IH]; simpl; intros H; [exact H|].
  injection H as H. now apply IH.
Qed.

Ltac str_assoc := repeat first [rewrite append_assoc | progress simpl].

Lemma last_opt_append (x y : string) :
  y <> EmptyString -> Str.last_opt (x +:+ y) = Str.last_opt y.
Proof.
  intros Hy. induction x as [|c x IH]; simpl; [reflexivity|].
  rewrite IH. destruct (x +:+ y) eqn:E; [|reflexivity].
  destruct x; simpl in E; [contradiction | discriminate].
Qed.

Lemma mem_append (c : ascii) (x y : string) :
  Str.mem c (x +:+ y) = (Str.mem c x || Str.mem c y)%bool.
Proof.
  induction x as [|d x IH]; simpl; [reflexivity|].
  rewrite IH. now rewrite orb_assoc.
Qed.

(** Addition of floats is commutative. *)
Lemma SF64add_comm (x y : spec_float) : SF64add x y = SF64add y x.
Proof.
  unfold SF64add, SFadd.
  destruct x as [sx|sx| |sx mx ex], y as [sy|sy| |sy my ey];
    try reflexivity; try (destruct sx, sy; reflexivity).
  rewrite (Z.min_comm ey ex). f_equal. apply Z.add_comm.
Qed.

Lemma float_add_comm (x y : float) : PrimFloat.add x y = PrimFloat.add y x.
Proof.
  apply Prim2SF_inj. rewrite !add_spec. apply SF64add_comm.
Qed.

(** ** [list.index] *)

Lemma list_index_found (l : list float) (v : float) (k : Z) (n : nat) (x : float) :
  nth_error l n = Some x -> PrimFloat.eqb x v = true ->
  exists (i : nat) (y : float),
    list_index l v k = Ok (k + Z.of_nat i)
    /\ (i <= n)%nat
    /\ nth_error l i = Some y /\ PrimFloat.eqb y v = true
    /\ forall (j : nat) (z : float),
         (j < i)%nat -> nth_error l j = Some z -> PrimFloat.eqb z v = false.
Proof.
  revert k n. induction l as [|a l IH]; intros k n Hn Hx.
  - destruct n; discriminate.
  - simpl. destruct (PrimFloat.eqb a v) eqn:Ea.
    + exists O, a.
      split; [f_equal; lia|]. split; [lia|]. split; [reflexivity|].
      split; [exact Ea|]. intros j z Hj. lia.
    + destruct n as [|n]; [simpl in Hn; congruence|].
      destruct (IH (k + 1) n Hn Hx) as (i & y & Hi & Hle & Hy & Hyv & Hfirst).
      exists (S i), y.
      split; [rewrite Hi; f_equal; lia|]. split; [lia|]. split; [exact Hy|].
      split; [exact Hyv|].
      intros [|j] z Hj Hz; simpl in Hz.
      * congruence.
      * apply (Hfirst j z); [lia | exact Hz].
Qed.

Lemma list_index_missing (l : list float) (v : float) (k : Z) :
  (forall x, In x l -> PrimFloat.eqb x v = false) ->
  list_index l v k = Raise (ValueError (Flt.repr v +:+ " is not in list")).
Proof.
  revert k. induction l as [|a l IH]; intros k H; simpl.
  - reflexivity.
  - rewrite (H a (or_introl eq_refl)). apply IH. intros x Hx. apply H. now right.
Qed.

(** ** Coordinate indexing (claim C6) *)

Lemma value_to_index_unfold (self : Forcast) (coord : string)
    (c : gmap string pyval) (g r m : pyval) (size : Z) (res minimum v : float) :
  coords self !! coord = Some c ->
  c !! "grads_size" = Some g -> py_int g = Ok size ->
  c !! "resolution" = Some r -> py_float r = Ok res ->
  c !! "minimum" = Some m -> py_float m = Ok minimum ->
  value_to_index self coord v
  = list_index (map (lattice res minimum) (range size)) v 0.
Proof.
  intros Hc Hg Hsize Hr Hres Hm Hmin. unfold value_to_index.
  rewrite (getitem_Some _ _ _ Hc). simpl.
  rewrite (getitem_Some _ _ _ Hg). simpl. rewrite Hsize. simpl.
  rewrite (comprehension_map _ (lattice res minimum)).
  - reflexivity.
  - intros n _. unfold lattice_point.
    rewrite (getitem_Some _ _ _ Hr). simpl. rewrite Hres. simpl.
    rewrite (getitem_Some _ _ _ Hm). simpl. rewrite Hmin. reflexivity.
Qed.

(** C6.  Let an axis have a size, a resolution and a minimum that read as
    numbers.  A value equal to the lattice point
    [resolution * n + minimum] for some [n] below the size is mapped by
    [value_to_index] to the first position whose lattice point equals the
    value, and [minimum + resolution * index] computed back equals the
    value; a value equal to no lattice point makes [value_to_index] raise
    ValueError: no neighbouring point is taken instead.  (Neither
    [resolution > 0] nor a positive size is needed.) *)
Theorem value_to_index_exact (self : Forcast) (coord : string)
    (c : gmap string pyval) (g r m : pyval) (size : Z) (res minimum v : float) :
  coords self !! coord = Some c ->
  c !! "grads_size" = Some g -> py_int g = Ok size ->
  c !! "resolution" = Some r -> py_float r = Ok res ->
  c !! "minimum" = Some m -> py_float m = Ok minimum ->
  (forall n : Z, 0 <= n < size ->
     PrimFloat.eqb (lattice res minimum n) v = true ->
     exists i : Z,
       value_to_index self coord v = Ok i
       /\ 0 <= i <= n
       /\ PrimFloat.eqb
            (PrimFloat.add minimum (PrimFloat.mul res (Flt.of_Z i))) v = true
       /\ forall j : Z, 0 <= j < i ->
            PrimFloat.eqb (lattice res minimum j) v = false)
  /\ ((forall n : Z, 0 <= n < size ->
         PrimFloat.eqb (lattice res minimum n) v = false) ->
      exists msg : string,
        value_to_index self coord v = Raise (ValueError msg)).
Proof.
  intros Hc Hg Hsize Hr Hres Hm Hmin.
  rewrite (value_to_index_unfold _ _ _ _ _ _ _ _ _ v Hc Hg Hsize Hr Hres Hm Hmin).
  split.
  - intros n Hn Heq.
    assert (Hnth : nth_error (map (lattice res minimum) (range size)) (Z.to_nat n)
                   = Some (lattice res minimum n)).
    { rewrite nth_error_map, range_nth by lia. simpl. f_equal. f_equal. lia. }
    destruct (list_index_found _ v 0 _ _ Hnth Heq)
      as (i & y & Hi & Hle & Hy & Hyv & Hfirst).
    assert (Hilt : (i < Z.to_nat size)%nat) by lia.
    rewrite nth_error_map, range_nth in Hy by exact Hilt. simpl in Hy.
    injection Hy as <-.
    exists (Z.of_nat i).
    split; [exact Hi|]. split; [lia|]. split.
    + rewrite float_add_comm. exact Hyv.
    + intros j Hj. apply (Hfirst (Z.to_nat j) (lattice res minimum j)); [lia|].
      rewrite nth_error_map, range_nth by lia. simpl. f_equal. f_equal. lia.
  - intros Hnone. eexists. apply list_index_missing.
    intros x Hx. apply in_map_iff in Hx. destruct Hx as [n [<- Hn]].
    apply Hnone. now apply in_range.
Qed.

(** ** Latitude and longitude expressions (claim C3) *)

Example axis_expression_examples :
  axis_expression Sample.forcast "lat" "latitude" (VStr "45") = Ok (VStr "[540]")
  /\ axis_expression Sample.forcast "lon" "longitude" (VStr "10") = Ok (VStr "[40]")
  /\ axis_expression Sample.forcast "lat" "latitude" (VFloat 45) = Ok (VFloat 45)
  /\ axis_expression Sample.forcast "lat" "latitude" (VStr "-45")
     = Raise (bad_format "latitude" (VStr "-45"))
  /\ axis_expression Sample.forcast "lat" "latitude" (VStr "45.5")
     = Raise (bad_format "latitude" (VStr "45.5"))
  /\ axis_expression Sample.forcast "lat" "latitude" VNone
     = Raise (bad_format "latitude" VNone)
  /\ axis_expression Sample.forcast "lat" "latitude" (VStr "91")
     = Raise (ValueError "91.0 is not in list")
  /\ axis_expression Sample.forcast "lat" "latitude" (VStr EmptyString)
     = Raise (IndexError "string index out of range").
Proof. by_computation. Qed.

(** C3.  A latitude or longitude written as a range, an opening bracket,
    two endpoints separated by a colon, a closing bracket, is not
    converted: whatever the endpoints, [float] is given the list that
    [re.findall] returns and raises TypeError. *)
Theorem range_expression_raises (self : Forcast) (coord name a b : string) :
  axis_expression self coord name (VStr ("[" +:+ a +:+ ":" +:+ b +:+ "]"))
  = Raise (TypeError "float() argument must be a string or a real number, not 'list'").
Proof.
  unfold axis_expression. simpl Str.first. cbn [mbind result_bind rbind].
  rewrite Ascii.eqb_refl.
  unfold Str.last.
  replace (Str.last_opt ("[" +:+ a +:+ ":" +:+ b +:+ "]")) with (Some "]"%char).
  2:{ symmetry.
      rewrite <- (append_assoc "[" a), <- (append_assoc ("[" +:+ a) ":" ).
      rewrite <- (append_assoc (("[" +:+ a) +:+ ":") b).
      now rewrite last_opt_append. }
  cbn [mbind result_bind rbind]. rewrite Ascii.eqb_refl.
  replace (Str.mem ":" ("[" +:+ a +:+ ":" +:+ b +:+ "]")) with true.
  2:{ symmetry. rewrite !mem_append. simpl. now rewrite !orb_true_r. }
  reflexivity.
Qed.

(** ** The query (claims C4 and C5) *)

(** What the catalog says of a variable's dependence on the level. *)
Definition is_level_dependent (self : Forcast) (v : string) : bool :=
  match variables self !! v with
  | Some attributes =>
      match attributes !! "level_dependent" with
      | Some d => py_eq_True d
      | None => false
      end
  | None => false
  end.

Definition lev_text (lev : option pyval) : string :=
  match lev with
  | Some (VStr l) => l
  | _ => EmptyString
  end.

(** The token of a variable as the specification writes it: the name,
    the time index in brackets, the level range for a level-dependent
    variable, the latitude and the longitude expressions. *)
Definition token (self : Forcast) (t : Z) (lev : option pyval) (lat lon : string)
    (v : string) : string :=
  v +:+ "[" +:+ Str.of_Z t +:+ "]"
    +:+ (if is_level_dependent self v then lev_text lev else EmptyString)
    +:+ lat +:+ lon.

Definition comma_token (self : Forcast) (t : Z) (lev : option pyval)
    (lat lon : string) (v : string) : string :=
  "," +:+ token self t lev lat lon v.

Lemma add_token_ok (self : Forcast) (t : Z) (lev : option pyval) (lat lon : string)
    (query v : string) (attributes : gmap string pyval) (d : pyval) :
  variables self !! v = Some attributes ->
  attributes !! "level_dependent" = Some d ->
  (py_eq_True d = true -> exists l, lev = Some (VStr l)) ->
  add_token self ("[" +:+ Str.of_Z t +:+ "]") lev (VStr lat) (VStr lon) query v
  = Ok (query +:+ comma_token self t lev lat lon v).
Proof.
  intros Hv Hd Hlev. unfold add_token, comma_token, token, is_level_dependent.
  rewrite Hv, (getitem_Some _ _ _ Hd), Hd. cbn [mbind result_bind rbind].
  destruct (py_eq_True d) eqn:E.
  - destruct (Hlev eq_refl) as [l ->]. simpl. now str_assoc.
  - simpl. now str_assoc.
Qed.

Lemma for_each_add_token (self : Forcast) (t : Z) (lev : option pyval)
    (lat lon : string) (requested : list string) (query : string) :
  (forall v, In v requested ->
     exists attributes d,
       variables self !! v = Some attributes
       /\ attributes !! "level_dependent" = Some d) ->
  (forall v, In v requested -> is_level_dependent self v = true ->
     exists l, lev = Some (VStr l)) ->
  for_each (add_token self ("[" +:+ Str.of_Z t +:+ "]") lev (VStr lat) (VStr lon))
           requested query
  = Ok (query +:+ Str.concat (map (comma_token self t lev lat lon) requested)).
Proof.
  revert query. induction requested as [|v vs IH]; intros query Hknown Hlev.
  - simpl. now rewrite append_nil_r.
  - destruct (Hknown v (or_introl eq_refl)) as (attributes & d & Hv & Hd).
    cbn [for_each].
    rewrite (add_token_ok self t lev lat lon query v attributes d Hv Hd).
    + cbn [mbind result_bind rbind]. rewrite IH.
      * simpl. now rewrite append_assoc.
      * intros x Hx. apply Hknown. now right.
      * intros x Hx. apply Hlev. now right.
    + intros E. apply (Hlev v (or_introl eq_refl)).
      unfold is_level_dependent. now rewrite Hv, Hd.
Qed.

(** C4, as the code has it.  When every requested variable is in the
    catalog with a [level_dependent] entry and a level range is there for
    the level-dependent ones, the query that the loop assembles is, in
    the order of the request, one token per variable, each after a comma:
    the string starts with a comma, and is empty for an empty request. *)
Theorem make_query_tokens (self : Forcast) (t : Z) (lev : option pyval)
    (lat lon : string) (requested : list string) :
  (forall v, In v requested ->
     exists attributes d,
       variables self !! v = Some attributes
       /\ attributes !! "level_dependent" = Some d) ->
  (forall v, In v requested -> is_level_dependent self v = true ->
     exists l, lev = Some (VStr l)) ->
  make_query self ("[" +:+ Str.of_Z t +:+ "]") lev (VStr lat) (VStr lon) requested
  = Ok (Str.concat (map (comma_token self t lev lat lon) requested)).
Proof.
  intros Hknown Hlev. unfold make_query.
  now rewrite (for_each_add_token self t lev lat lon requested EmptyString Hknown Hlev).
Qed.

(** C4 as stated fails: for one plain variable the query is not the
    token alone, it is a comma and the token. *)
Lemma make_query_not_joined :
  make_query Sample.forcast "[1]" None (VStr "[540]") (VStr "[40]") ["tmp2m"]
  = Ok ",tmp2m[1][540][40]"
  /\ join "," (map (token Sample.forcast 1 None "[540]" "[40]") ["tmp2m"])
     = "tmp2m[1][540][40]"
  /\ make_query Sample.forcast "[1]" None (VStr "[540]") (VStr "[40]") ["tmp2m"]
     <> Ok (join "," (map (token Sample.forcast 1 None "[540]" "[40]") ["tmp2m"])).
Proof.
  split; [vm_compute; reflexivity|]. split; [vm_compute; reflexivity|].
  vm_compute. discriminate.
Qed.

(** A level-dependent variable met while [lev] is unbound: the test
    [lev == []] raises UnboundLocalError, whatever was assembled. *)
Lemma add_token_unbound_lev (self : Forcast) (query_time : string) (lat lon : pyval)
    (query v : string) :
  is_level_dependent self v = true ->
  add_token self query_time None lat lon query v = Raise (UnboundLocalError "lev").
Proof.
  unfold is_level_dependent, add_token. intros H.
  destruct (variables self !! v) as [attributes|]; [|discriminate].
  unfold getitem. destruct (attributes !! "level_dependent") as [d|]; [|discriminate].
  cbn [mbind result_bind rbind]. now rewrite H.
Qed.

(** In [get], [lev] is a string or unbound, never the empty list: the
    error that asks for the level is raised on no path. *)
Lemma add_token_never_level_required (self : Forcast) (query_time : string)
    (lev : option string) (lat lon : pyval) (query v : string) :
  add_token self query_time (option_map VStr lev) lat lon query v
  <> Raise (level_required v).
Proof.
  unfold add_token.
  destruct (variables self !! v) as [attributes|].
  2:{ unfold unknown_variable, level_required. intros H. injection H as H.
      apply append_inj_l in H. try apply append_inj_l in H. discriminate. }
  unfold getitem. destruct (attributes !! "level_dependent") as [d|]; [|discriminate].
  cbn [mbind result_bind rbind].
  destruct (py_eq_True d), lev as [l|]; simpl; try discriminate.
  - destruct lat; simpl; try discriminate. destruct lon; simpl; discriminate.
  - destruct lat; simpl; try discriminate. destruct lon; simpl; discriminate.
  - destruct lat; simpl; try discriminate. destruct lon; simpl; discriminate.
Qed.

(** C5.  With the sample catalog, [get] for the level-dependent [tmpprs]
    and no level range ([alt] the empty list) raises UnboundLocalError,
    not the ValueError that names the variable; no request is sent. *)
Theorem get_level_dependent_without_alt :
  get Sample.parse Sample.decode Sample.forcast ["tmpprs"] "2021-02-19 15:00:00"
      (VStr "45") (VStr "10") (VList []) Sample.world0
  = (Raise (UnboundLocalError "lev"), Sample.world0).
Proof. vm_compute. reflexivity. Qed.

(** ** The interpolator (claim C9) *)

Definition several (var : list float) : bool := (1 <? length var)%nat.

Lemma squeeze_squeeze (a : ndarray) : squeeze (squeeze a) = squeeze a.
Proof.
  unfold squeeze. simpl. f_equal.
  induction (shape a) as [|n l IH]; simpl; [reflexivity|].
  destruct (negb (n =? 1)%nat) eqn:E; simpl; [rewrite E|]; now rewrite ?IH.
Qed.

Lemma fold_collect (vars : list (list float)) (input_dims : list (list float))
    (height : ndarray) :
  fold_left collect vars (input_dims, height)
  = ((input_dims ++ List.filter several vars)%list,
     if forallb several vars then height else squeeze height).
Proof.
  revert input_dims height.
  induction vars as [|var vars IH]; intros input_dims height; simpl.
  - now rewrite app_nil_r.
  - change (1 <? length var)%nat with (several var).
    destruct (several var) eqn:E; rewrite IH.
    + simpl. now rewrite <- app_assoc.
    + simpl. rewrite squeeze_squeeze. now destruct (forallb several vars).
Qed.

Lemma squeeze_full (a : ndarray) (vars : list (list float)) :
  shape a = map (@length float) vars -> forallb several vars = true ->
  squeeze a = a.
Proof.
  destruct a as [sh fl]. unfold squeeze. simpl. intros -> H. f_equal.
  induction vars as [|var vars IH]; simpl in *; [reflexivity|].
  apply andb_prop in H. destruct H as [Hv H]. unfold several in Hv.
  apply Nat.ltb_lt in Hv.
  destruct (Nat.eqb_spec (length var) 1); [lia|]. simpl. now rewrite IH.
Qed.

(** C9.  When the height field is downloaded and decoded, and the height
    array has one dimension per axis (time, level, latitude, longitude)
    of that axis's length, [get_alt_press] gives the interpolator whose
    grid is the axes of more than one sample, in that order, the levels
    as [1000 - v], and whose values are the height array without its
    dimensions of length one.  With one time and one longitude and
    several levels and latitudes, the grid is the levels and the
    latitudes: the interpolator takes two coordinates. *)
Theorem get_alt_press_active_axes
    (File : string -> result (gmap string variable)) (self : Forcast)
    (forcast_date : string) (forcast_time : pyval) (query_time : string)
    (lat lon : pyval) (w : world) (u : string)
    (decoded_data : gmap string variable) (hgtprs : variable)
    (times levs lats lons : list float) :
  alt_press_url self forcast_date forcast_time query_time lat lon = Ok u ->
  status_code (service w u) = 200 ->
  File (text (service w u)) = Ok decoded_data ->
  decoded_data !! "hgtprs" = Some hgtprs ->
  axes hgtprs !! "time" = Some times ->
  axes hgtprs !! "lev" = Some levs ->
  axes hgtprs !! "lat" = Some lats ->
  axes hgtprs !! "lon" = Some lons ->
  shape (data hgtprs) = [length times; length levs; length lats; length lons] ->
  exists itp : interpolator,
    fst (get_alt_press File self forcast_date forcast_time query_time lat lon w)
    = Ok itp
    /\ grid itp
       = List.filter several
           [times; map (fun v => PrimFloat.sub 1000 v) levs; lats; lons]
    /\ values itp = squeeze (data hgtprs)
    /\ (length times = 1%nat -> length lons = 1%nat ->
        (1 < length levs)%nat -> (1 < length lats)%nat ->
        grid itp = [map (fun v => PrimFloat.sub 1000 v) levs; lats]
        /\ ndim itp = 2%nat).
Proof.
  intros Hu Hstatus Hfile Hh Ht Hlv Hla Hlo Hshape.
  set (vars := [times; map (fun v => PrimFloat.sub 1000 v) levs; lats; lons]).
  exists {| grid := List.filter several vars;
            values := if forallb several vars
                      then data hgtprs else squeeze (data hgtprs) |}.
  split.
  { unfold get_alt_press. rewrite Hu. unfold requests_get.
    rewrite Hstatus. simpl. rewrite Hfile. cbn [mbind result_bind rbind].
    unfold build_interpolator.
    rewrite (getitem_Some _ _ _ Hh). cbn [mbind result_bind rbind].
    rewrite (getitem_Some _ _ _ Ht). cbn [mbind result_bind rbind].
    rewrite (getitem_Some _ _ _ Hlv). cbn [mbind result_bind rbind].
    rewrite (getitem_Some _ _ _ Hla). cbn [mbind result_bind rbind].
    rewrite (getitem_Some _ _ _ Hlo). cbn [mbind result_bind rbind].
    fold vars. rewrite fold_collect. reflexivity. }
  split; [reflexivity|]. split.
  { cbn [values]. destruct (forallb several vars) eqn:E; [|reflexivity].
    symmetry. apply (squeeze_full _ vars); [|exact E].
    rewrite Hshape. unfold vars. simpl. now rewrite length_map. }
  intros H1 H2 H3 H4. unfold ndim. simpl. unfold several.
  rewrite length_map, H1, H2.
  apply Nat.ltb_lt in H3, H4. rewrite H3, H4. simpl. split; reflexivity.
Qed.

(** ** The reference date of [get_attributes] (claim C10) *)

Definition das_url (res step : string) (date : Z) : string :=
  "https://nomads.ncep.noaa.gov/dods/gfs_" +:+ res +:+ step +:+ "/gfs"
  +:+ DT.strftime_Ymd date +:+ "/gfs_" +:+ res +:+ step +:+ "_00z.das".

Lemma url_das (res step : string) (date : Z) :
  url res step (DT.strftime_Ymd date) (VInt 0) "das" = Ok (das_url res step date).
Proof. reflexivity. Qed.

Lemma fetch_dds_requests (res step key : string) (d : das) (w : world) :
  exists later : list string,
    requests (snd (fetch_dds res step key d w)) = (later ++ requests w)%list.
Proof.
  unfold fetch_dds, url. simpl.
  destruct (negb (status_code (service w _) =? 200)).
  - now eexists [_].
  - destruct (mark_level_dependence _ _) as [variables|e]; simpl.
    + destruct (das_time d); simpl; now eexists [_].
    + now eexists [_].
Qed.

(** C10.  For a configuration that is not among the saved ones: before
    06:00 UTC [get_attributes] raises the TypeError of
    [timedelta(day=1)] and leaves the world as it was, no request sent,
    and so does the constructor of [Forcast]; from 06:00 UTC on, the
    metadata description of the current day is requested first. *)
Theorem get_attributes_before_six (res step : string) (w : world) :
  existsb (String.eqb (res +:+ step)) (saved_atts w) = false ->
  (DT.hour (utcnow w) < 6 ->
   get_attributes res step w
   = (Raise (TypeError "'day' is an invalid keyword argument for __new__()"), w)
   /\ forall timestep : string, timestep_suffix timestep = step ->
        __init__ res timestep w
        = (Raise (TypeError "'day' is an invalid keyword argument for __new__()"), w))
  /\ (6 <= DT.hour (utcnow w) ->
      exists later : list string,
        requests (snd (get_attributes res step w))
        = (later ++ das_url res step (utcnow w) :: requests w)%list).
Proof.
  intros Hkey. split.
  - intros Hh.
    assert (Hg : get_attributes res step w
                 = (Raise (TypeError "'day' is an invalid keyword argument for __new__()"), w)).
    { unfold get_attributes, reference_date. rewrite Hkey. simpl negb. cbv iota.
      apply Z.ltb_lt in Hh. rewrite Hh. reflexivity. }
    split; [exact Hg|].
    intros timestep <-. unfold __init__. now rewrite Hg.
  - intros Hh. unfold get_attributes, reference_date. rewrite Hkey. simpl negb. cbv iota.
    destruct (Z.ltb_spec (DT.hour (utcnow w)) 6) as [Hlt|_]; [lia|].
    cbn [mbind result_bind rbind]. rewrite url_das.
    unfold requests_get.
    set (u := das_url res step (utcnow w)).
    set (w1 := {| utcnow := utcnow w; today := today w; service := service w;
                  requests := u :: requests w; saved_atts := saved_atts w;
                  atts := atts w |}).
    destruct (negb (status_code (service w u) =? 200)).
    + now exists [].
    + destruct (parse_das (text (service w u))) as [d|e].
      * destruct (fetch_dds_requests res step (res +:+ step) d w1) as [later Hl].
        exists later. rewrite Hl. reflexivity.
      * now exists [].
Qed.

Example before_six_sample :
  __init__ "0p25" "1hr"
    (initial_world (DT.datetime 2021 2 20 5 59 59 0) (DT.datetime 2021 2 20 5 59 59 0)
                   Sample.service)
  = (Raise (TypeError "'day' is an invalid keyword argument for __new__()"),
     initial_world (DT.datetime 2021 2 20 5 59 59 0) (DT.datetime 2021 2 20 5 59 59 0)
                   Sample.service).
Proof. vm_compute. reflexivity. Qed.

(** ** The availability window (claim C1) *)

Lemma day_of_hours (t : Z) : t / DT.day_us = t / DT.hour_us / 24.
Proof. unfold DT.day_us. rewrite Z.mul_comm. symmetry. apply Z.div_div; [cbv; discriminate | cbv; reflexivity]. Qed.

Lemma minute_of_hour (t : Z) : DT.minute t = (t mod DT.hour_us) / DT.minute_us.
Proof.
  unfold DT.minute, DT.hour_us.
  rewrite (Z.mul_comm 60 DT.minute_us).
  rewrite Z.rem_mul_r by (cbv; first [discriminate | reflexivity]).
  rewrite (Z.mul_comm DT.minute_us ((t / DT.minute_us) mod 60)), Z.div_add by (cbv; discriminate).
  rewrite (Z.div_small (t mod DT.minute_us)); [reflexivity|].
  apply Z.mod_pos_bound. reflexivity.
Qed.

Lemma hour_round_spec (t : Z) :
  hour_round t = t - t mod DT.hour_us + (if 30 <=? DT.minute t then DT.hour_us else 0).
Proof.
  unfold hour_round, DT.replace_time, DT.hours, DT.timedelta, DT.hour.
  rewrite day_of_hours.
  assert (Hm : 0 <= DT.minute t < 60) by (apply Z.mod_pos_bound; lia).
  assert (Hq : DT.minute t / 30 = if 30 <=? DT.minute t then 1 else 0).
  { destruct (Z.leb_spec 30 (DT.minute t)).
    - symmetry. apply Z.div_unique with (r := DT.minute t - 30); lia.
    - apply Z.div_small; lia. }
  rewrite Hq.
  pose proof (Z.div_mod t DT.hour_us ltac:(cbv; first [discriminate | reflexivity])) as E1.
  pose proof (Z.div_mod (t / DT.hour_us) 24 ltac:(cbv; first [discriminate | reflexivity])) as E2.
  unfold DT.day_us.
  set (H := t / DT.hour_us) in *. set (r := t mod DT.hour_us) in *.
  set (D := H / 24) in *. set (h := H mod 24) in *.
  destruct (30 <=? DT.minute t); lia.
Qed.

Lemma hour_us_minutes : DT.hour_us = 60 * DT.minute_us.
Proof. reflexivity. Qed.

Lemma hour_round_shift (t k : Z) :
  hour_round (t + k * DT.hour_us) = hour_round t + k * DT.hour_us.
Proof.
  rewrite !hour_round_spec, !minute_of_hour.
  rewrite Z.mod_add by (cbv; discriminate). lia.
Qed.

Lemma hour_round_whole (t : Z) : t mod DT.hour_us = 0 -> hour_round t = t.
Proof.
  intros H. rewrite hour_round_spec, minute_of_hour, H. simpl. lia.
Qed.

Lemma split_hour (t : Z) :
  t mod DT.hour_us
  = DT.minute t * DT.minute_us + DT.second t * DT.second_us + DT.microsecond t.
Proof.
  rewrite minute_of_hour. unfold DT.second, DT.microsecond.
  set (r := t mod DT.hour_us).
  assert (Hs : (t / DT.second_us) mod 60 = (r mod DT.minute_us) / DT.second_us).
  { unfold r. rewrite Z.mod_mod_divide by (exists 60; reflexivity).
    unfold DT.minute_us. rewrite (Z.mul_comm 60 DT.second_us).
    rewrite Z.rem_mul_r by (cbv; first [discriminate | reflexivity]).
    rewrite (Z.mul_comm DT.second_us), Z.div_add by (cbv; discriminate).
    rewrite (Z.div_small (t mod DT.second_us)); [reflexivity|].
    apply Z.mod_pos_bound. reflexivity. }
  assert (Hu : t mod DT.second_us = (r mod DT.minute_us) mod DT.second_us).
  { unfold r.
    rewrite !Z.mod_mod_divide
      by first [exists 60; reflexivity | exists 3600; reflexivity].
    reflexivity. }
  rewrite Hs, Hu.
  pose proof (Z.div_mod r DT.minute_us ltac:(cbv; discriminate)).
  pose proof (Z.div_mod (r mod DT.minute_us) DT.second_us ltac:(cbv; discriminate)).
  lia.
Qed.

Lemma earliest_available_spec (now : Z) :
  earliest_available now = hour_round now - DT.days 7.
Proof.
  unfold earliest_available.
  replace (now - DT.days 7) with (now + (-168) * DT.hour_us) by reflexivity.
  rewrite hour_round_shift. reflexivity.
Qed.

Lemma latest_available_spec (now extent : Z) :
  latest_available now extent
  = now - now mod DT.hour_us - DT.hours (DT.hour now mod 6) + DT.hours extent.
Proof.
  unfold latest_available.
  assert (H6 : DT.hour now - 6 * (DT.hour now / 6) = DT.hour now mod 6).
  { rewrite Z.mod_eq by discriminate. reflexivity. }
  rewrite H6.
  replace (now - DT.timedelta 0 (DT.hour now mod 6 - extent) (DT.minute now)
                              (DT.second now) (DT.microsecond now))
    with ((now - now mod DT.hour_us) + (extent - DT.hour now mod 6) * DT.hour_us).
  2:{ rewrite split_hour. unfold DT.timedelta. lia. }
  rewrite hour_round_shift, hour_round_whole.
  - unfold DT.hours, DT.timedelta. lia.
  - rewrite Zminus_mod_idemp_r, Z.sub_diag. reflexivity.
Qed.

(** The upper end of the window as the specification writes it: the
    rounded hour, less the hours since the last run, less the hours a
    run extends. *)
Definition spec_latest_available (now extent : Z) : Z :=
  hour_round now - DT.hours (DT.hour now mod 6) - DT.hours extent.

(** C1 as stated fails: at 17:10 on 2021-02-20, with runs of 243 hours,
    a request for 14:30 of that day is accepted, and it is not below the
    upper end that the specification computes (2021-02-10 09:00). *)
Lemma window_not_as_stated :
  run_extent Sample.forcast = Ok 243
  /\ Sample.parse "2021-02-20 14:30:00" = Ok (DT.datetime 2021 2 20 14 30 0 0)
  /\ is_ok (resolve_time Sample.parse Sample.forcast Sample.now "2021-02-20 14:30:00")
     = true
  /\ ~ (earliest_available Sample.now < DT.datetime 2021 2 20 14 30 0 0
        < spec_latest_available Sample.now 243).
Proof.
  split; [vm_compute; reflexivity|]. split; [vm_compute; reflexivity|].
  split; [vm_compute; reflexivity|].
  vm_compute. intros [_ H]. discriminate.
Qed.

(** C1, as the code has it.  With [extent] the hours a run extends and
    a timestamp that parses, [get] goes on to select a run exactly when
    the timestamp is strictly between [hour_round(now)] less seven days
    and the start of the current hour, less the hours since the last
    six-hourly run, plus [extent] hours; otherwise it raises the
    ValueError whose message gives [extent] as the hours the model
    extends forward.  [hour_round] clears minutes, seconds and
    microseconds and adds an hour from minute 30 on. *)
Theorem availability_window (dateutil_parse : string -> result Z) (self : Forcast)
    (now : Z) (date_time : string) (extent desired_date : Z) :
  run_extent self = Ok extent ->
  dateutil_parse date_time = Ok desired_date ->
  let earliest := hour_round now - DT.days 7 in
  let latest :=
    now - now mod DT.hour_us - DT.hours (DT.hour now mod 6) + DT.hours extent in
  (forall t : Z,
     hour_round t
     = t - t mod DT.hour_us + (if 30 <=? DT.minute t then DT.hour_us else 0))
  /\ (earliest < desired_date < latest ->
      resolve_time dateutil_parse self now date_time
      = run_selection self desired_date (latest - DT.hours extent))
  /\ (~ earliest < desired_date < latest ->
      resolve_time dateutil_parse self now date_time
      = Raise (not_available desired_date extent)
      /\ exists before after : string,
           not_available desired_date extent
           = ValueError (before +:+ Str.of_Z extent +:+ " hours forward." +:+ after)).
Proof.
  intros Hextent Hparse earliest latest.
  split; [exact hour_round_spec|].
  assert (Hr : resolve_time dateutil_parse self now date_time
               = if ((earliest <? desired_date) && (desired_date <? latest))%bool
                 then run_selection self desired_date (latest - DT.hours extent)
                 else Raise (not_available desired_date extent)).
  { unfold resolve_time. rewrite Hextent. cbn [mbind result_bind rbind].
    rewrite Hparse. cbn [mbind result_bind rbind].
    rewrite earliest_available_spec, latest_available_spec. reflexivity. }
  rewrite Hr. split.
  - intros [H1 H2]. apply Z.ltb_lt in H1, H2. now rewrite H1, H2.
  - intros Hout. split.
    + destruct (Z.ltb_spec earliest desired_date); [|reflexivity].
      destruct (Z.ltb_spec desired_date latest); [|reflexivity].
      exfalso. apply Hout. now split.
    + unfold not_available.
      exists ("Datetime requested (" +:+ DT.str desired_date
              +:+ ") is not available the moment, usually only the last weeks worth of forcasts are available and this model only extends "),
             (nl +:+ "This error may be caused by an uninterpretable datetime format.").
      f_equal. rewrite !append_assoc. reflexivity.
Qed.

(** ** The run and the time index (claim C2) *)

Lemma step_back_spec (fuel : nat) (desired_date q : Z) :
  (q - desired_date) / DT.hours 6 + 1 <= Z.of_nat fuel ->
  exists k : Z,
    0 <= k
    /\ step_back fuel desired_date q = q - k * DT.hours 6
    /\ q - k * DT.hours 6 <= desired_date
    /\ (k = 0 \/ desired_date < q - k * DT.hours 6 + DT.hours 6).
Proof.
  assert (H6 : 0 < DT.hours 6) by reflexivity.
  revert q. induction fuel as [|fuel IH]; intros q Hfuel.
  - assert (q <= desired_date).
    { destruct (Z.le_gt_cases q desired_date) as [|Hgt]; [assumption|].
      assert (0 <= (q - desired_date) / DT.hours 6) by (apply Z.div_pos; lia).
      lia. }
    exists 0. simpl. split; [lia|]. split; [lia|]. split; [lia|]. now left.
  - simpl. destruct (Z.ltb_spec desired_date q) as [Hlt|Hge].
    + destruct (IH (q - DT.hours 6)) as (k & Hk & Hs & Hle & Hlast).
      { replace (q - DT.hours 6 - desired_date)
          with ((q - desired_date) + (-1) * DT.hours 6) by lia.
        rewrite Z.div_add by lia. lia. }
      exists (k + 1). split; [lia|]. split; [rewrite Hs; lia|].
      split; [lia|]. right. destruct Hlast as [->|Hlast]; lia.
    + exists 0. split; [lia|]. split; [lia|]. split; [lia|]. now left.
Qed.

Lemma select_run_spec (desired_date latest_forcast : Z) :
  exists k : Z,
    0 <= k
    /\ select_run desired_date latest_forcast = latest_forcast - k * DT.hours 6
    /\ select_run desired_date latest_forcast <= desired_date
    /\ (k = 0 \/ desired_date < select_run desired_date latest_forcast + DT.hours 6).
Proof.
  unfold select_run.
  destruct (step_back_spec
              (Z.to_nat ((latest_forcast - desired_date) / DT.hours 6 + 1))
              desired_date latest_forcast) as (k & Hk & Hs & Hle & Hlast).
  - lia.
  - exists k. rewrite Hs. auto.
Qed.

(** The selected run and its fields. *)
Lemma run_selection_run (self : Forcast) (desired_date latest_forcast : Z)
    (rc : run_choice) :
  run_selection self desired_date latest_forcast = Ok rc ->
  query_forcast rc = select_run desired_date latest_forcast
  /\ run_date rc = DT.strftime_Ymd (query_forcast rc)
  /\ run_hour rc = DT.strftime_H (query_forcast rc).
Proof.
  unfold run_selection. destruct (grads_step self) as [step|e]; [|discriminate].
  cbn [mbind result_bind rbind].
  destruct (round_div _ _) as [t_ind|e]; [|discriminate].
  cbn [mbind result_bind rbind]. intros H. injection H as <-. now simpl.
Qed.

Lemma round_half_even_scale (a b c : Z) :
  0 < b -> 0 < c -> round_half_even (a * c) (b * c) = round_half_even a b.
Proof.
  intros Hb Hc. unfold round_half_even.
  destruct (Z.ltb_spec (b * c) 0) as [H|_]; [nia|].
  destruct (Z.ltb_spec b 0) as [H|_]; [lia|].
  rewrite Z.div_mul_cancel_r by lia.
  rewrite Z.mul_mod_distr_r by lia.
  set (m := a mod b).
  destruct (Z.compare_spec (2 * (m * c)) (b * c)), (Z.compare_spec (2 * m) b);
    try reflexivity; nia.
Qed.

(** Within a day of the run, and for a whole number of seconds, the
    index is the offset over the step, rounded half to even. *)
Lemma time_index_within_day (desired_date q step : Z) :
  0 <= desired_date - q < DT.day_us ->
  (desired_date - q) mod DT.second_us = 0 ->
  0 < step ->
  round_div (DT.seconds (desired_date - q)) (step * 60 * 60)
  = Ok (round_half_even (desired_date - q) (DT.hours step)).
Proof.
  intros Hd Hs Hstep. unfold round_div.
  destruct (Z.eqb_spec (step * 60 * 60) 0) as [H|_]; [lia|]. f_equal.
  set (x := desired_date - q) in *.
  assert (Hx : x = (x / DT.second_us) * DT.second_us).
  { pose proof (Z.div_mod x DT.second_us ltac:(cbv; discriminate)). lia. }
  assert (Hsec : DT.seconds x = x / DT.second_us).
  { unfold DT.seconds. apply Z.mod_small. split.
    - apply Z.div_pos; [lia | reflexivity].
    - apply Z.div_lt_upper_bound; [reflexivity|].
      unfold DT.day_us, DT.hour_us, DT.minute_us in Hd. lia. }
  rewrite Hsec.
  replace (DT.hours step) with ((step * 60 * 60) * DT.second_us)
    by (unfold DT.hours, DT.timedelta, DT.hour_us, DT.minute_us; lia).
  rewrite Hx at 2. rewrite round_half_even_scale; [reflexivity | lia | reflexivity].
Qed.

(** The example of the specification: with runs at 00, 06, 12 and 18 h
    and a step of three hours, 14:30 goes to the run of 12:00 with index
    round(2.5 / 3) = 1. *)
Example run_selection_sample :
  resolve_time Sample.parse Sample.forcast Sample.now "2021-02-20 14:30:00"
  = Ok {| query_forcast := DT.datetime 2021 2 20 12 0 0 0;
          run_date := "20210220"; run_hour := "12"; time_index := 1 |}
  /\ round_half_even 25 30 = 1.
Proof. by_computation. Qed.

(** C2.  A request 27 hours after the latest run, that of 12:00 on
    2021-02-20, selects that run, and its time index is 1, the three
    hours that [.seconds] keeps of the offset over the step of three
    hours, where the offset over the step is 9. *)
Theorem time_index_drops_days :
  resolve_time Sample.parse Sample.forcast Sample.now "2021-02-21 15:00:00"
  = Ok {| query_forcast := DT.datetime 2021 2 20 12 0 0 0;
          run_date := "20210220"; run_hour := "12"; time_index := 1 |}
  /\ DT.datetime 2021 2 21 15 0 0 0 - DT.datetime 2021 2 20 12 0 0 0 = DT.hours 27
  /\ round_half_even (DT.hours 27) (DT.hours 3) = 9.
Proof. by_computation. Qed.

(** ** The upper level index (claim C7) *)

(** A forecast that knows the [lev] axis only. *)
Definition lev_only (minimum maximum res : float) : Forcast :=
  {| resolution := EmptyString; timestep := EmptyString; times := ∅;
     coords := <["lev" := <["minimum" := VFloat minimum]>
                          (<["maximum" := VFloat maximum]>
                          (<["resolution" := VFloat res]> ∅))]> ∅;
     variables := ∅ |}.

(** The direction of the axis: the five levels 0, 1, 2, 3, 4 are the
    lattice of minimum 0 and resolution 1, ascending, with maximum 4 the
    last point; the upper index computed from them is -4, not 4.  The
    expression is written for levels that run from [minimum] down to
    [maximum]. *)
Lemma max_lev_ascending :
  PrimFloat.ltb 0 1 = true
  /\ forallb (fun n => PrimFloat.ltb (lattice 1 0 n) (lattice 1 0 (n + 1))) (range 4)
     = true
  /\ PrimFloat.eqb (lattice 1 0 4) 4 = true
  /\ max_lev (lev_only 0 4 1) = Ok (-4)
  /\ max_lev (lev_only 0 4 1) <> Ok (5 - 1).
Proof.
  split; [vm_compute; reflexivity|]. split; [vm_compute; reflexivity|].
  split; [vm_compute; reflexivity|]. split; [vm_compute; reflexivity|].
  vm_compute. discriminate.
Qed.

Lemma trunc_of_value (x : float) (v : Q) (n : Z) :
  Flt.value x = Some v -> (v == inject_Z n)%Q -> Flt.trunc x = Ok n.
Proof.
  unfold Flt.value, Flt.trunc.
  destruct (Prim2SF x) as [s|s| |s m e]; try discriminate.
  - intros H. injection H as <-. intros Hv. f_equal.
    change 0%Q with (inject_Z 0) in Hv. apply (proj1 (inject_Z_injective _ _)) in Hv. congruence.
  - intros H. injection H as <-. intros Hv. f_equal.
    destruct (Z.leb_spec 0 e).
    + destruct s; unfold Qeq, Qopp, inject_Z in Hv; cbn [Qnum Qden] in Hv;
        rewrite !Z.mul_1_r in Hv; exact Hv.
    + assert (Hp : 0 < 2 ^ (- e)) by (apply Z.pow_pos_nonneg; lia).
      destruct s; unfold Qeq, Qopp, inject_Z in Hv; cbn [Qnum Qden] in Hv;
        rewrite Z2Pos.id in Hv by exact Hp.
      * assert (Z.pos m = (- n) * 2 ^ (- e)) as -> by lia.
        rewrite Z.div_mul by lia. lia.
      * assert (Z.pos m = n * 2 ^ (- e)) as -> by lia.
        rewrite Z.div_mul by lia. reflexivity.
Qed.

Lemma float_nonzero (x : float) (v : Q) :
  Flt.value x = Some v -> ~ (v == 0)%Q -> PrimFloat.eqb x zero = false.
Proof.
  unfold Flt.value. rewrite FloatAxioms.eqb_spec.
  change (Prim2SF zero) with (S754_zero false).
  destruct (Prim2SF x) as [s|s| |s m e]; try discriminate.
  - intros H. injection H as <-. intros Hv. exfalso. now apply Hv.
  - intros _ _. unfold SFeqb, SFcompare. now destruct s.
Qed.

(** When the levels run from [minimum] down to [maximum], that is
    [minimum - maximum = resolution * (grid_size - 1)] with
    [resolution > 0], and neither the subtraction nor the division
    rounds, the index is [grid_size - 1]: the case in which the
    expression gives the last level. *)
Lemma max_lev_descending (self : Forcast) (l : gmap string pyval)
    (minimum maximum resolution : float) (vmin vmax vres vd vq : Q) (grid_size : Z) :
  coords self !! "lev" = Some l ->
  l !! "minimum" = Some (VFloat minimum) ->
  l !! "maximum" = Some (VFloat maximum) ->
  l !! "resolution" = Some (VFloat resolution) ->
  Flt.value minimum = Some vmin ->
  Flt.value maximum = Some vmax ->
  Flt.value resolution = Some vres ->
  Flt.value (PrimFloat.sub minimum maximum) = Some vd ->
  (vd == vmin - vmax)%Q ->
  Flt.value (PrimFloat.div (PrimFloat.sub minimum maximum) resolution) = Some vq ->
  (vq * vres == vd)%Q ->
  (0 < vres)%Q ->
  (vmin - vmax == vres * inject_Z (grid_size - 1))%Q ->
  max_lev self = Ok (grid_size - 1).
Proof.
  intros Hl Hmin Hmax Hres Vmin Vmax Vres Vd Hsub Vq Hdiv Hpos Hgrid.
  unfold max_lev.
  rewrite (getitem_Some _ _ _ Hl). cbn [mbind result_bind rbind].
  rewrite (getitem_Some _ _ _ Hmin). cbn [mbind result_bind rbind].
  rewrite (getitem_Some _ _ _ Hmax). cbn [mbind result_bind rbind].
  simpl py_sub. cbn [mbind result_bind rbind].
  rewrite (getitem_Some _ _ _ Hres). cbn [mbind result_bind rbind].
  unfold py_truediv. simpl as_float. unfold Flt.truediv.
  rewrite (float_nonzero resolution vres Vres).
  2:{ intros E. rewrite E in Hpos. now apply Qlt_irrefl in Hpos. }
  cbn [mbind result_bind rbind]. simpl py_int.
  apply (trunc_of_value _ vq); [exact Vq|].
  apply (Qmult_inj_r _ _ vres).
  - intros E. rewrite E in Hpos. now apply Qlt_irrefl in Hpos.
  - rewrite Hdiv, Hsub, Hgrid. apply Qmult_comm.
Qed.

Example max_lev_sample : max_lev Sample.forcast = Ok 36.
Proof. vm_compute. reflexivity. Qed.

(** The levels of the service run from 1000 down to 1, and their
    resolution is the mean spacing in single precision, printed to
    eight digits: 21.717392 for 47 levels and 32.225807 for 32. *)
Definition resolution_47 : float := 0x1.5b7a7008a697bp+4.

Definition resolution_32 : float := 0x1.01ce73e681a9cp+5.

Definition lev_axis_of (res : float) : gmap string pyval :=
  <["grads_dim" := VStr "z"]> (<["minimum" := VFloat 1000]>
  (<["maximum" := VFloat 1]> (<["resolution" := VFloat res]> ∅))).

(** The forecast of the sample at half a degree, with such levels. *)
Definition with_levels (res : float) : Forcast :=
  {| resolution := "0p50"; timestep := EmptyString;
     times := times Sample.forcast;
     coords := <["lev" := lev_axis_of res]> (coords Sample.forcast);
     variables := variables Sample.forcast |}.

(** C7.  The upper level index of [get] and of [get_alt_press] is
    [int((minimum - maximum) / resolution)], the quotient cut to an
    integer, and not the number of levels less one.  For 47 levels from
    1000 down to 1 the resolution read from the service, 21.717392, is
    a little above the spacing 999/46; the quotient is below 46 and the
    index is 45, the number of levels less two, so that the request of
    [get_alt_press] for the heights asks for the levels 0 to 45 and
    leaves out the last one.  For 32 levels, with the resolution
    32.225807 a little above 999/31, the index is 30. *)
Theorem max_lev_rounded_resolution :
  extract_line coord_keys "Float32 resolution 21.717392"
  = Ok (Some ("resolution", VFloat resolution_47))
  /\ (exists v : Q,
        Flt.value resolution_47 = Some v
        /\ (999 # 46 < v)%Q /\ (v < (999 # 46) + (1 # 1000000))%Q)
  /\ max_lev (with_levels resolution_47) = Ok (47 - 2)
  /\ alt_press_url (with_levels resolution_47) "20210220" (VInt 12) "[1]"
                   (VStr "[540]") (VStr "[40]")
     = Ok "https://nomads.ncep.noaa.gov/dods/gfs_0p50/gfs20210220/gfs_0p50_12z.ascii?hgtprs[1][0:45][540][40]"
  /\ extract_line coord_keys "Float32 resolution 32.225807"
     = Ok (Some ("resolution", VFloat resolution_32))
  /\ (exists v : Q,
        Flt.value resolution_32 = Some v
        /\ (999 # 31 < v)%Q /\ (v < (999 # 31) + (1 # 1000000))%Q)
  /\ max_lev (with_levels resolution_32) = Ok (32 - 2).
Proof.
  split; [vm_compute; reflexivity|].
  split.
  { eexists. split; [vm_compute; reflexivity|]. split; vm_compute; reflexivity. }
  split; [vm_compute; reflexivity|]. split; [vm_compute; reflexivity|].
  split; [vm_compute; reflexivity|].
  split.
  { eexists. split; [vm_compute; reflexivity|]. split; vm_compute; reflexivity. }
  vm_compute. reflexivity.
Qed.

(** ** Level dependence (claim C8) *)

(** A declaration of the listing: a type and a name after some
    indentation, then the dimensions, each a name and a size in
    brackets, then a semicolon. *)
Record declaration : Type := {
  d_indent : string;
  d_type : string;
  d_name : string;
  d_dims : list (string * string)
}.

Definition dim_piece (dim : string * string) : string :=
  fst dim +:+ " = " +:+ snd dim +:+ "]".

Definition render_dim (dim : string * string) : string := "[" +:+ dim_piece dim.

Definition render (d : declaration) : string :=
  d_indent d +:+ d_type d +:+ " " +:+ d_name d
  +:+ Str.concat (map render_dim (d_dims d)) +:+ ";".

Definition is_lev (dim : string * string) : bool := String.eqb (fst dim) "lev".

Definition has_lev (d : declaration) : bool := existsb is_lev (d_dims d).

Definition plain (c : ascii) : bool :=
  (negb (Ascii.eqb c "[") && negb (Ascii.eqb c Str.newline))%bool.

Definition word_char (c : ascii) : bool :=
  (negb (Str.is_space c) && negb (Ascii.eqb c "["))%bool.

Definition is_word (s : string) : bool :=
  (negb (String.eqb s EmptyString) && Str.all word_char s)%bool.

Definition blank (c : ascii) : bool :=
  (Str.is_space c && negb (Ascii.eqb c Str.newline))%bool.

Definition well_formed_dim (dim : string * string) : bool :=
  (is_word (fst dim) && Str.all plain (snd dim))%bool.

Fixpoint final (dims : list (string * string)) : option (string * string) :=
  match dims with
  | [] => None
  | [dim] => Some dim
  | _ :: rest => final rest
  end.

Definition well_formed (d : declaration) : bool :=
  (Str.all blank (d_indent d)
   && is_word (d_type d) && negb (String.eqb (d_type d) "lev")
   && is_word (d_name d)
   && forallb well_formed_dim (d_dims d)
   && match final (d_dims d) with
      | Some dim => negb (is_lev dim)
      | None => false
      end)%bool.

Fixpoint last_declared (decls : list declaration) (v : string)
  : option declaration :=
  match decls with
  | [] => None
  | d :: rest =>
      match last_declared rest v with
      | Some d' => Some d'
      | None => if String.eqb (d_name d) v then Some d else None
      end
  end.

(** The pieces that the bracket pattern finds in a declaration. *)
Lemma match_here_group_nil (p : list Re.item) :
  Re.match_here (Re.Group :: p) EmptyString
  = match Re.match_here p EmptyString with
    | Some (caps, n) => Some (EmptyString :: caps, n)
    | None => None
    end.
Proof. destruct p; reflexivity. Qed.

Lemma match_here_group_cons (p : list Re.item) (c : ascii) (s : string) :
  Re.match_here (Re.Group :: p) (String c s)
  = match Re.match_here p (String c s) with
    | Some (caps, n) => Some (EmptyString :: caps, n)
    | None =>
        if Ascii.eqb c Str.newline then None
        else match Re.match_here (Re.Group :: p) s with
             | Some (cap :: caps, n) => Some (String c cap :: caps, S n)
             | _ => None
             end
    end.
Proof. reflexivity. Qed.

Lemma findall_from_0 (p : list Re.item) (s : string) :
  Re.findall_from p O s
  = match Re.match_here p s with
    | Some (caps, n) =>
        caps :: match s with
                | String _ s' => Re.findall_from p (n - 1) s'
                | EmptyString => []
                end
    | None =>
        match s with
        | String _ s' => Re.findall_from p O s'
        | EmptyString => []
        end
    end.
Proof. destruct s; reflexivity. Qed.

Lemma findall_from_skip (p : list Re.item) (a r : string) :
  Re.findall_from p (String.length a) (a +:+ r) = Re.findall_from p O r.
Proof. induction a as [|c a IH]; simpl; [reflexivity | exact IH]. Qed.

Lemma all_append (f : ascii -> bool) (a b : string) :
  Str.all f (a +:+ b) = (Str.all f a && Str.all f b)%bool.
Proof.
  induction a as [|c a IH]; simpl; [reflexivity|]. now rewrite IH, andb_assoc.
Qed.

Lemma length_append (a b : string) :
  String.length (a +:+ b) = (String.length a + String.length b)%nat.
Proof. induction a as [|c a IH]; simpl; [reflexivity | now rewrite IH]. Qed.

Lemma plain_inv (c : ascii) :
  plain c = true -> Ascii.eqb c "[" = false /\ Ascii.eqb c Str.newline = false.
Proof.
  unfold plain. intros H. apply andb_prop in H. destruct H as [H1 H2].
  split; now apply negb_true_iff.
Qed.

Lemma prefix_nil (s : string) : String.prefix EmptyString s = true.
Proof. now destruct s. Qed.

Lemma match_lit_bracket (c : ascii) (s : string) :
  Re.match_here [Re.Lit "["] (String c s)
  = if Ascii.eqb c "[" then Some ([], 1%nat) else None.
Proof.
  cbn [Re.match_here String.prefix].
  destruct (ascii_dec "[" c) as [<-|Hne].
  - rewrite prefix_nil. reflexivity.
  - destruct (Ascii.eqb_spec c "[") as [->|_]; [contradiction | reflexivity].
Qed.

Lemma match_bracket (a r : string) :
  Str.all plain a = true ->
  Re.match_here bracket_pattern (a +:+ "[" +:+ r) = Some ([a], S (String.length a)).
Proof.
  unfold bracket_pattern. induction a as [|c a IH]; intros Ha.
  - change (EmptyString +:+ "[" +:+ r) with (String "[" r).
    rewrite match_here_group_cons, match_lit_bracket. reflexivity.
  - simpl in Ha. apply andb_prop in Ha. destruct Ha as [Hc Ha].
    destruct (plain_inv c Hc) as [Hb Hn].
    change ((String c a) +:+ "[" +:+ r) with (String c (a +:+ "[" +:+ r)).
    rewrite match_here_group_cons, match_lit_bracket, Hb, Hn, (IH Ha).
    reflexivity.
Qed.

Lemma match_bracket_none (a : string) :
  Str.all plain a = true -> Re.match_here bracket_pattern a = None.
Proof.
  unfold bracket_pattern. induction a as [|c a IH]; intros Ha.
  - reflexivity.
  - simpl in Ha. apply andb_prop in Ha. destruct Ha as [Hc Ha].
    destruct (plain_inv c Hc) as [Hb Hn].
    rewrite match_here_group_cons, match_lit_bracket, Hb, Hn, (IH Ha).
    reflexivity.
Qed.

Lemma findall_bracket_cons (a r : string) :
  Str.all plain a = true ->
  Re.findall_from bracket_pattern O (a +:+ "[" +:+ r)
  = [a] :: Re.findall_from bracket_pattern O r.
Proof.
  intros Ha. rewrite findall_from_0, (match_bracket a r Ha). f_equal.
  destruct a as [|c a]; [reflexivity|].
  change ((String c a) +:+ "[" +:+ r) with (String c (a +:+ "[" +:+ r)).
  replace (S (String.length (String c a)) - 1)%nat with (String.length (a +:+ "["))
    by (rewrite length_append; simpl; lia).
  rewrite <- (findall_from_skip bracket_pattern (a +:+ "[") r).
  now rewrite append_assoc.
Qed.

Lemma findall_bracket_none (a : string) :
  Str.all plain a = true -> Re.findall_from bracket_pattern O a = [].
Proof.
  induction a as [|c a IH]; intros Ha.
  - reflexivity.
  - rewrite findall_from_0, (match_bracket_none _ Ha).
    simpl in Ha. apply andb_prop in Ha. now apply IH.
Qed.

Definition body (dims : list (string * string)) : string :=
  Str.concat (map render_dim dims) +:+ ";".

Lemma is_word_chars (s : string) : is_word s = true -> Str.all word_char s = true.
Proof. unfold is_word. intros H. now apply andb_prop in H. Qed.

Lemma all_weaken (f g : ascii -> bool) (s : string) :
  (forall c, f c = true -> g c = true) -> Str.all f s = true -> Str.all g s = true.
Proof.
  intros Hfg. induction s as [|c s IH]; simpl; [reflexivity|].
  intros H. apply andb_prop in H. destruct H as [Hc Hs].
  now rewrite (Hfg c Hc), IH.
Qed.

Lemma word_char_plain (c : ascii) : word_char c = true -> plain c = true.
Proof.
  unfold word_char, plain. intros H. apply andb_prop in H. destruct H as [Hs Hb].
  rewrite Hb. simpl. destruct (Ascii.eqb_spec c Str.newline) as [->|]; [|reflexivity].
  discriminate.
Qed.

Lemma blank_plain (c : ascii) : blank c = true -> plain c = true.
Proof.
  unfold blank, plain. intros H. apply andb_prop in H. destruct H as [Hs Hn].
  rewrite Hn, andb_true_r.
  destruct (Ascii.eqb_spec c "[") as [->|]; [discriminate | reflexivity].
Qed.

Lemma dim_piece_plain (dim : string * string) :
  well_formed_dim dim = true -> Str.all plain (dim_piece dim) = true.
Proof.
  unfold well_formed_dim, dim_piece. intros H. apply andb_prop in H.
  destruct H as [Hn Hs]. rewrite !all_append, Hs.
  rewrite (all_weaken _ _ _ word_char_plain (is_word_chars _ Hn)). reflexivity.
Qed.

Lemma body_cons (dim : string * string) (rest : list (string * string)) :
  body (dim :: rest) = "[" +:+ dim_piece dim +:+ body rest.
Proof.
  unfold body, render_dim. cbn [map Str.concat]. now rewrite !append_assoc.
Qed.

Lemma findall_body (dims : list (string * string)) (a : string) :
  forallb well_formed_dim dims = true -> Str.all plain a = true ->
  Re.findall1 bracket_pattern (a +:+ body dims)
  = match dims with
    | [] => []
    | _ => a :: map dim_piece (removelast dims)
    end.
Proof.
  unfold Re.findall1, Re.findall.
  revert a. induction dims as [|dim rest IH]; intros a Hd Ha.
  - unfold body. cbn [map Str.concat]. rewrite findall_bracket_none; [reflexivity|].
    now rewrite all_append, Ha.
  - cbn [forallb] in Hd. apply andb_prop in Hd. destruct Hd as [Hdim Hrest].
    rewrite body_cons, findall_bracket_cons by exact Ha.
    cbn [map]. rewrite (IH (dim_piece dim) Hrest (dim_piece_plain dim Hdim)).
    destruct rest; reflexivity.
Qed.

(** The words of the pieces. *)
Lemma words_aux_blank (a r : string) :
  Str.all Str.is_space a = true ->
  Str.words_aux None (a +:+ r) = Str.words_aux None r.
Proof.
  induction a as [|c a IH]; simpl; [reflexivity|].
  intros H. apply andb_prop in H. destruct H as [Hc Ha]. now rewrite Hc, IH.
Qed.

Definition nonspace (c : ascii) : bool := negb (Str.is_space c).

Lemma words_aux_word (cur w r : string) :
  Str.all nonspace w = true ->
  Str.words_aux (Some cur) (w +:+ r) = Str.words_aux (Some (cur +:+ w)) r.
Proof.
  revert cur. induction w as [|c w IH]; intros cur; simpl.
  - now rewrite append_nil_r.
  - intros H. apply andb_prop in H. destruct H as [Hc Hw].
    unfold nonspace in Hc. apply negb_true_iff in Hc. rewrite Hc, (IH _ Hw).
    now rewrite append_assoc.
Qed.

Lemma words_aux_start (w r : string) :
  w <> EmptyString -> Str.all nonspace w = true ->
  Str.words_aux None (w +:+ r) = Str.words_aux (Some w) r.
Proof.
  destruct w as [|c w]; [contradiction|]. intros _. simpl.
  intros H. apply andb_prop in H. destruct H as [Hc Hw].
  unfold nonspace in Hc. apply negb_true_iff in Hc. rewrite Hc.
  now rewrite (words_aux_word _ _ _ Hw).
Qed.

Lemma is_word_nonspace (s : string) :
  is_word s = true -> s <> EmptyString /\ Str.all nonspace s = true.
Proof.
  unfold is_word. intros H. apply andb_prop in H. destruct H as [Hn Hs]. split.
  - intros ->. discriminate.
  - apply (all_weaken word_char); [|exact Hs].
    unfold word_char, nonspace. intros c Hc. now apply andb_prop in Hc.
Qed.

Lemma words_head (indent type name : string) :
  Str.all blank indent = true -> is_word type = true -> is_word name = true ->
  Str.words (indent +:+ type +:+ " " +:+ name) = [type; name].
Proof.
  intros Hi Ht Hn. unfold Str.words.
  destruct (is_word_nonspace _ Ht) as [Ht0 Hts].
  destruct (is_word_nonspace _ Hn) as [Hn0 Hns].
  rewrite words_aux_blank.
  2:{ apply (all_weaken blank); [|exact Hi]. unfold blank. intros c Hc.
      now apply andb_prop in Hc. }
  rewrite (words_aux_start _ _ Ht0 Hts). simpl.
  rewrite <- (append_nil_r name) at 1.
  rewrite (words_aux_start _ _ Hn0 Hns). reflexivity.
Qed.

Lemma words_dim_piece (dim : string * string) :
  well_formed_dim dim = true ->
  exists rest, Str.words (dim_piece dim) = fst dim :: rest.
Proof.
  unfold well_formed_dim, dim_piece. intros H. apply andb_prop in H.
  destruct H as [Hn _]. destruct (is_word_nonspace _ Hn) as [Hn0 Hns].
  unfold Str.words. rewrite (words_aux_start _ _ Hn0 Hns). simpl. eauto.
Qed.

Lemma check_dim_piece (dim : string * string) (acc : bool) :
  well_formed_dim dim = true ->
  check_dim acc (dim_piece dim) = Ok (if is_lev dim then true else acc).
Proof.
  intros Hdim. unfold check_dim.
  destruct (words_dim_piece dim Hdim) as [ws ->]. reflexivity.
Qed.

Lemma check_dims (dims : list (string * string)) (acc : bool) :
  forallb well_formed_dim dims = true ->
  for_each check_dim (map dim_piece dims) acc = Ok (acc || existsb is_lev dims)%bool.
Proof.
  revert acc. induction dims as [|dim rest IH]; intros acc Hd.
  - simpl. now rewrite orb_false_r.
  - cbn [forallb] in Hd. apply andb_prop in Hd. destruct Hd as [Hdim Hrest].
    cbn [map for_each]. rewrite (check_dim_piece dim acc Hdim).
    cbn [mbind result_bind rbind]. rewrite (IH _ Hrest). f_equal.
    cbn [existsb]. destruct (is_lev dim), acc; reflexivity.
Qed.

Lemma forallb_removelast {A} (f : A -> bool) (l : list A) :
  forallb f l = true -> forallb f (removelast l) = true.
Proof.
  induction l as [|x l IH]; [reflexivity|]. cbn [forallb]. intros H.
  apply andb_prop in H. destruct H as [Hx Hl].
  destruct l as [|y l]; [reflexivity|].
  change (removelast (x :: y :: l)) with (x :: removelast (y :: l)).
  cbn [forallb]. now rewrite Hx, IH.
Qed.

Lemma existsb_removelast (dims : list (string * string)) (dim : string * string) :
  final dims = Some dim -> is_lev dim = false ->
  existsb is_lev (removelast dims) = existsb is_lev dims.
Proof.
  induction dims as [|x l IH]; [discriminate|].
  destruct l as [|y l].
  - simpl. intros H. injection H as ->. intros ->. reflexivity.
  - change (final (x :: y :: l)) with (final (y :: l)).
    change (removelast (x :: y :: l)) with (x :: removelast (y :: l)).
    intros H1 H2. cbn [existsb]. now rewrite IH.
Qed.

Definition head (d : declaration) : string :=
  d_indent d +:+ d_type d +:+ " " +:+ d_name d.

Lemma render_head (d : declaration) : render d = head d +:+ body (d_dims d).
Proof. unfold render, head, body. now rewrite !append_assoc. Qed.

Lemma well_formed_inv (d : declaration) :
  well_formed d = true ->
  Str.all blank (d_indent d) = true
  /\ is_word (d_type d) = true
  /\ String.eqb (d_type d) "lev" = false
  /\ is_word (d_name d) = true
  /\ forallb well_formed_dim (d_dims d) = true
  /\ exists dim, final (d_dims d) = Some dim /\ is_lev dim = false.
Proof.
  unfold well_formed. intros H.
  apply andb_prop in H. destruct H as [H Hlast].
  apply andb_prop in H. destruct H as [H Hdims].
  apply andb_prop in H. destruct H as [H Hname].
  apply andb_prop in H. destruct H as [H Hlev].
  apply andb_prop in H. destruct H as [Hindent Htype].
  apply negb_true_iff in Hlev.
  repeat (split; [assumption|]).
  destruct (final (d_dims d)) as [dim|]; [|discriminate].
  exists dim. split; [reflexivity|]. now apply negb_true_iff.
Qed.

Lemma head_plain (d : declaration) :
  well_formed d = true -> Str.all plain (head d) = true.
Proof.
  intros H. destruct (well_formed_inv d H) as (Hi & Ht & _ & Hn & _).
  unfold head. rewrite !all_append.
  rewrite (all_weaken _ _ _ blank_plain Hi).
  rewrite (all_weaken _ _ _ word_char_plain (is_word_chars _ Ht)).
  rewrite (all_weaken _ _ _ word_char_plain (is_word_chars _ Hn)).
  reflexivity.
Qed.

Lemma pieces_render (d : declaration) :
  well_formed d = true ->
  Re.findall1 bracket_pattern (render d)
  = head d :: map dim_piece (removelast (d_dims d)).
Proof.
  intros H. destruct (well_formed_inv d H) as (_ & _ & _ & _ & Hd & dim & Hf & _).
  rewrite render_head, (findall_body _ _ Hd (head_plain d H)).
  destruct (d_dims d); [discriminate | reflexivity].
Qed.

Lemma declared_name_render (d : declaration) :
  well_formed d = true -> declared_name (render d) = Ok (d_name d).
Proof.
  intros H. unfold declared_name. rewrite (pieces_render d H).
  destruct (well_formed_inv d H) as (Hi & Ht & _ & Hn & _).
  unfold head. now rewrite (words_head _ _ _ Hi Ht Hn).
Qed.

Lemma lev_dep_render (d : declaration) :
  well_formed d = true ->
  for_each check_dim (Re.findall1 bracket_pattern (render d)) false = Ok (has_lev d).
Proof.
  intros H. rewrite (pieces_render d H).
  destruct (well_formed_inv d H) as (Hi & Ht & Hlev & Hn & Hd & dim & Hf & Hl).
  assert (Hh : check_dim false (head d) = Ok false).
  { unfold check_dim, head. now rewrite (words_head _ _ _ Hi Ht Hn), Hlev. }
  cbn [for_each]. rewrite Hh. cbn [mbind result_bind rbind].
  rewrite (check_dims _ _ (forallb_removelast _ _ Hd)).
  unfold has_lev. now rewrite (existsb_removelast _ _ Hf Hl).
Qed.

Definition mark (variables : gmap string (gmap string pyval)) (d : declaration)
  : gmap string (gmap string pyval) :=
  match variables !! d_name d with
  | Some attributes =>
      <[d_name d := <["level_dependent" := VBool (has_lev d)]> attributes]> variables
  | None => variables
  end.

Lemma mark_array_render (variables : gmap string (gmap string pyval))
    (d : declaration) :
  well_formed d = true -> mark_array variables (render d) = Ok (mark variables d).
Proof.
  intros H. unfold mark_array, mark. rewrite (declared_name_render d H).
  cbn [mbind result_bind rbind].
  destruct (variables !! d_name d); [|reflexivity].
  now rewrite (lev_dep_render d H).
Qed.

Lemma mark_arrays (decls : list declaration)
    (variables : gmap string (gmap string pyval)) :
  forallb well_formed decls = true ->
  exists variables' : gmap string (gmap string pyval),
    for_each mark_array (map render decls) variables = Ok variables'
    /\ forall v : string,
         variables' !! v
         = match variables !! v with
           | Some attributes =>
               Some match last_declared decls v with
                    | Some d => <["level_dependent" := VBool (has_lev d)]> attributes
                    | None => attributes
                    end
           | None => None
           end.
Proof.
  revert variables. induction decls as [|d rest IH]; intros variables Hwf.
  - exists variables. split; [reflexivity|]. intros v. simpl.
    now destruct (variables !! v).
  - cbn [forallb] in Hwf. apply andb_prop in Hwf. destruct Hwf as [Hd Hrest].
    destruct (IH (mark variables d) Hrest) as (variables' & Hfor & Hlook).
    exists variables'. split.
    + cbn [map for_each]. rewrite (mark_array_render _ d Hd). exact Hfor.
    + intros v. rewrite Hlook. cbn [last_declared]. unfold mark.
      destruct (String.eqb_spec (d_name d) v) as [->|Hne].
      * destruct (variables !! v) as [attributes|] eqn:E.
        -- rewrite lookup_insert_eq.
           destruct (last_declared rest v); [|reflexivity].
           now rewrite insert_insert_eq.
        -- now rewrite E.
      * destruct (variables !! d_name d) as [attributes|] eqn:E.
        -- rewrite lookup_insert_ne by exact Hne.
           destruct (variables !! v); [|reflexivity].
           now destruct (last_declared rest v).
        -- destruct (variables !! v); [|reflexivity].
           now destruct (last_declared rest v).
Qed.

Lemma for_each_invariant {A S} (P : S -> Prop) (body : S -> A -> result S)
    (xs : list A) (init s : S) :
  (forall s x s', P s -> body s x = Ok s' -> P s') ->
  P init -> for_each body xs init = Ok s -> P s.
Proof.
  intros Hstep. revert init. induction xs as [|x xs IH]; intros init Hinit; simpl.
  - intros H. injection H as <-. exact Hinit.
  - destruct (body init x) as [s1|e] eqn:E; [|discriminate].
    cbn [mbind result_bind rbind]. apply IH. exact (Hstep _ _ _ Hinit E).
Qed.

Lemma first_found_In (possibles : list string) (line p : string) (found : Z) :
  first_found possibles line = Some (p, found) -> In p possibles.
Proof.
  induction possibles as [|q ps IH]; simpl; [discriminate|].
  destruct (Str.find q line =? -1).
  - intros H. right. now apply IH.
  - intros H. injection H as <- _. now left.
Qed.

Lemma extract_line_In (possibles : list string) (line iden : string) (val : pyval) :
  extract_line possibles line = Ok (Some (iden, val)) -> In iden possibles.
Proof.
  unfold extract_line.
  destruct (first_found possibles line) as [[p found]|] eqn:E; [|discriminate].
  apply first_found_In in E.
  destruct (String.eqb _ "Str").
  - intros H. injection H as <- _. exact E.
  - destruct (String.eqb _ "Flo"); [|discriminate].
    destruct (py_float _) as [x|e]; [|discriminate].
    cbn [mbind result_bind rbind]. intros H. injection H as <- _. exact E.
Qed.

Lemma read_attributes_keys (possibles atts : list string)
    (attributes : gmap string pyval) (k : string) :
  ~ In k possibles ->
  read_attributes possibles atts = Ok attributes -> attributes !! k = None.
Proof.
  intros Hk. unfold read_attributes.
  apply (for_each_invariant (fun a : gmap string pyval => a !! k = None)).
  - intros a att a' Ha. unfold add_attribute.
    destruct (extract_line possibles att) as [[[iden val]|]|e] eqn:E;
      cbn [mbind result_bind rbind]; try discriminate.
    + intros H. injection H as <-. rewrite lookup_insert_ne; [exact Ha|].
      intros ->. apply Hk. exact (extract_line_In _ _ _ _ E).
    + intros H. now injection H as <-.
  - apply lookup_empty.
Qed.

Lemma level_dependent_not_read : ~ In "level_dependent" variable_keys.
Proof. unfold variable_keys. simpl. intuition discriminate. Qed.

Definition unmarked (variables : gmap string (gmap string pyval)) : Prop :=
  forall (v : string) (attributes : gmap string pyval),
    variables !! v = Some attributes -> attributes !! "level_dependent" = None.

Lemma parse_das_unmarked (body : string) (d : das) :
  parse_das body = Ok d -> unmarked (das_variables d).
Proof.
  unfold parse_das.
  apply (for_each_invariant (fun st : das => unmarked (das_variables st))).
  - intros st var st' Hst. unfold read_entity.
    destruct (negb (existsb _ _)).
    + destruct (read_attributes variable_keys _) as [attributes|e] eqn:E;
        [|discriminate].
      cbn [mbind result_bind rbind]. intros H. injection H as <-. simpl.
      intros v a. destruct (String.eqb_spec (nth 0 var EmptyString) v) as [->|Hne].
      * rewrite lookup_insert_eq. intros Ha. injection Ha as <-.
        exact (read_attributes_keys _ _ _ _ level_dependent_not_read E).
      * rewrite lookup_insert_ne by exact Hne. apply Hst.
    + destruct (String.eqb _ "time").
      * destruct (read_attributes time_keys _); [|discriminate].
        cbn [mbind result_bind rbind]. intros H. now injection H as <-.
      * destruct (read_attributes coord_keys _); [|discriminate].
        cbn [mbind result_bind rbind]. intros H. now injection H as <-.
  - intros v a. simpl. now rewrite lookup_empty.
Qed.

Definition dds_url (res step : string) (date : Z) : string :=
  "https://nomads.ncep.noaa.gov/dods/gfs_" +:+ res +:+ step +:+ "/gfs"
  +:+ DT.strftime_Ymd date +:+ "/gfs_" +:+ res +:+ step +:+ "_00z.dds".

Lemma url_dds (res step : string) (date : Z) :
  url res step (DT.strftime_Ymd date) (VInt 0) "dds" = Ok (dds_url res step date).
Proof. reflexivity. Qed.

Lemma get_attributes_inv (res step : string) (w w' : world) (c : catalog) :
  existsb (String.eqb (res +:+ step)) (saved_atts w) = false ->
  get_attributes res step w = (Ok c, w') ->
  exists d : das,
    parse_das (text (service w (das_url res step (utcnow w)))) = Ok d
    /\ mark_level_dependence (text (service w (dds_url res step (today w))))
                             (das_variables d)
       = Ok (cat_variables c).
Proof.
  intros Hkey. unfold get_attributes, reference_date. rewrite Hkey. simpl negb. cbv iota.
  destruct (DT.hour (utcnow w) <? 6).
  { cbn [mbind result_bind rbind]. intros H. injection H as H _. discriminate. }
  cbn [mbind result_bind rbind]. rewrite url_das. unfold requests_get.
  destruct (negb (status_code (service w (das_url res step (utcnow w))) =? 200)).
  { intros H. injection H as H _. discriminate. }
  destruct (parse_das _) as [d|e] eqn:Ed.
  2:{ intros H. injection H as H _. discriminate. }
  unfold fetch_dds. cbn [today service]. rewrite url_dds. unfold requests_get.
  cbn [service].
  destruct (negb (status_code (service w (dds_url res step (today w))) =? 200)).
  { intros H. injection H as H _. discriminate. }
  destruct (mark_level_dependence _ _) as [variables|e] eqn:Em.
  2:{ cbn [mbind result_bind rbind]. intros H. injection H as H _. discriminate. }
  cbn [mbind result_bind rbind].
  destruct (das_time d) as [time|].
  2:{ intros H. injection H as H _. discriminate. }
  intros H. injection H as <- _. exists d. split; [reflexivity|]. exact Em.
Qed.

(** C8, as the code has it.  Let [get_attributes] resolve a
    configuration that is not saved yet, the arrays of the declaration
    listing being well-formed declarations whose last dimension is not
    [lev].  A variable that some array declares has [level_dependent]
    true if and only if the dimensions of that array (of the last one,
    if several declare it) include [lev]; a variable that no array
    declares has no [level_dependent] entry. *)
Theorem level_dependence_of_declarations (res step : string) (w w' : world)
    (c : catalog) (decls : list declaration) :
  existsb (String.eqb (res +:+ step)) (saved_atts w) = false ->
  get_attributes res step w = (Ok c, w') ->
  Re.findall1 array_pattern (text (service w (dds_url res step (today w))))
  = map render decls ->
  forallb well_formed decls = true ->
  forall (v : string) (attributes : gmap string pyval),
    cat_variables c !! v = Some attributes ->
    attributes !! "level_dependent"
    = option_map (fun d => VBool (has_lev d)) (last_declared decls v).
Proof.
  intros Hkey Hget Harrays Hwf v attributes Hv.
  destruct (get_attributes_inv res step w w' c Hkey Hget) as (d & Hdas & Hmark).
  unfold mark_level_dependence in Hmark. rewrite Harrays in Hmark.
  destruct (mark_arrays decls (das_variables d) Hwf) as (variables' & Hfor & Hlook).
  rewrite Hfor in Hmark. injection Hmark as Hmark.
  rewrite <- Hmark, Hlook in Hv.
  destruct (das_variables d !! v) as [a0|] eqn:E; [|discriminate].
  injection Hv as <-.
  pose proof (parse_das_unmarked _ _ Hdas v a0 E) as Hnone.
  destruct (last_declared decls v); simpl.
  - apply lookup_insert_eq.
  - exact Hnone.
Qed.

(** The arrays of the sample listing. *)
Definition sample_declarations : list declaration :=
  [ {| d_indent := "      "; d_type := "Float32"; d_name := "tmp2m";
       d_dims := [("time", "81"); ("lat", "721"); ("lon", "1440")] |};
    {| d_indent := "      "; d_type := "Float32"; d_name := "tmpprs";
       d_dims := [("time", "81"); ("lev", "37"); ("lat", "721"); ("lon", "1440")] |} ].

Definition sample_catalog : catalog :=
  {| cat_time := times Sample.forcast; cat_coords := coords Sample.forcast;
     cat_variables := variables Sample.forcast |}.

(** C8 as stated fails: the metadata description of the sample has the
    block NC_GLOBAL, which is read as a variable; no array declares it,
    and its attributes have no [level_dependent] entry, where the claim
    has the value false; [get] asked for it raises KeyError. *)
Lemma undeclared_variable_unmarked :
  fst (get_attributes "0p25" "" Sample.world0) = Ok sample_catalog
  /\ Re.findall1 array_pattern Sample.dds_text = map render sample_declarations
  /\ last_declared sample_declarations "NC_GLOBAL" = None
  /\ (exists attributes : gmap string pyval,
        cat_variables sample_catalog !! "NC_GLOBAL" = Some attributes
        /\ attributes !! "level_dependent" = None
        /\ attributes !! "level_dependent" <> Some (VBool false))
  /\ fst (get Sample.parse Sample.decode Sample.forcast ["NC_GLOBAL"]
              "2021-02-19 15:00:00" (VStr "45") (VStr "10") (VList []) Sample.world0)
     = Raise (KeyError "level_dependent").
Proof.
  split; [vm_compute; reflexivity|]. split; [vm_compute; reflexivity|].
  split; [vm_compute; reflexivity|]. split.
  - exists ∅. split; [vm_compute; reflexivity|]. split; [reflexivity | discriminate].
  - vm_compute. reflexivity.
Qed.

(** The last dimension of a declaration is not among the pieces: an
    array whose last dimension is [lev] is not marked level-dependent. *)
Example last_dimension_not_seen :
  mark_array (<["x" := ∅]> ∅) "  Float32 x[time = 81][lev = 37];"
  = Ok (<["x" := <["level_dependent" := VBool false]> ∅]> ∅).
Proof. vm_compute. reflexivity. Qed.

(** * The theorems at concrete inputs *)

Lemma forallb_range (f : Z -> bool) (size : Z) :
  forallb f (range size) = true -> forall n : Z, 0 <= n < size -> f n = true.
Proof.
  intros H n Hn. rewrite forallb_forall in H. apply H. now apply in_range.
Qed.

(** C6 at the latitudes of the sample: 45 is the point 540 of the
    lattice, and 45.125 is no point of it. *)
Lemma value_to_index_sample :
  (exists i : Z,
     value_to_index Sample.forcast "lat" 45 = Ok i
     /\ 0 <= i <= 540
     /\ PrimFloat.eqb (PrimFloat.add (-90) (PrimFloat.mul 0.25 (Flt.of_Z i))) 45 = true)
  /\ exists msg : string,
       value_to_index Sample.forcast "lat" 45.125 = Raise (ValueError msg).
Proof.
  split.
  - destruct (value_to_index_exact Sample.forcast "lat" Sample.lat_axis
                (VStr "721") (VFloat 0.25) (VFloat (-90)) 721 0.25 (-90) 45
                eq_refl eq_refl eq_refl eq_refl eq_refl eq_refl eq_refl)
      as [Hon _].
    destruct (Hon 540 ltac:(lia) ltac:(vm_compute; reflexivity))
      as (i & Hi & Hr & Hb & _).
    exists i. split; [exact Hi|]. split; [exact Hr | exact Hb].
  - destruct (value_to_index_exact Sample.forcast "lat" Sample.lat_axis
                (VStr "721") (VFloat 0.25) (VFloat (-90)) 721 0.25 (-90) 45.125
                eq_refl eq_refl eq_refl eq_refl eq_refl eq_refl eq_refl)
      as [_ Hoff].
    apply Hoff. intros n Hn.
    apply negb_true_iff.
    exact (forallb_range
             (fun n => negb (PrimFloat.eqb (lattice 0.25 (-90) n) 45.125)) 721
             ltac:(vm_compute; reflexivity) n Hn).
Defined.

(** C4 for a plain and a level-dependent variable with a level range. *)
Lemma make_query_sample :
  make_query Sample.forcast "[1]" (Some (VStr "[0:36]")) (VStr "[540]") (VStr "[40]")
             ["tmp2m"; "tmpprs"]
  = Ok ",tmp2m[1][540][40],tmpprs[1][0:36][540][40]".
Proof.
  change "[1]" with ("[" +:+ Str.of_Z 1 +:+ "]").
  rewrite (make_query_tokens Sample.forcast 1 (Some (VStr "[0:36]")) "[540]" "[40]"
             ["tmp2m"; "tmpprs"]).
  - vm_compute. reflexivity.
  - intros v [<-|[<-|[]]].
    + exists (Sample.var_atts "** 2 m above ground temperature [k] " false),
             (VBool false).
      split; vm_compute; reflexivity.
    + exists (Sample.var_atts
                "** (1000 975 950 925 900.. 7 5 3 2 1) temperature [k] " true),
             (VBool true).
      split; vm_compute; reflexivity.
  - intros v _ _. now exists "[0:36]".
Defined.

(** C1 at 17:10 on 2021-02-20: a request for 14:30 is inside the window
    and goes on to the selection from the run of 12:00. *)
Lemma availability_window_sample :
  resolve_time Sample.parse Sample.forcast Sample.now "2021-02-20 14:30:00"
  = run_selection Sample.forcast (DT.datetime 2021 2 20 14 30 0 0)
                  (DT.datetime 2021 2 20 12 0 0 0).
Proof.
  refine (proj1 (proj2 (availability_window Sample.parse Sample.forcast Sample.now
                          "2021-02-20 14:30:00" 243 (DT.datetime 2021 2 20 14 30 0 0)
                          _ _)) _).
  - vm_compute. reflexivity.
  - vm_compute. reflexivity.
  - vm_compute. split; reflexivity.
Defined.

(** The levels of the sample: 1000 down to 1 in 36 steps of 27.75, 37
    levels, with no rounding. *)
Lemma max_lev_descending_sample : max_lev Sample.forcast = Ok (37 - 1).
Proof.
  eapply (max_lev_descending Sample.forcast Sample.lev_axis 1000 1 27.75
            _ _ _ _ _ 37).
  - vm_compute. reflexivity.
  - vm_compute. reflexivity.
  - vm_compute. reflexivity.
  - vm_compute. reflexivity.
  - vm_compute. reflexivity.
  - vm_compute. reflexivity.
  - vm_compute. reflexivity.
  - vm_compute. reflexivity.
  - vm_compute. reflexivity.
  - vm_compute. reflexivity.
  - vm_compute. reflexivity.
  - vm_compute. reflexivity.
  - vm_compute. reflexivity.
Defined.

(** C8 at the sample: [tmpprs] is declared with a [lev] dimension. *)
Lemma level_dependence_sample :
  Sample.var_atts "** (1000 975 950 925 900.. 7 5 3 2 1) temperature [k] " true
    !! "level_dependent"
  = option_map (fun d => VBool (has_lev d)) (last_declared sample_declarations "tmpprs").
Proof.
  apply (level_dependence_of_declarations "0p25" EmptyString Sample.world0
           (snd (get_attributes "0p25" EmptyString Sample.world0))
           sample_catalog sample_declarations).
  - vm_compute. reflexivity.
  - vm_compute. reflexivity.
  - vm_compute. reflexivity.
  - vm_compute. reflexivity.
  - vm_compute. reflexivity.
Defined.

(** C10 before and after 06:00 UTC. *)
Definition world_at (h : Z) : world :=
  initial_world (DT.datetime 2021 2 20 h 59 59 0) (DT.datetime 2021 2 20 h 59 59 0)
                Sample.service.

Lemma get_attributes_before_six_sample :
  get_attributes "0p25" "_1hr" (world_at 5)
  = (Raise (TypeError "'day' is an invalid keyword argument for __new__()"), world_at 5)
  /\ __init__ "0p25" "1hr" (world_at 5)
     = (Raise (TypeError "'day' is an invalid keyword argument for __new__()"), world_at 5)
  /\ exists later : list string,
       requests (snd (get_attributes "0p25" "_1hr" (world_at 6)))
       = (later ++ ["https://nomads.ncep.noaa.gov/dods/gfs_0p25_1hr/gfs20210220/gfs_0p25_1hr_00z.das"])%list.
Proof.
  destruct (get_attributes_before_six "0p25" "_1hr" (world_at 5) eq_refl)
    as [Hbefore _].
  destruct (Hbefore ltac:(vm_compute; reflexivity)) as [Hg Hi].
  split; [exact Hg|]. split; [exact (Hi "1hr" eq_refl)|].
  destruct (get_attributes_before_six "0p25" "_1hr" (world_at 6) eq_refl)
    as [_ Hafter].
  exact (Hafter ltac:(vm_compute; discriminate)).
Defined.

(** C9 for a height field with one time, three levels, two latitudes
    and one longitude. *)
Module Heights.

Definition hgtprs : variable :=
  {| data := {| shape := [1; 3; 2; 1]%nat;
                flat := [110.5; 111; 760; 762.5; 1450; 1455]%float |};
     axes := <["time" := [737841.5]%float]> (<["lev" := [1000; 925; 850]%float]>
             (<["lat" := [45; 45.25]%float]> (<["lon" := [10%float]]> ∅))) |}.

Definition decode (body : string) : result (gmap string variable) :=
  Ok (<["hgtprs" := hgtprs]> ∅).

Definition service (u : string) : response :=
  {| status_code := 200; text := "hgtprs, [1][3][2][1]" |}.

Definition world0 : world := initial_world Sample.now Sample.now service.

End Heights.

Lemma get_alt_press_sample :
  exists itp : interpolator,
    fst (get_alt_press Heights.decode Sample.forcast "20210220" (VInt 12) "[1]"
                       (VStr "[540:541]") (VStr "[40]") Heights.world0)
    = Ok itp
    /\ grid itp = [[0; 75; 150]%float; [45; 45.25]%float]
    /\ shape (values itp) = [3; 2]%nat
    /\ ndim itp = 2%nat.
Proof.
  destruct (get_alt_press_active_axes Heights.decode Sample.forcast "20210220"
              (VInt 12) "[1]" (VStr "[540:541]") (VStr "[40]") Heights.world0
              "https://nomads.ncep.noaa.gov/dods/gfs_0p25/gfs20210220/gfs_0p25_12z.ascii?hgtprs[1][0:36][540:541][40]"
              (<["hgtprs" := Heights.hgtprs]> ∅) Heights.hgtprs
              [737841.5]%float [1000; 925; 850]%float [45; 45.25]%float [10%float]
              ltac:(vm_compute; reflexivity) eq_refl eq_refl
              ltac:(vm_compute; reflexivity) ltac:(vm_compute; reflexivity)
              ltac:(vm_compute; reflexivity) ltac:(vm_compute; reflexivity)
              ltac:(vm_compute; reflexivity) eq_refl)
    as (itp & Hitp & Hgrid & Hvalues & Hcase).
  destruct (Hcase eq_refl eq_refl ltac:(simpl; lia) ltac:(simpl; lia)) as [Hg Hn].
  exists itp. split; [exact Hitp|]. split; [|split].
  - rewrite Hg. vm_compute. reflexivity.
  - rewrite Hvalues. reflexivity.
  - exact Hn.
Defined.

(** * Further properties of the code *)

(** ** [hour_round] and the run selection of [get] *)

(** X1.  [hour_round] gives a whole hour, the one nearest to its
    argument with the half hour going up, and does nothing to a time
    that it has rounded. *)
Theorem hour_round_nearest_hour (t : Z) :
  hour_round t mod DT.hour_us = 0
  /\ t - 30 * DT.minute_us < hour_round t <= t + 30 * DT.minute_us
  /\ hour_round (hour_round t) = hour_round t.
Proof.
  assert (Hwhole : hour_round t mod DT.hour_us = 0).
  { rewrite hour_round_spec.
    replace (t - t mod DT.hour_us + (if 30 <=? DT.minute t then DT.hour_us else 0))
      with ((t / DT.hour_us + (if 30 <=? DT.minute t then 1 else 0)) * DT.hour_us).
    - apply Z.mod_mul. cbv. discriminate.
    - pose proof (Z.div_mod t DT.hour_us ltac:(cbv; discriminate)).
      destruct (30 <=? DT.minute t); lia. }
  split; [exact Hwhole|]. split.
  - rewrite hour_round_spec, minute_of_hour.
    pose proof (Z.mod_pos_bound t DT.hour_us ltac:(reflexivity)) as Hr.
    set (r := t mod DT.hour_us) in *.
    pose proof (Z.div_mod r DT.minute_us ltac:(cbv; discriminate)) as Hd.
    pose proof (Z.mod_pos_bound r DT.minute_us ltac:(reflexivity)) as Hm.
    change DT.hour_us with 3600000000 in *.
    change DT.minute_us with 60000000 in *.
    destruct (Z.leb_spec 30 (r / 60000000)); lia.
  - now apply hour_round_whole.
Qed.

Lemma hours_mul (n : Z) : DT.hours n = n * DT.hour_us.
Proof. unfold DT.hours, DT.timedelta. lia. Qed.

(** The latest run, [latest_available] less the extent, is the last
    multiple of six hours that is not after the clock. *)
Lemma latest_forcast_grid (now : Z) :
  now - now mod DT.hour_us - DT.hours (DT.hour now mod 6)
  = (now / DT.hour_us / 6) * DT.hours 6.
Proof.
  unfold DT.hour. rewrite Z.mod_mod_divide by (exists 4; reflexivity).
  rewrite !hours_mul.
  pose proof (Z.div_mod now DT.hour_us ltac:(cbv; discriminate)) as E1.
  pose proof (Z.div_mod (now / DT.hour_us) 6 ltac:(discriminate)) as E2.
  set (q := now / DT.hour_us) in *. set (h := DT.hour_us) in *.
  nia.
Qed.

(** The run of 12:00 on 2021-02-20, with the time index of 14:30. *)
Definition sample_run : run_choice :=
  {| query_forcast := DT.datetime 2021 2 20 12 0 0 0;
     run_date := "20210220"; run_hour := "12"; time_index := 1 |}.

(** X2.  Whenever [get] selects a run, the run starts at 00, 06, 12 or
    18 h UTC on the hour, and the hour it puts in the request is that
    hour in two digits. *)
Theorem selected_run_six_hourly (dateutil_parse : string -> result Z)
    (self : Forcast) (now : Z) (date_time : string) (rc : run_choice) :
  resolve_time dateutil_parse self now date_time = Ok rc ->
  query_forcast rc mod DT.hours 6 = 0
  /\ DT.hour (query_forcast rc) mod 6 = 0
  /\ DT.minute (query_forcast rc) = 0
  /\ run_hour rc = DT.pad 2 (DT.hour (query_forcast rc)).
Proof.
  unfold resolve_time.
  destruct (run_extent self) as [extent|e]; [|discriminate].
  cbn [mbind result_bind rbind].
  destruct (dateutil_parse date_time) as [d|e]; [|discriminate].
  cbn [mbind result_bind rbind].
  destruct (_ && _)%bool; [|discriminate].
  intros Hsel. destruct (run_selection_run _ _ _ _ Hsel) as (Hq & _ & Hh).
  destruct (select_run_spec d (latest_available now extent - DT.hours extent))
    as (k & _ & Hk & _).
  assert (Hgrid : query_forcast rc = (now / DT.hour_us / 6 - k) * DT.hours 6).
  { rewrite Hq, Hk, latest_available_spec.
    replace (now - now mod DT.hour_us - DT.hours (DT.hour now mod 6)
             + DT.hours extent - DT.hours extent)
      with (now - now mod DT.hour_us - DT.hours (DT.hour now mod 6)) by lia.
    rewrite latest_forcast_grid. lia. }
  set (K := now / DT.hour_us / 6 - k) in *.
  assert (Hhour : query_forcast rc / DT.hour_us = K * 6).
  { rewrite Hgrid, hours_mul, Z.mul_assoc. apply Z.div_mul. cbv. discriminate. }
  split; [rewrite Hgrid; apply Z.mod_mul; cbv; discriminate|].
  split.
  - unfold DT.hour. rewrite Z.mod_mod_divide by (exists 4; reflexivity).
    rewrite Hhour. apply Z.mod_mul. discriminate.
  - split; [|exact Hh].
    rewrite minute_of_hour.
    replace (query_forcast rc mod DT.hour_us) with 0; [reflexivity|].
    symmetry. rewrite Hgrid, hours_mul, Z.mul_assoc. apply Z.mod_mul. cbv. discriminate.
Qed.

Lemma selected_run_six_hourly_sample :
  query_forcast sample_run mod DT.hours 6 = 0
  /\ DT.hour (query_forcast sample_run) mod 6 = 0
  /\ DT.minute (query_forcast sample_run) = 0
  /\ run_hour sample_run = DT.pad 2 (DT.hour (query_forcast sample_run)).
Proof.
  apply (selected_run_six_hourly Sample.parse Sample.forcast Sample.now
           "2021-02-20 14:30:00" sample_run).
  vm_compute. reflexivity.
Defined.

(** X3.  Whenever [get] selects a run, the requested time is inside the
    window, the run is not after the requested time, and it is the
    latest run or starts less than six hours before the requested
    time. *)
Theorem selected_run_latest_before (dateutil_parse : string -> result Z)
    (self : Forcast) (now : Z) (date_time : string) (rc : run_choice) :
  resolve_time dateutil_parse self now date_time = Ok rc ->
  exists extent desired_date : Z,
    run_extent self = Ok extent
    /\ dateutil_parse date_time = Ok desired_date
    /\ earliest_available now < desired_date < latest_available now extent
    /\ query_forcast rc <= desired_date
    /\ (query_forcast rc = latest_available now extent - DT.hours extent
        \/ desired_date < query_forcast rc + DT.hours 6).
Proof.
  unfold resolve_time.
  destruct (run_extent self) as [extent|e]; [|discriminate].
  cbn [mbind result_bind rbind].
  destruct (dateutil_parse date_time) as [d|e]; [|discriminate].
  cbn [mbind result_bind rbind].
  destruct (Z.ltb_spec (earliest_available now) d) as [H1|]; [|discriminate].
  destruct (Z.ltb_spec d (latest_available now extent)) as [H2|]; [|discriminate].
  cbn [andb]. intros Hsel.
  destruct (run_selection_run _ _ _ _ Hsel) as (Hq & _ & _).
  destruct (select_run_spec d (latest_available now extent - DT.hours extent))
    as (k & Hk0 & Hk & Hle & Hlast).
  exists extent, d. split; [reflexivity|]. split; [reflexivity|].
  split; [lia|]. rewrite Hq. split; [exact Hle|].
  destruct Hlast as [->|Hlt]; [left; lia | right; exact Hlt].
Qed.

Lemma selected_run_latest_before_sample :
  exists extent desired_date : Z,
    run_extent Sample.forcast = Ok extent
    /\ Sample.parse "2021-02-20 14:30:00" = Ok desired_date
    /\ earliest_available Sample.now < desired_date
       < latest_available Sample.now extent
    /\ query_forcast sample_run <= desired_date
    /\ (query_forcast sample_run = latest_available Sample.now extent - DT.hours extent
        \/ desired_date < query_forcast sample_run + DT.hours 6).
Proof.
  apply (selected_run_latest_before Sample.parse Sample.forcast Sample.now
           "2021-02-20 14:30:00" sample_run).
  vm_compute. reflexivity.
Defined.

(** X4.  The window of [get] is open at both ends: a request for the
    earliest or for the latest available time itself is refused with
    the ValueError of an unavailable time. *)
Theorem window_bounds_rejected (dateutil_parse : string -> result Z)
    (self : Forcast) (now : Z) (date_time : string) (extent desired_date : Z) :
  run_extent self = Ok extent ->
  dateutil_parse date_time = Ok desired_date ->
  desired_date = earliest_available now
  \/ desired_date = latest_available now extent ->
  resolve_time dateutil_parse self now date_time
  = Raise (not_available desired_date extent).
Proof.
  intros He Hp Hd. unfold resolve_time. rewrite He. cbn [mbind result_bind rbind].
  rewrite Hp. cbn [mbind result_bind rbind].
  destruct Hd as [->| ->].
  - now rewrite Z.ltb_irrefl.
  - now rewrite Z.ltb_irrefl, andb_false_r.
Qed.

Lemma window_bounds_rejected_sample :
  resolve_time Sample.parse Sample.forcast Sample.now "2021-02-13 17:00:00"
  = Raise (not_available (DT.datetime 2021 2 13 17 0 0 0) 243).
Proof.
  apply window_bounds_rejected.
  - vm_compute. reflexivity.
  - vm_compute. reflexivity.
  - left. vm_compute. reflexivity.
Defined.

Lemma round_half_even_bounds (a b : Z) :
  0 <= a -> 0 < b -> 0 <= round_half_even a b <= a / b + 1.
Proof.
  intros Ha Hb. unfold round_half_even.
  destruct (Z.ltb_spec b 0); [lia|].
  assert (0 <= a / b) by (apply Z.div_pos; lia).
  destruct (2 * (a mod b) ?= b); [destruct (Z.even (a / b))| |]; lia.
Qed.

(** X5.  With a positive step, the time index that [get] computes is
    between 0 and 24, however far the requested time is from the run:
    the seconds of the offset are those of its last day. *)
Theorem time_index_within_a_day (self : Forcast) (desired_date latest_forcast step : Z)
    (rc : run_choice) :
  run_selection self desired_date latest_forcast = Ok rc ->
  grads_step self = Ok step ->
  0 < step ->
  0 <= time_index rc <= 24.
Proof.
  unfold run_selection. intros Hsel Hstep Hpos. rewrite Hstep in Hsel.
  cbn [mbind result_bind rbind] in Hsel. unfold round_div in Hsel.
  destruct (Z.eqb_spec (step * 60 * 60) 0) as [|_]; [lia|].
  cbn [mbind result_bind rbind] in Hsel. injection Hsel as <-. cbn [time_index].
  set (a := DT.seconds _).
  assert (Ha : 0 <= a < 86400) by (apply Z.mod_pos_bound; lia).
  pose proof (round_half_even_bounds a (step * 60 * 60) ltac:(lia) ltac:(lia)).
  assert (a / (step * 60 * 60) <= 23).
  { apply Z.lt_succ_r. apply Z.div_lt_upper_bound; lia. }
  lia.
Qed.

Lemma time_index_within_a_day_sample : 0 <= time_index sample_run <= 24.
Proof.
  apply (time_index_within_a_day Sample.forcast (DT.datetime 2021 2 20 14 30 0 0)
           (DT.datetime 2021 2 20 12 0 0 0) 3 sample_run).
  - vm_compute. reflexivity.
  - vm_compute. reflexivity.
  - lia.
Defined.

(** ** [get] and [get_alt_press] *)

(** The hour that [get] hands to [get_alt_press] is text, which the
    format [02d] of the address refuses. *)
Lemma get_alt_press_str_hour (File : string -> result (gmap string variable))
    (self : Forcast) (forcast_date hour query_time : string) (lat lon : pyval)
    (w : world) :
  get_alt_press File self forcast_date (VStr hour) query_time lat lon w
  = (Raise match max_lev self with
           | Ok _ => ValueError "Unknown format code 'd' for object of type 'str'"
           | Raise e => e
           end, w).
Proof.
  unfold get_alt_press, alt_press_url.
  destruct (max_lev self) as [m|e]; cbn [mbind result_bind rbind]; reflexivity.
Qed.

Lemma get_lev_world (File : string -> result (gmap string variable))
    (self : Forcast) (rc : run_choice) (query_time : string) (lat lon alt : pyval)
    (w : world) :
  snd (get_lev File self rc query_time lat lon alt w) = w
  /\ (py_eq_empty_list alt = false ->
      exists e : exn, fst (get_lev File self rc query_time lat lon alt w) = Raise e).
Proof.
  unfold get_lev. destruct (py_eq_empty_list alt).
  - split; [reflexivity | discriminate].
  - destruct (max_lev self) as [m|e] eqn:Em.
    + rewrite get_alt_press_str_hour, Em. split; [reflexivity | eauto].
    + split; [reflexivity | eauto].
Qed.

(** X6.  [get] sends no request and writes nothing: whatever its
    arguments, it leaves the world as it found it; and when it returns,
    it returns [None], not the forecast. *)
Theorem get_sends_no_request (dateutil_parse : string -> result Z)
    (File : string -> result (gmap string variable)) (self : Forcast)
    (requested : list string) (date_time : string) (lat lon alt : pyval) (w : world) :
  snd (get dateutil_parse File self requested date_time lat lon alt w) = w
  /\ (fst (get dateutil_parse File self requested date_time lat lon alt w) = Ok VNone
      \/ exists e : exn,
           fst (get dateutil_parse File self requested date_time lat lon alt w)
           = Raise e).
Proof.
  unfold get, get_body.
  destruct (_ ≫= _) as [[[rc lat'] lon']|e]; [|cbn; eauto].
  pose proof (get_lev_world File self rc
                ("[" +:+ Str.of_Z (time_index rc) +:+ "]") lat' lon' alt w) as [Hw _].
  destruct (get_lev _ _ _ _ _ _ _ _) as [l w'].
  simpl in Hw. subst w'. destruct l as [l|e]; [|cbn; eauto].
  destruct (make_query _ _ _ _ _ _); cbn; eauto.
Qed.

(** X7.  [get] with an altitude other than the empty list raises,
    whatever the other arguments are, and sends no request. *)
Theorem get_with_alt_raises (dateutil_parse : string -> result Z)
    (File : string -> result (gmap string variable)) (self : Forcast)
    (requested : list string) (date_time : string) (lat lon alt : pyval) (w : world) :
  py_eq_empty_list alt = false ->
  exists e : exn,
    get dateutil_parse File self requested date_time lat lon alt w = (Raise e, w).
Proof.
  intros Halt. unfold get, get_body.
  destruct (_ ≫= _) as [[[rc lat'] lon']|e]; [|eauto].
  pose proof (get_lev_world File self rc
                ("[" +:+ Str.of_Z (time_index rc) +:+ "]") lat' lon' alt w) as [Hw Hr].
  destruct (Hr Halt) as [e He].
  destruct (get_lev _ _ _ _ _ _ _ _) as [l w'].
  simpl in Hw, He. subst w' l. eauto.
Qed.

Lemma get_with_alt_raises_sample :
  exists e : exn,
    get Sample.parse Sample.decode Sample.forcast ["tmpprs"] "2021-02-20 14:30:00"
        (VStr "45") (VStr "10") (VStr "all") Sample.world0
    = (Raise e, Sample.world0).
Proof. apply get_with_alt_raises. reflexivity. Defined.

(** X8.  [get_alt_press] with the hour as text, as [get] calls it,
    sends no request: it raises the error of the upper level index if
    that cannot be computed, and otherwise the ValueError of the format
    code [d] applied to text. *)
Theorem get_alt_press_textual_hour (File : string -> result (gmap string variable))
    (self : Forcast) (forcast_date hour query_time : string) (lat lon : pyval)
    (w : world) :
  get_alt_press File self forcast_date (VStr hour) query_time lat lon w
  = (Raise match max_lev self with
           | Ok _ => ValueError "Unknown format code 'd' for object of type 'str'"
           | Raise e => e
           end, w).
Proof. apply get_alt_press_str_hour. Qed.

Lemma for_each_fails {A S} (body : S -> A -> result S) (x : A) (xs : list A) :
  (forall acc, exists e, body acc x = Raise e) -> In x xs ->
  forall acc, exists e, for_each body xs acc = Raise e.
Proof.
  intros Hx. induction xs as [|y ys IH]; intros Hin acc; [contradiction|].
  simpl. destruct (body acc y) as [acc'|e] eqn:E; cbn [mbind result_bind rbind].
  - destruct Hin as [->|Hin].
    + destruct (Hx acc) as [e He]. congruence.
    + now apply IH.
  - eauto.
Qed.

(** X9.  A name that is not among the variables of the forecast makes
    the query fail: first in the request, it gives the ValueError of an
    invalid choice naming it; anywhere in the request, no query is
    made. *)
Theorem unknown_variable_no_query (self : Forcast) (query_time : string)
    (lev : option pyval) (lat lon : pyval) (v : string) :
  variables self !! v = None ->
  (forall rest : list string,
     make_query self query_time lev lat lon (v :: rest) = Raise (unknown_variable v))
  /\ (forall requested : list string, In v requested ->
      exists e : exn, make_query self query_time lev lat lon requested = Raise e).
Proof.
  intros Hv.
  assert (Hstep : forall acc, add_token self query_time lev lat lon acc v
                              = Raise (unknown_variable v)).
  { intros acc. unfold add_token. now rewrite Hv. }
  split.
  - intros rest. unfold make_query. cbn [for_each]. now rewrite Hstep.
  - intros requested Hin. unfold make_query.
    apply (for_each_fails _ v); [|exact Hin]. intros acc. rewrite Hstep. eauto.
Qed.

Lemma unknown_variable_no_query_sample :
  make_query Sample.forcast "[1]" None (VStr "[540]") (VStr "[40]")
             ["ugrd10m"; "tmp2m"]
  = Raise (unknown_variable "ugrd10m").
Proof.
  refine (proj1 (unknown_variable_no_query Sample.forcast "[1]" None (VStr "[540]")
                   (VStr "[40]") "ugrd10m" _) ["tmp2m"]).
  vm_compute. reflexivity.
Defined.

(** ** [value_to_index] and the coordinates of [get] *)

Lemma list_index_range (l : list float) (v : float) (k i : Z) :
  list_index l v k = Ok i -> k <= i < k + Z.of_nat (length l).
Proof.
  revert k. induction l as [|x l IH]; intros k; simpl; [discriminate|].
  destruct (PrimFloat.eqb x v).
  - intros H. injection H as <-. lia.
  - intros H. apply IH in H. lia.
Qed.

Lemma comprehension_length {A B} (f : A -> result B) (xs : list A) (ys : list B) :
  comprehension f xs = Ok ys -> length ys = length xs.
Proof.
  revert ys. induction xs as [|x xs IH]; intros ys; simpl.
  - intros H. now injection H as <-.
  - destruct (f x) as [y|e]; [|discriminate]. cbn [mbind result_bind rbind].
    destruct (comprehension f xs) as [ys'|e]; [|discriminate].
    cbn [mbind result_bind rbind]. intros H. injection H as <-. simpl.
    now rewrite (IH ys' eq_refl).
Qed.

Lemma value_to_index_bounds (self : Forcast) (coord : string) (v : float) (i : Z) :
  value_to_index self coord v = Ok i ->
  exists (c : gmap string pyval) (g : pyval) (size : Z),
    coords self !! coord = Some c
    /\ c !! "grads_size" = Some g /\ py_int g = Ok size
    /\ 0 <= i < size.
Proof.
  unfold value_to_index, getitem.
  destruct (coords self !! coord) as [c|] eqn:Hc; [|discriminate].
  cbn [mbind result_bind rbind].
  destruct (c !! "grads_size") as [g|] eqn:Hg; [|discriminate].
  cbn [mbind result_bind rbind].
  destruct (py_int g) as [size|e] eqn:Hsize; [|discriminate].
  cbn [mbind result_bind rbind].
  destruct (comprehension _ _) as [possibles|e] eqn:E; [|discriminate].
  cbn [mbind result_bind rbind]. intros H.
  apply list_index_range in H. apply comprehension_length in E.
  rewrite range_length in E.
  exists c, g, size. split; [reflexivity|]. split; [exact Hg|].
  split; [exact Hsize | lia].
Qed.

(** X10.  An index that [value_to_index] returns is an index of the
    axis: the axis is known, its size reads as an integer, and the
    index is at least 0 and below the size. *)
Theorem value_to_index_in_range (self : Forcast) (coord : string) (v : float) (i : Z) :
  value_to_index self coord v = Ok i ->
  exists (c : gmap string pyval) (g : pyval) (size : Z),
    coords self !! coord = Some c
    /\ c !! "grads_size" = Some g /\ py_int g = Ok size
    /\ 0 <= i < size.
Proof. apply value_to_index_bounds. Qed.

Lemma value_to_index_in_range_sample :
  exists (c : gmap string pyval) (g : pyval) (size : Z),
    coords Sample.forcast !! "lat" = Some c
    /\ c !! "grads_size" = Some g /\ py_int g = Ok size
    /\ 0 <= 540 < size.
Proof.
  apply (value_to_index_in_range Sample.forcast "lat" 45 540).
  vm_compute. reflexivity.
Defined.

Lemma eqb_nan (x : float) : PrimFloat.eqb x nan = false.
Proof.
  rewrite FloatAxioms.eqb_spec. change (Prim2SF nan) with S754_nan.
  unfold SFeqb, SFcompare. now destruct (Prim2SF x) as [[]|[]| |[] ? ?].
Qed.

(** X11.  [value_to_index] finds no index for a value that is not a
    number, on any axis: it raises. *)
Theorem value_to_index_nan (self : Forcast) (coord : string) :
  exists e : exn, value_to_index self coord nan = Raise e.
Proof.
  unfold value_to_index.
  destruct (getitem (coords self) coord) as [c|e]; [|eauto].
  cbn [mbind result_bind rbind].
  destruct (getitem c "grads_size") as [g|e]; [|eauto].
  cbn [mbind result_bind rbind].
  destruct (py_int g) as [size|e]; [|eauto].
  cbn [mbind result_bind rbind].
  destruct (comprehension _ _) as [possibles|e]; [|eauto].
  cbn [mbind result_bind rbind].
  rewrite list_index_missing; [eauto|]. intros x _. apply eqb_nan.
Qed.

(** X12.  What [get] accepts as a latitude or a longitude, and what it
    makes of it: a float, an integer or a boolean, which it leaves as
    it is; or a text of digits only whose value [value_to_index] finds
    on the axis, which it replaces by the index found, in brackets.
    Nothing else is accepted: no other text, and no digits whose value
    is not on the axis. *)
Theorem axis_expression_ok (self : Forcast) (coord name : string) (v r : pyval) :
  axis_expression self coord name v = Ok r
  <-> (r = v /\ ((exists x, v = VFloat x) \/ (exists n, as_int v = Some n)))
      \/ exists (s : string) (x : float) (i : Z),
           v = VStr s /\ Str.isnumeric s = true
           /\ py_float (VStr s) = Ok x
           /\ value_to_index self coord x = Ok i
           /\ 0 <= i /\ r = VStr ("[" +:+ Str.of_Z i +:+ "]").
Proof.
  split.
  - unfold axis_expression. destruct v as [|b|n|x|s|l]; try discriminate.
    + intros H. injection H as <-. left. split; [reflexivity|]. right. simpl. eauto.
    + intros H. injection H as <-. left. split; [reflexivity|]. right. simpl. eauto.
    + intros H. injection H as <-. left. split; [reflexivity|]. left. eauto.
    + destruct (Str.first s) as [c0|e]; [|discriminate].
      cbn [mbind result_bind rbind].
      destruct (if Ascii.eqb c0 "[" then Str.last s else Ok c0) as [c1|e];
        [|discriminate].
      cbn [mbind result_bind rbind].
      destruct (_ && _ && _)%bool; [discriminate|].
      destruct (Str.isnumeric s) eqn:Hs; [|discriminate].
      destruct (py_float (VStr s)) as [x|e] eqn:Hx; [|discriminate].
      cbn [mbind result_bind rbind].
      destruct (value_to_index self coord x) as [i|e] eqn:Hi; [|discriminate].
      cbn [mbind result_bind rbind]. intros H. injection H as <-.
      right. exists s, x, i. split; [reflexivity|]. split; [exact Hs|].
      split; [exact Hx|]. split; [exact Hi|]. split; [|reflexivity].
      destruct (value_to_index_bounds _ _ _ _ Hi) as (c & g & size & _ & _ & _ & Hr).
      lia.
  - intros [[-> [[x ->]|[n Hn]]]|(s & x & i & -> & Hs & Hx & Hi & _ & ->)].
    + reflexivity.
    + destruct v as [|b|m|y|s|l]; try discriminate; reflexivity.
    + unfold axis_expression. destruct s as [|c0 s']; [discriminate|].
      cbn [Str.first mbind result_bind rbind].
      assert (Hc : Ascii.eqb c0 "[" = false).
      { cbn [Str.isnumeric Str.all] in Hs. apply andb_prop in Hs.
        destruct Hs as [Hd _]. destruct (Ascii.eqb_spec c0 "[") as [->|]; [|reflexivity].
        discriminate. }
      rewrite Hc. cbn [mbind result_bind rbind andb]. rewrite Hs, Hx.
      cbn [mbind result_bind rbind]. rewrite Hi. reflexivity.
Qed.

Lemma axis_expression_ok_sample :
  (VStr "[540]" = VStr "45"
   /\ ((exists x, VStr "45" = VFloat x) \/ (exists n, as_int (VStr "45") = Some n)))
  \/ exists (s : string) (x : float) (i : Z),
       VStr "45" = VStr s /\ Str.isnumeric s = true
       /\ py_float (VStr s) = Ok x
       /\ value_to_index Sample.forcast "lat" x = Ok i
       /\ 0 <= i /\ VStr "[540]" = VStr ("[" +:+ Str.of_Z i +:+ "]").
Proof.
  apply (proj1 (axis_expression_ok Sample.forcast "lat" "latitude" (VStr "45")
                  (VStr "[540]"))).
  vm_compute. reflexivity.
Defined.

(** ** [extract_line] *)

Lemma first_found_spec (possibles : list string) (line p : string) (found : Z) :
  first_found possibles line = Some (p, found) ->
  exists before after : list string,
    possibles = (before ++ p :: after)%list
    /\ (forall q, In q before -> Str.find q line = -1)
    /\ found = Str.find p line /\ found <> -1.
Proof.
  induction possibles as [|q ps IH]; simpl; [discriminate|].
  destruct (Z.eqb_spec (Str.find q line) (-1)) as [E|E].
  - intros H. destruct (IH H) as (before & after & -> & Hb & Hf).
    exists (q :: before), after. split; [reflexivity|]. split; [|exact Hf].
    intros r [<-|Hr]; [exact E | now apply Hb].
  - intros H. injection H as <- <-. exists [], ps.
    split; [reflexivity|]. split; [intros r []|]. split; [reflexivity | exact E].
Qed.

(** X13.  When [extract_line] returns a key and a value, the key is the
    first of the possible keys that occurs in the line, and the line
    starts with Str or with Flo: for Str the value is the text from two
    characters after the key to the last character of the line, that
    one left out; for Flo it is the number read from the text that
    starts one character after the key. *)
Theorem extract_line_first_key (possibles : list string) (line iden : string)
    (val : pyval) :
  extract_line possibles line = Ok (Some (iden, val)) ->
  exists before after : list string,
    possibles = (before ++ iden :: after)%list
    /\ (forall q, In q before -> Str.find q line = -1)
    /\ Str.find iden line <> -1
    /\ (Str.slice line 0 3 = "Str"
        /\ val = VStr (Str.slice line
                         (Str.find iden line + Z.of_nat (String.length iden) + 2) (-1))
        \/ Str.slice line 0 3 = "Flo"
           /\ exists x : float,
                val = VFloat x
                /\ py_float (VStr (Str.slice_from line
                     (Str.find iden line + Z.of_nat (String.length iden) + 1))) = Ok x).
Proof.
  unfold extract_line.
  destruct (first_found possibles line) as [[p found]|] eqn:E; [|discriminate].
  destruct (first_found_spec _ _ _ _ E) as (before & after & Hp & Hb & Hf & Hn).
  destruct (String.eqb_spec (Str.slice line 0 3) "Str") as [Hs|Hs].
  - intros H. injection H as <- <-. exists before, after.
    split; [exact Hp|]. split; [exact Hb|]. split; [congruence|].
    left. split; [exact Hs|]. now rewrite Hf.
  - destruct (String.eqb_spec (Str.slice line 0 3) "Flo") as [Hfl|Hfl]; [|discriminate].
    destruct (py_float _) as [x|e] eqn:Ex; [|discriminate].
    cbn [mbind result_bind rbind]. intros H. injection H as <- <-.
    exists before, after.
    split; [exact Hp|]. split; [exact Hb|]. split; [congruence|].
    right. split; [exact Hfl|]. exists x. split; [reflexivity|]. now rewrite <- Hf.
Qed.

Lemma extract_line_first_key_sample :
  exists before after : list string,
    coord_keys = (before ++ "minimum" :: after)%list
    /\ (forall q, In q before -> Str.find q "Float64 minimum -90.00000000000" = -1)
    /\ Str.find "minimum" "Float64 minimum -90.00000000000" <> -1
    /\ (Str.slice "Float64 minimum -90.00000000000" 0 3 = "Str"
        /\ VFloat (-90)
           = VStr (Str.slice "Float64 minimum -90.00000000000"
                     (Str.find "minimum" "Float64 minimum -90.00000000000"
                      + Z.of_nat (String.length "minimum") + 2) (-1))
        \/ Str.slice "Float64 minimum -90.00000000000" 0 3 = "Flo"
           /\ exists x : float,
                VFloat (-90) = VFloat x
                /\ py_float (VStr (Str.slice_from "Float64 minimum -90.00000000000"
                     (Str.find "minimum" "Float64 minimum -90.00000000000"
                      + Z.of_nat (String.length "minimum") + 1))) = Ok x).
Proof.
  apply (extract_line_first_key coord_keys "Float64 minimum -90.00000000000"
           "minimum" (VFloat (-90))).
  vm_compute. reflexivity.
Defined.

(** X14.  Only a line that starts with Flo can make [extract_line]
    raise: on any other line it returns, a key and a value or
    nothing. *)
Theorem extract_line_text_never_raises (possibles : list string) (line : string) :
  Str.slice line 0 3 <> "Flo" ->
  exists r : option (string * pyval), extract_line possibles line = Ok r.
Proof.
  intros H. unfold extract_line.
  destruct (first_found possibles line) as [[p found]|]; [|eauto].
  destruct (String.eqb _ "Str"); [eauto|].
  destruct (String.eqb_spec (Str.slice line 0 3) "Flo"); [contradiction | eauto].
Qed.

Lemma extract_line_text_never_raises_sample :
  exists r : option (string * pyval),
    extract_line variable_keys "String grads_dim t" = Ok r.
Proof.
  apply extract_line_text_never_raises. vm_compute. discriminate.
Defined.

Lemma drop_append (x y : string) : Str.drop (String.length x) (x +:+ y) = y.
Proof. induction x as [|c x IH]; simpl; [reflexivity | exact IH]. Qed.

Lemma take_append (x y : string) : Str.take (String.length x) (x +:+ y) = x.
Proof.
  induction x as [|c x IH]; simpl; [now destruct y | now rewrite IH].
Qed.

Lemma slice_from_append (x y : string) :
  Str.slice_from (x +:+ y) (Z.of_nat (String.length x)) = y.
Proof.
  unfold Str.slice_from, Str.clamp.
  destruct (Z.ltb_spec (Z.of_nat (String.length x)) 0); [lia|].
  rewrite Nat2Z.id, length_append, Nat.min_r by lia. apply drop_append.
Qed.

Lemma slice_middle (x y : string) (c : ascii) :
  Str.slice (x +:+ y +:+ String c EmptyString) (Z.of_nat (String.length x)) (-1) = y.
Proof.
  unfold Str.slice, Str.clamp.
  destruct (Z.ltb_spec (Z.of_nat (String.length x)) 0); [lia|].
  change (-1 <? 0) with true. cbv iota.
  rewrite Nat2Z.id, !length_append. simpl String.length.
  rewrite Nat.min_r by lia. rewrite drop_append.
  replace (Z.to_nat (Z.max 0 (Z.of_nat (String.length x + (String.length y + 1)) + -1))
           - String.length x)%nat with (String.length y) by lia.
  apply take_append.
Qed.

Lemma slice_tag (a b c : ascii) (rest : string) :
  Str.slice (String a (String b (String c rest))) 0 3
  = String a (String b (String c EmptyString)).
Proof.
  unfold Str.slice, Str.clamp. change (0 <? 0) with false. change (3 <? 0) with false.
  cbv iota. simpl String.length.
  change (Z.to_nat 0) with O. change (Z.to_nat 3) with 3%nat. rewrite Nat.min_0_r.
  replace (Nat.min (S (S (S (String.length rest)))) 3) with 3%nat by lia.
  now destruct rest.
Qed.

(** X15.  [extract_line] reads back a text attribute as the service
    writes it: from a line that starts with Str and goes on with the
    key, a space and the text between double quotes, the key being the
    first possible key found and found at that place, it returns the
    key and the text, whatever the text holds. *)
Theorem extract_line_reads_text (possibles : list string) (pre key text : string) :
  first_found possibles ("Str" +:+ pre +:+ key +:+ " " +:+ dq +:+ text +:+ dq)
  = Some (key, Z.of_nat (String.length ("Str" +:+ pre))) ->
  extract_line possibles ("Str" +:+ pre +:+ key +:+ " " +:+ dq +:+ text +:+ dq)
  = Ok (Some (key, VStr text)).
Proof.
  intros Hf. unfold extract_line. rewrite Hf.
  replace (Str.slice ("Str" +:+ pre +:+ key +:+ " " +:+ dq +:+ text +:+ dq) 0 3)
    with "Str" by (symmetry; apply slice_tag).
  simpl (String.eqb "Str" "Str"). cbv iota. do 4 f_equal.
  replace (Z.of_nat (String.length ("Str" +:+ pre))
           + Z.of_nat (String.length key) + 2)
    with (Z.of_nat (String.length ((("Str" +:+ pre) +:+ key) +:+ " " +:+ dq)))
    by (rewrite !length_append; simpl String.length; lia).
  replace ("Str" +:+ pre +:+ key +:+ " " +:+ dq +:+ text +:+ dq)
    with (((("Str" +:+ pre) +:+ key) +:+ " " +:+ dq) +:+ text +:+ dq)
    by (now rewrite !append_assoc).
  apply slice_middle.
Qed.

Lemma extract_line_reads_text_sample :
  extract_line variable_keys
    ("Str" +:+ "ing " +:+ "long_name" +:+ " " +:+ dq
     +:+ "** 2 m above ground temperature [k] " +:+ dq)
  = Ok (Some ("long_name", VStr "** 2 m above ground temperature [k] ")).
Proof.
  apply (extract_line_reads_text variable_keys "ing " "long_name"
           "** 2 m above ground temperature [k] ").
  vm_compute. reflexivity.
Defined.

(** X16.  [extract_line] reads back a numeric attribute: from a line
    that starts with Flo and goes on with the key, a space and a
    number, the key being the first possible key found and found at
    that place, it returns the key and the float that the number reads
    as. *)
Theorem extract_line_reads_number (possibles : list string)
    (pre key number : string) (x : float) :
  first_found possibles ("Flo" +:+ pre +:+ key +:+ " " +:+ number)
  = Some (key, Z.of_nat (String.length ("Flo" +:+ pre))) ->
  py_float (VStr number) = Ok x ->
  extract_line possibles ("Flo" +:+ pre +:+ key +:+ " " +:+ number)
  = Ok (Some (key, VFloat x)).
Proof.
  intros Hf Hx. unfold extract_line. rewrite Hf.
  replace (Str.slice ("Flo" +:+ pre +:+ key +:+ " " +:+ number) 0 3)
    with "Flo" by (symmetry; apply slice_tag).
  simpl (String.eqb "Flo" "Str"). simpl (String.eqb "Flo" "Flo"). cbv iota.
  replace (Z.of_nat (String.length ("Flo" +:+ pre))
           + Z.of_nat (String.length key) + 1)
    with (Z.of_nat (String.length ((("Flo" +:+ pre) +:+ key) +:+ " ")))
    by (rewrite !length_append; simpl String.length; lia).
  replace ("Flo" +:+ pre +:+ key +:+ " " +:+ number)
    with (((("Flo" +:+ pre) +:+ key) +:+ " ") +:+ number)
    by (now rewrite !append_assoc).
  rewrite slice_from_append, Hx. reflexivity.
Qed.

Lemma extract_line_reads_number_sample :
  extract_line coord_keys ("Flo" +:+ "at32 " +:+ "resolution" +:+ " " +:+ "27.750000")
  = Ok (Some ("resolution", VFloat 27.75)).
Proof.
  apply (extract_line_reads_number coord_keys "at32 " "resolution" "27.750000" 27.75).
  - vm_compute. reflexivity.
  - vm_compute. reflexivity.
Defined.

(** ** [get_attributes]: reading the metadata description *)

(** A closed equation whose left side evaluates to its right side. *)
Ltac by_evaluation :=
  lazymatch goal with |- _ = ?b => vm_cast_no_check (@eq_refl _ b) end.

Lemma read_attributes_subset (possibles atts : list string)
    (attributes : gmap string pyval) :
  read_attributes possibles atts = Ok attributes ->
  forall (k : string) (x : pyval), attributes !! k = Some x -> In k possibles.
Proof.
  unfold read_attributes.
  apply (for_each_invariant
           (fun a : gmap string pyval => forall k x, a !! k = Some x -> In k possibles)).
  - intros a att a' Ha. unfold add_attribute.
    destruct (extract_line possibles att) as [[[iden val]|]|e] eqn:E;
      cbn [mbind result_bind rbind]; try discriminate.
    + intros H. injection H as <-. intros k x.
      destruct (String.eqb_spec iden k) as [<-|Hne].
      * intros _. exact (extract_line_In _ _ _ _ E).
      * rewrite lookup_insert_ne by exact Hne. apply Ha.
    + intros H. now injection H as <-.
  - intros k x. now rewrite lookup_empty.
Qed.

(** The names that [get_attributes] does not read as variables. *)
Definition reserved : list string := ["time"; "lat"; "lon"; "lev"].

(** The blocks of a metadata description, as [get_attributes] finds
    them, and the name of a block. *)
Definition das_entities (body : string) : list (list string) :=
  Re.findall entity_pattern (Re.sub_space_runs false (Str.slice body 12 (-2))).

Definition entity_name (var : list string) : string := nth 0 var EmptyString.

Lemma existsb_eqb_In (name : string) (l : list string) :
  existsb (String.eqb name) l = true <-> In name l.
Proof.
  rewrite existsb_exists. split.
  - intros (x & Hx & E). apply String.eqb_eq in E. now subst.
  - intros H. exists name. split; [exact H | apply String.eqb_refl].
Qed.

Lemma In_cons_iff {A} (x y : A) (l : list A) : In x (y :: l) <-> y = x \/ In x l.
Proof. reflexivity. Qed.

Lemma read_entity_names (raws : list (list string)) (st d : das) :
  for_each read_entity raws st = Ok d ->
  (forall v : string,
     is_Some (das_variables d !! v)
     <-> is_Some (das_variables st !! v)
         \/ In v (map entity_name raws) /\ ~ In v reserved)
  /\ (forall v : string,
        is_Some (das_coords d !! v)
        <-> is_Some (das_coords st !! v)
            \/ In v (map entity_name raws) /\ In v ["lat"; "lon"; "lev"])
  /\ (is_Some (das_time d)
      <-> is_Some (das_time st) \/ In "time" (map entity_name raws)).
Proof.
  revert st. induction raws as [|var raws IH]; intros st; cbn [for_each map].
  - intros H. injection H as <-. cbn [In]. intuition.
  - destruct (read_entity st var) as [st1|e] eqn:E; [|discriminate].
    cbn [mbind result_bind rbind]. intros H.
    destruct (IH _ H) as (Hv & Hc & Ht). clear IH H.
    unfold read_entity in E. fold (entity_name var) in E.
    set (name := entity_name var) in *.
    destruct (existsb (String.eqb name) ["time"; "lat"; "lon"; "lev"]) eqn:Er;
      cbn [negb] in E.
    + apply existsb_eqb_In in Er.
      destruct (String.eqb_spec name "time") as [En|En].
      * destruct (read_attributes time_keys _) as [a|e]; [|discriminate].
        cbn [mbind result_bind rbind] in E. injection E as <-.
        cbn [das_variables das_coords das_time] in *.
        split; [|split].
        -- intros v. rewrite Hv, (In_cons_iff v name). split; [tauto|].
           intros [H|[[<-|H] Hn]]; [tauto| |tauto].
           exfalso. apply Hn. exact Er.
        -- intros v. rewrite Hc, (In_cons_iff v name). split; [tauto|].
           intros [H|[[<-|H] Hn]]; [tauto| |tauto].
           exfalso. rewrite En in Hn. simpl in Hn. intuition discriminate.
        -- rewrite Ht, (In_cons_iff "time" name). split; [|intros _; left; eauto].
           intros _. right. left. exact En.
      * destruct (read_attributes coord_keys _) as [a|e]; [|discriminate].
        cbn [mbind result_bind rbind] in E. injection E as <-.
        cbn [das_variables das_coords das_time] in *.
        assert (Hco : In name ["lat"; "lon"; "lev"]).
        { simpl in Er. simpl. intuition congruence. }
        split; [|split].
        -- intros v. rewrite Hv, (In_cons_iff v name). split; [tauto|].
           intros [H|[[<-|H] Hn]]; [tauto| |tauto].
           exfalso. apply Hn. exact Er.
        -- intros v. rewrite Hc, (In_cons_iff v name).
           destruct (String.eqb_spec name v) as [<-|Hne].
           ++ rewrite lookup_insert_eq. split; [tauto | intros _; left; eauto].
           ++ rewrite lookup_insert_ne by exact Hne. split; [tauto|].
              intros [H|[[H|H] Hn]]; [tauto | contradiction | tauto].
        -- rewrite Ht, (In_cons_iff "time" name). split; [tauto|].
           intros [H|[H|H]]; [tauto | congruence | tauto].
    + assert (Hnr : ~ In name reserved).
      { intros Hin. apply existsb_eqb_In in Hin. unfold reserved in Hin. congruence. }
      destruct (read_attributes variable_keys _) as [a|e]; [|discriminate].
      cbn [mbind result_bind rbind] in E. injection E as <-.
      cbn [das_variables das_coords das_time] in *.
      split; [|split].
      * intros v. rewrite Hv, (In_cons_iff v name).
        destruct (String.eqb_spec name v) as [<-|Hne].
        -- rewrite lookup_insert_eq. split; [tauto | intros _; left; eauto].
        -- rewrite lookup_insert_ne by exact Hne. split; [tauto|].
           intros [H|[[H|H] Hn]]; [tauto | contradiction | tauto].
      * intros v. rewrite Hc, (In_cons_iff v name). split; [tauto|].
        intros [H|[[<-|H] Hn]]; [tauto| |tauto].
        exfalso. apply Hnr. unfold reserved. simpl in Hn. simpl. tauto.
      * rewrite Ht, (In_cons_iff "time" name). split; [tauto|].
        intros [H|[H|H]]; [tauto| |tauto].
        exfalso. apply Hnr. rewrite H. unfold reserved. simpl. tauto.
Qed.

(** X17.  What [get_attributes] makes of the blocks of a metadata
    description: the variables are the blocks named otherwise than
    time, lat, lon and lev; the coordinates are the blocks named lat,
    lon or lev; and the time attributes are bound exactly when there is
    a block named time. *)
Theorem parse_das_names (body : string) (d : das) :
  parse_das body = Ok d ->
  (forall v : string,
     is_Some (das_variables d !! v)
     <-> In v (map entity_name (das_entities body)) /\ ~ In v reserved)
  /\ (forall v : string,
        is_Some (das_coords d !! v)
        <-> In v (map entity_name (das_entities body)) /\ In v ["lat"; "lon"; "lev"])
  /\ (is_Some (das_time d) <-> In "time" (map entity_name (das_entities body))).
Proof.
  intros H. destruct (read_entity_names _ _ _ H) as (Hv & Hc & Ht).
  cbn [das_variables das_coords das_time] in *. fold (das_entities body) in *.
  split; [|split].
  - intros v. rewrite Hv, lookup_empty. split; [|tauto].
    intros [[x Hx]|Hr]; [discriminate | exact Hr].
  - intros v. rewrite Hc, lookup_empty. split; [|tauto].
    intros [[x Hx]|Hr]; [discriminate | exact Hr].
  - rewrite Ht. split; [|tauto]. intros [[x Hx]|Hr]; [discriminate | exact Hr].
Qed.

(** What the sample description is read as, before the array
    declarations are looked at. *)
Definition sample_das : das :=
  {| das_variables :=
       <["NC_GLOBAL" := ∅]>
       (<["tmp2m" := delete "level_dependent"
                       (Sample.var_atts "** 2 m above ground temperature [k] " false)]>
       (<["tmpprs" := delete "level_dependent"
                        (Sample.var_atts
                           "** (1000 975 950 925 900.. 7 5 3 2 1) temperature [k] "
                           true)]> ∅));
     das_coords := coords Sample.forcast;
     das_time := Some (times Sample.forcast) |}.

Lemma parse_das_names_sample :
  (forall v : string,
     is_Some (das_variables sample_das !! v)
     <-> In v (map entity_name (das_entities Sample.das_text)) /\ ~ In v reserved)
  /\ (forall v : string,
        is_Some (das_coords sample_das !! v)
        <-> In v (map entity_name (das_entities Sample.das_text))
            /\ In v ["lat"; "lon"; "lev"])
  /\ (is_Some (das_time sample_das)
      <-> In "time" (map entity_name (das_entities Sample.das_text))).
Proof. apply parse_das_names. by_evaluation. Defined.

(** The attributes of every block are among the keys looked for in a
    block of its kind. *)
Definition das_shape (d : das) : Prop :=
  (forall (v : string) (a : gmap string pyval),
     das_variables d !! v = Some a ->
     forall k x, a !! k = Some x -> In k variable_keys)
  /\ (forall (v : string) (a : gmap string pyval),
        das_coords d !! v = Some a ->
        forall k x, a !! k = Some x -> In k coord_keys)
  /\ (forall a : gmap string pyval,
        das_time d = Some a -> forall k x, a !! k = Some x -> In k time_keys).

(** X18.  [get_attributes] keeps of a block only the attributes it
    looks for: the fill value, the missing value and the long name of a
    variable; the dimension, size, minimum, maximum and resolution of a
    coordinate; the size and the step of the time. *)
Theorem parse_das_shape (body : string) (d : das) :
  parse_das body = Ok d -> das_shape d.
Proof.
  unfold parse_das. apply (for_each_invariant das_shape).
  - intros st var st' (Hv & Hc & Ht). unfold read_entity.
    set (name := nth 0 var EmptyString).
    destruct (existsb (String.eqb name) ["time"; "lat"; "lon"; "lev"]);
      cbn [negb].
    + destruct (String.eqb name "time").
      * destruct (read_attributes time_keys _) as [a|e] eqn:E; [|discriminate].
        cbn [mbind result_bind rbind]. intros H. injection H as <-.
        split; [exact Hv|]. split; [exact Hc|]. cbn [das_time].
        intros a' Ha'. injection Ha' as <-. exact (read_attributes_subset _ _ _ E).
      * destruct (read_attributes coord_keys _) as [a|e] eqn:E; [|discriminate].
        cbn [mbind result_bind rbind]. intros H. injection H as <-.
        split; [exact Hv|]. split; [|exact Ht]. cbn [das_coords].
        intros v a'. destruct (String.eqb_spec name v) as [<-|Hne].
        -- rewrite lookup_insert_eq. intros Ha'. injection Ha' as <-.
           exact (read_attributes_subset _ _ _ E).
        -- rewrite lookup_insert_ne by exact Hne. apply Hc.
    + destruct (read_attributes variable_keys _) as [a|e] eqn:E; [|discriminate].
      cbn [mbind result_bind rbind]. intros H. injection H as <-.
      split; [|split; [exact Hc | exact Ht]]. cbn [das_variables].
      intros v a'. destruct (String.eqb_spec name v) as [<-|Hne].
      * rewrite lookup_insert_eq. intros Ha'. injection Ha' as <-.
        exact (read_attributes_subset _ _ _ E).
      * rewrite lookup_insert_ne by exact Hne. apply Hv.
  - split; [|split]; cbn; intros; try discriminate;
      match goal with H : ∅ !! _ = Some _ |- _ => now rewrite lookup_empty in H end.
Qed.

Lemma parse_das_shape_sample : das_shape sample_das.
Proof. apply (parse_das_shape Sample.das_text). by_evaluation. Defined.

(** ** [get_attributes]: the array declarations *)

(** The attributes of a variable before and after the declarations are
    looked at: all as they were, but for [level_dependent], which is as
    it was or a boolean. *)
Definition kept (a a' : option (gmap string pyval)) : Prop :=
  match a, a' with
  | Some x, Some x' =>
      (forall k, k <> "level_dependent" -> x' !! k = x !! k)
      /\ (x' !! "level_dependent" = x !! "level_dependent"
          \/ exists b : bool, x' !! "level_dependent" = Some (VBool b))
  | None, None => True
  | _, _ => False
  end.

Lemma kept_refl (a : option (gmap string pyval)) : kept a a.
Proof. destruct a; simpl; auto. Qed.

Lemma mark_array_kept (variables variables' : gmap string (gmap string pyval))
    (array : string) (v : string) (a0 : option (gmap string pyval)) :
  kept a0 (variables !! v) ->
  mark_array variables array = Ok variables' ->
  kept a0 (variables' !! v).
Proof.
  intros Hk. unfold mark_array.
  destruct (declared_name array) as [var|e]; [|discriminate].
  cbn [mbind result_bind rbind].
  destruct (variables !! var) as [attributes|] eqn:Ev.
  2:{ intros H. now injection H as <-. }
  destruct (for_each check_dim _ false) as [lev_dep|e]; [|discriminate].
  cbn [mbind result_bind rbind]. intros H. injection H as <-.
  destruct (String.eqb_spec var v) as [->|Hne].
  - rewrite lookup_insert_eq. rewrite Ev in Hk.
    destruct a0 as [x|]; simpl in *; [|contradiction].
    destruct Hk as [Hrest Hld]. split.
    + intros k Hk. rewrite lookup_insert_ne by congruence. now apply Hrest.
    + right. exists lev_dep. apply lookup_insert_eq.
  - rewrite lookup_insert_ne by exact Hne. exact Hk.
Qed.

(** X19.  The loop over the array declarations adds no variable and
    drops none, and changes no attribute of a variable other than
    [level_dependent], which it leaves alone or sets to a boolean. *)
Theorem mark_level_dependence_keeps (body : string)
    (variables variables' : gmap string (gmap string pyval)) :
  mark_level_dependence body variables = Ok variables' ->
  forall v : string, kept (variables !! v) (variables' !! v).
Proof.
  unfold mark_level_dependence.
  apply (for_each_invariant
           (fun s : gmap string (gmap string pyval) =>
              forall v, kept (variables !! v) (s !! v))).
  - intros s array s' Hs Hm v. exact (mark_array_kept _ _ _ _ _ (Hs v) Hm).
  - intros v. apply kept_refl.
Qed.

Lemma mark_level_dependence_keeps_sample :
  kept (das_variables sample_das !! "tmpprs")
       (cat_variables sample_catalog !! "tmpprs").
Proof.
  apply (mark_level_dependence_keeps Sample.dds_text (das_variables sample_das)
           (cat_variables sample_catalog)).
  by_evaluation.
Defined.

(** ** [get_attributes]: the requests and the cache *)

(** A call of [get_attributes] for a configuration that is not saved
    and that succeeds: the clock, both answers of the service, what was
    read from them, and the world it leaves. *)
Lemma get_attributes_unsaved (res step : string) (w w' : world) (c : catalog) :
  existsb (String.eqb (res +:+ step)) (saved_atts w) = false ->
  get_attributes res step w = (Ok c, w') ->
  w' = {| utcnow := utcnow w; today := today w; service := service w;
          requests := dds_url res step (today w)
                      :: das_url res step (utcnow w) :: requests w;
          saved_atts := (saved_atts w ++ [res +:+ step])%list;
          atts := <[res +:+ step := c]> (atts w) |}
  /\ 6 <= DT.hour (utcnow w)
  /\ status_code (service w (das_url res step (utcnow w))) = 200
  /\ status_code (service w (dds_url res step (today w))) = 200
  /\ exists d : das,
       parse_das (text (service w (das_url res step (utcnow w)))) = Ok d
       /\ das_time d = Some (cat_time c)
       /\ das_coords d = cat_coords c
       /\ mark_level_dependence (text (service w (dds_url res step (today w))))
                                (das_variables d)
          = Ok (cat_variables c).
Proof.
  intros Hkey. unfold get_attributes, reference_date. rewrite Hkey. simpl negb. cbv iota.
  destruct (Z.ltb_spec (DT.hour (utcnow w)) 6) as [Hh|Hh].
  { cbn [mbind result_bind rbind]. intros H. injection H as H _. discriminate. }
  cbn [mbind result_bind rbind]. rewrite url_das. unfold requests_get.
  destruct (Z.eqb_spec (status_code (service w (das_url res step (utcnow w)))) 200)
    as [Hs1|Hs1]; cbn [negb].
  2:{ intros H. injection H as H _. discriminate. }
  destruct (parse_das _) as [d|e] eqn:Ed.
  2:{ intros H. injection H as H _. discriminate. }
  unfold fetch_dds. cbn [today service]. rewrite url_dds. unfold requests_get.
  cbn [service].
  destruct (Z.eqb_spec (status_code (service w (dds_url res step (today w)))) 200)
    as [Hs2|Hs2]; cbn [negb].
  2:{ intros H. injection H as H _. discriminate. }
  destruct (mark_level_dependence _ _) as [variables|e] eqn:Em.
  2:{ cbn [mbind result_bind rbind]. intros H. injection H as H _. discriminate. }
  cbn [mbind result_bind rbind].
  destruct (das_time d) as [time|] eqn:Et.
  2:{ intros H. injection H as H _. discriminate. }
  intros H. injection H as <- <-.
  cbn [utcnow today service requests saved_atts atts cat_time cat_coords
       cat_variables].
  split; [reflexivity|]. split; [exact Hh|]. split; [exact Hs1|]. split; [exact Hs2|].
  exists d. rewrite Et. split; [reflexivity|]. split; [reflexivity|].
  split; [reflexivity | exact Em].
Qed.

Lemma existsb_app_last (key : string) (l : list string) :
  existsb (String.eqb key) (l ++ [key])%list = true.
Proof.
  rewrite existsb_app. simpl. rewrite String.eqb_refl. now rewrite orb_true_r.
Qed.

(** X20.  A call of [get_attributes] for a configuration that is not
    saved, when it succeeds, has sent two requests, for the metadata
    description and then for the array declarations, has added the
    configuration to the saved ones and has stored what it returns; in
    any world with these saved configurations and stored catalogs, the
    next call for the configuration returns the same catalog and sends
    nothing. *)
Theorem get_attributes_saves (res step : string) (w w' : world) (c : catalog) :
  existsb (String.eqb (res +:+ step)) (saved_atts w) = false ->
  get_attributes res step w = (Ok c, w') ->
  requests w'
  = dds_url res step (today w) :: das_url res step (utcnow w) :: requests w
  /\ saved_atts w' = (saved_atts w ++ [res +:+ step])%list
  /\ atts w' = <[res +:+ step := c]> (atts w)
  /\ forall w2 : world,
       saved_atts w2 = saved_atts w' -> atts w2 = atts w' ->
       get_attributes res step w2 = (Ok c, w2).
Proof.
  intros Hkey Hget.
  destruct (get_attributes_unsaved _ _ _ _ _ Hkey Hget) as (-> & _).
  cbn. split; [reflexivity|]. split; [reflexivity|]. split; [reflexivity|].
  intros w2 Hs Ha. unfold get_attributes.
  rewrite Hs, existsb_app_last. cbn [negb]. rewrite Ha, lookup_insert_eq. reflexivity.
Qed.

Lemma get_attributes_saves_sample :
  requests (snd (get_attributes "0p25" EmptyString Sample.world0))
  = dds_url "0p25" EmptyString (today Sample.world0)
    :: das_url "0p25" EmptyString (utcnow Sample.world0) :: requests Sample.world0
  /\ saved_atts (snd (get_attributes "0p25" EmptyString Sample.world0))
     = (saved_atts Sample.world0 ++ ["0p25" +:+ EmptyString])%list
  /\ atts (snd (get_attributes "0p25" EmptyString Sample.world0))
     = <["0p25" +:+ EmptyString := sample_catalog]> (atts Sample.world0)
  /\ forall w2 : world,
       saved_atts w2 = saved_atts (snd (get_attributes "0p25" EmptyString Sample.world0)) ->
       atts w2 = atts (snd (get_attributes "0p25" EmptyString Sample.world0)) ->
       get_attributes "0p25" EmptyString w2 = (Ok sample_catalog, w2).
Proof.
  apply (get_attributes_saves "0p25" EmptyString Sample.world0
           (snd (get_attributes "0p25" EmptyString Sample.world0)) sample_catalog).
  - reflexivity.
  - by_evaluation.
Defined.

(** The world after a call of [get_attributes] that raises. *)
Lemma get_attributes_raise (res step : string) (w w' : world) (e : exn) :
  get_attributes res step w = (Raise e, w') ->
  saved_atts w' = saved_atts w /\ atts w' = atts w
  /\ (requests w' = requests w
      \/ requests w' = das_url res step (utcnow w) :: requests w
      \/ requests w'
         = dds_url res step (today w) :: das_url res step (utcnow w) :: requests w).
Proof.
  unfold get_attributes, reference_date.
  destruct (negb (existsb _ _)).
  - destruct (DT.hour (utcnow w) <? 6).
    { cbn [mbind result_bind rbind]. intros H. injection H as _ <-. auto. }
    cbn [mbind result_bind rbind]. rewrite url_das. unfold requests_get.
    destruct (negb (status_code (service w _) =? 200)).
    { intros H. injection H as _ <-. cbn. auto. }
    destruct (parse_das _) as [d|e'].
    2:{ intros H. injection H as _ <-. cbn. auto. }
    unfold fetch_dds. cbn [today service]. rewrite url_dds. unfold requests_get.
    cbn [service].
    destruct (negb (status_code (service w _) =? 200)).
    { intros H. injection H as _ <-. cbn. auto. }
    destruct (mark_level_dependence _ _) as [variables|e'].
    2:{ cbn [mbind result_bind rbind]. intros H. injection H as _ <-. cbn. auto. }
    cbn [mbind result_bind rbind]. destruct (das_time d).
    { intros H. injection H as H _. discriminate. }
    intros H. injection H as _ <-. cbn. auto.
  - destruct (atts w !! _).
    + intros H. injection H as H _. discriminate.
    + intros H. injection H as _ <-. auto.
Qed.

(** X21.  A call of [get_attributes] that raises saves nothing: the
    saved configurations and the stored catalogs are as before, and at
    most the two requests have been sent. *)
Theorem get_attributes_failure (res step : string) (w w' : world) (e : exn) :
  get_attributes res step w = (Raise e, w') ->
  saved_atts w' = saved_atts w /\ atts w' = atts w
  /\ (requests w' = requests w
      \/ requests w' = das_url res step (utcnow w) :: requests w
      \/ requests w'
         = dds_url res step (today w) :: das_url res step (utcnow w) :: requests w).
Proof. apply get_attributes_raise. Qed.

(** A service that knows no forecast, and one that has the metadata
    description of the sample but no array declarations. *)
Definition no_service (u : string) : response :=
  {| status_code := 404; text := EmptyString |}.

Definition das_only (u : string) : response :=
  if String.eqb (Str.slice_from u (-3)) "das" then Sample.service u else no_service u.

Definition offline : world := initial_world Sample.now Sample.now no_service.

Definition half_online : world := initial_world Sample.now Sample.now das_only.

Lemma get_attributes_failure_sample :
  saved_atts (snd (get_attributes "0p25" EmptyString offline)) = saved_atts offline
  /\ atts (snd (get_attributes "0p25" EmptyString offline)) = atts offline
  /\ (requests (snd (get_attributes "0p25" EmptyString offline)) = requests offline
      \/ requests (snd (get_attributes "0p25" EmptyString offline))
         = das_url "0p25" EmptyString (utcnow offline) :: requests offline
      \/ requests (snd (get_attributes "0p25" EmptyString offline))
         = dds_url "0p25" EmptyString (today offline)
           :: das_url "0p25" EmptyString (utcnow offline) :: requests offline).
Proof.
  apply (get_attributes_failure "0p25" EmptyString offline
           (snd (get_attributes "0p25" EmptyString offline)) (Exception not_found)).
  by_evaluation.
Defined.

(** X22.  For a configuration that is not saved, from 06:00 UTC on: if
    the service does not answer the request for the metadata
    description with status 200, [get_attributes] raises an Exception
    after that one request; if it does, the description is read, and
    the request for the array declarations is not answered with status
    200, it raises a RuntimeError with the same message after the two
    requests. *)
Theorem get_attributes_not_found (res step : string) (w : world) :
  existsb (String.eqb (res +:+ step)) (saved_atts w) = false ->
  6 <= DT.hour (utcnow w) ->
  (status_code (service w (das_url res step (utcnow w))) <> 200 ->
   fst (get_attributes res step w) = Raise (Exception not_found)
   /\ requests (snd (get_attributes res step w))
      = das_url res step (utcnow w) :: requests w)
  /\ (status_code (service w (das_url res step (utcnow w))) = 200 ->
      is_ok (parse_das (text (service w (das_url res step (utcnow w))))) = true ->
      status_code (service w (dds_url res step (today w))) <> 200 ->
      fst (get_attributes res step w) = Raise (RuntimeError not_found)
      /\ requests (snd (get_attributes res step w))
         = dds_url res step (today w) :: das_url res step (utcnow w) :: requests w).
Proof.
  intros Hkey Hh. unfold get_attributes, reference_date. rewrite Hkey. simpl negb.
  cbv iota. destruct (Z.ltb_spec (DT.hour (utcnow w)) 6) as [|_]; [lia|].
  cbn [mbind result_bind rbind]. rewrite url_das. unfold requests_get. split.
  - intros Hs. apply Z.eqb_neq in Hs. rewrite Hs. cbn. auto.
  - intros Hs Hp Hs2. rewrite Hs. cbn [Z.eqb negb Pos.eqb].
    change (200 =? 200) with true. cbn [negb].
    destruct (parse_das _) as [d|e]; [|discriminate].
    unfold fetch_dds. cbn [today service]. rewrite url_dds. unfold requests_get.
    cbn [service]. apply Z.eqb_neq in Hs2. rewrite Hs2. cbn. auto.
Qed.

Lemma get_attributes_not_found_sample :
  (fst (get_attributes "0p25" EmptyString offline) = Raise (Exception not_found)
   /\ requests (snd (get_attributes "0p25" EmptyString offline))
      = das_url "0p25" EmptyString (utcnow offline) :: requests offline)
  /\ fst (get_attributes "0p25" EmptyString half_online)
     = Raise (RuntimeError not_found)
  /\ requests (snd (get_attributes "0p25" EmptyString half_online))
     = dds_url "0p25" EmptyString (today half_online)
       :: das_url "0p25" EmptyString (utcnow half_online) :: requests half_online.
Proof.
  split.
  - apply (get_attributes_not_found "0p25" EmptyString offline).
    + reflexivity.
    + vm_compute. discriminate.
    + vm_compute. discriminate.
  - apply (get_attributes_not_found "0p25" EmptyString half_online).
    + reflexivity.
    + vm_compute. discriminate.
    + vm_compute. reflexivity.
    + vm_compute. reflexivity.
    + vm_compute. discriminate.
Defined.

(** X23.  [get_attributes] succeeds for a configuration that is not
    saved only if the metadata description has a block named time. *)
Theorem get_attributes_needs_time (res step : string) (w w' : world) (c : catalog) :
  existsb (String.eqb (res +:+ step)) (saved_atts w) = false ->
  get_attributes res step w = (Ok c, w') ->
  In "time" (map entity_name
               (das_entities (text (service w (das_url res step (utcnow w)))))).
Proof.
  intros Hkey Hget.
  destruct (get_attributes_unsaved _ _ _ _ _ Hkey Hget)
    as (_ & _ & _ & _ & d & Hd & Ht & _).
  destruct (read_entity_names _ _ _ Hd) as (_ & _ & Htime).
  rewrite Ht in Htime. cbn [das_time] in Htime.
  destruct (proj1 Htime ltac:(eauto)) as [[x Hx]|Hin]; [discriminate | exact Hin].
Qed.

Lemma get_attributes_needs_time_sample :
  In "time"
     (map entity_name
        (das_entities
           (text (service Sample.world0
                    (das_url "0p25" EmptyString (utcnow Sample.world0)))))).
Proof.
  apply (get_attributes_needs_time "0p25" EmptyString Sample.world0
           (snd (get_attributes "0p25" EmptyString Sample.world0)) sample_catalog).
  - reflexivity.
  - by_evaluation.
Defined.

(** Every saved configuration but the placeholder of a fresh
    installation has its catalog stored. *)
Definition cache_consistent (w : world) : Prop :=
  forall key : string,
    In key (saved_atts w) -> key <> "Na" -> is_Some (atts w !! key).

Lemma initial_cache_consistent (now local : Z) (srv : string -> response) :
  cache_consistent (initial_world now local srv).
Proof. intros key [<-|[]] Hna. congruence. Qed.

(** X24.  [get_attributes] keeps the cache consistent, whether it
    returns or raises: after it, every saved configuration other than
    the placeholder still has its catalog stored.  In a consistent
    cache a saved configuration other than the placeholder is returned
    from the cache, with no request sent. *)
Theorem cache_stays_consistent (res step : string) (w : world) :
  cache_consistent w ->
  cache_consistent (snd (get_attributes res step w))
  /\ (In (res +:+ step) (saved_atts w) -> res +:+ step <> "Na" ->
      exists c : catalog, get_attributes res step w = (Ok c, w)).
Proof.
  intros Hc. split.
  - destruct (get_attributes res step w) as [[c|e] w'] eqn:E; cbn [fst snd].
    + destruct (existsb (String.eqb (res +:+ step)) (saved_atts w)) eqn:Hkey.
      * unfold get_attributes in E. rewrite Hkey in E. cbn [negb] in E.
        destruct (atts w !! _); injection E as _ <-; exact Hc.
      * destruct (get_attributes_unsaved _ _ _ _ _ Hkey E) as (-> & _).
        intros key. cbn [saved_atts atts]. rewrite in_app_iff.
        intros [Hin|[<-|[]]] Hna.
        -- destruct (String.eqb_spec (res +:+ step) key) as [<-|Hne].
           ++ rewrite lookup_insert_eq. eauto.
           ++ rewrite lookup_insert_ne by exact Hne. now apply Hc.
        -- rewrite lookup_insert_eq. eauto.
    + destruct (get_attributes_raise _ _ _ _ _ E) as (Hs & Ha & _).
      intros key. rewrite Hs, Ha. apply Hc.
  - intros Hin Hna. destruct (Hc _ Hin Hna) as [c Hl]. exists c.
    unfold get_attributes. apply existsb_eqb_In in Hin. rewrite Hin. cbn [negb].
    now rewrite Hl.
Qed.

(** The world after the first call for the sample configuration. *)
Definition world1 : world := snd (get_attributes "0p25" EmptyString Sample.world0).

Lemma cache_stays_consistent_sample :
  exists c : catalog, get_attributes "0p25" EmptyString world1 = (Ok c, world1).
Proof.
  refine (proj2 (cache_stays_consistent "0p25" EmptyString world1
                   (proj1 (cache_stays_consistent "0p25" EmptyString Sample.world0
                             (initial_cache_consistent _ _ _)))) _ _).
  - vm_compute. auto.
  - vm_compute. discriminate.
Defined.

(** ** [Forcast.__init__] *)

Lemma get_attributes_again (res step : string) (w w' : world) (c : catalog) :
  get_attributes res step w = (Ok c, w') ->
  get_attributes res step w' = (Ok c, w').
Proof.
  intros Hget.
  destruct (existsb (String.eqb (res +:+ step)) (saved_atts w)) eqn:Hkey.
  - pose proof Hget as H. unfold get_attributes in H. rewrite Hkey in H.
    cbn [negb] in H. destruct (atts w !! _); [|discriminate].
    injection H as _ <-. exact Hget.
  - destruct (get_attributes_unsaved _ _ _ _ _ Hkey Hget) as (-> & _).
    unfold get_attributes. cbn [saved_atts atts].
    rewrite existsb_app_last. cbn [negb]. now rewrite lookup_insert_eq.
Qed.

(** X25.  A forecast that has been constructed can be constructed
    again: the second construction, in the world the first one left,
    gives the same forecast, sends no request and leaves the world as
    it is.  The forecast holds the resolution as given and the timestep
    with an underscore in front unless it is empty. *)
Theorem init_twice (resolution0 timestep0 : string) (w w' : world) (f : Forcast) :
  __init__ resolution0 timestep0 w = (Ok f, w') ->
  __init__ resolution0 timestep0 w' = (Ok f, w')
  /\ resolution f = resolution0
  /\ timestep f = timestep_suffix timestep0.
Proof.
  unfold __init__.
  destruct (get_attributes resolution0 (timestep_suffix timestep0) w)
    as [[c|e] w1] eqn:E; cbn [mbind result_bind rbind]; [|discriminate].
  intros H. injection H as <- <-.
  rewrite (get_attributes_again _ _ _ _ _ E). cbn [mbind result_bind rbind].
  split; [reflexivity|]. split; reflexivity.
Qed.

Lemma init_twice_sample :
  __init__ "0p25" EmptyString (snd (__init__ "0p25" EmptyString Sample.world0))
  = (Ok Sample.forcast, snd (__init__ "0p25" EmptyString Sample.world0))
  /\ resolution Sample.forcast = "0p25"
  /\ timestep Sample.forcast = timestep_suffix EmptyString.
Proof.
  apply (init_twice "0p25" EmptyString Sample.world0).
  by_evaluation.
Defined.
